(** * Kalshi API clients: a shallow embedding and its properties

    Two Python scripts are embedded here:

    - [kalshi_complete.py]: the command-line demo ([Module Complete]),
      class [KalshiClient] and the entry point [main];
    - [kalshi_simple_dashboard.py]: the Streamlit dashboard
      ([Module Dashboard]), class [SimpleKalshiClient].

    Both talk to a remote HTTP API through [requests.Session.get].  The
    remote side is an oracle held in the world: it answers the n-th request
    with an [Outcome].  Everything the scripts do to the outside (requests
    dispatched, lines printed, Streamlit messages, sleeps, the wall clock)
    is recorded in an explicit world that is threaded through the calls.

    The [while True] loop of [get_markets], which the source does not
    bound, takes a fuel argument; the answer [None] means "has not returned
    yet".  The retry of [safe_request] is a recursive call and is bounded by
    the interpreter's stack: it takes the room left on the stack as an
    argument. *)

From Stdlib Require Import ZArith QArith List String Ascii Bool Lia Lqa.
From Stdlib Require Import Permutation.
Import ListNotations.

Set Warnings "-register-all".

Close Scope Q_scope.
Local Open Scope string_scope.
Local Open Scope list_scope.

(** ** JSON values, as [response.json()] produces them

    [JNull] is Python's [None].  Numbers are kept to integers (prices in
    cents, counts, volumes).  A [JObj] is the parsed [dict]: its keys are in
    insertion order and looked up from the front. *)

Inductive json : Type :=
| JNull
| JBool (b : bool)
| JNum (n : Z)
| JStr (s : string)
| JArr (items : list json)
| JObj (fields : list (string * json)).

(** Python truth value testing: [None], [False], [0], [""], [[]] and [{}]
    are false, everything else is true. *)
Definition truthy (v : json) : bool :=
  match v with
  | JNull => false
  | JBool b => b
  | JNum n => negb (n =? 0)%Z
  | JStr s => negb (String.eqb s "")
  | JArr items => match items with [] => false | _ :: _ => true end
  | JObj fields => match fields with [] => false | _ :: _ => true end
  end.

(** ** Exceptions

    [TransportError], [HTTPError] and [JSONDecodeError] are the subclasses
    of [requests.exceptions.RequestException] that a GET can raise
    (connection failure or timeout; [raise_for_status]; [response.json()],
    which is a [RequestException] since requests 2.27).  The others are
    built-in exceptions raised by ill-typed data. *)

Inductive exn : Type :=
| TransportError (detail : string)
| HTTPError (status : Z)
| JSONDecodeError
| AttributeError
| TypeError
| OtherError (detail : string).

(** Raised by the interpreter when a call does not fit on its stack
    ([sys.getrecursionlimit()], 1000 frames by default); and by
    [json.loads] on arrays or objects nested too deep. *)
Definition RecursionError : exn := OtherError "RecursionError".

Definition is_RequestException (e : exn) : bool :=
  match e with
  | TransportError _ | HTTPError _ | JSONDecodeError => true
  | AttributeError | TypeError | OtherError _ => false
  end.

Inductive result (A : Type) : Type :=
| Ok (a : A)
| Raise (e : exn).

Arguments Ok {A} a.
Arguments Raise {A} e.

Definition bind {A B : Type} (r : result A) (k : A -> result B) : result B :=
  match r with
  | Ok a => k a
  | Raise e => Raise e
  end.

Declare Scope result_scope.
Delimit Scope result_scope with result.
Notation "'do' x <- r ; k" := (bind r (fun x => k))
  (at level 10, x name, r at level 100, k at level 200) : result_scope.
Local Open Scope result_scope.

(** The result is a [RequestException] on its way to the caller. *)
Definition propagates_request_error {A : Type} (r : result A) : Prop :=
  exists e, r = Raise e /\ is_RequestException e = true.

(** ** Dictionaries *)

Fixpoint lookup {A : Type} (key : string) (d : list (string * A)) : option A :=
  match d with
  | [] => None
  | (k, v) :: rest => if String.eqb k key then Some v else lookup key rest
  end.

(** [d[key] = v]: replaces the value in place when the key is there, else
    appends the pair (insertion order is kept). *)
Fixpoint dict_set {A : Type} (key : string) (v : A) (d : list (string * A))
  : list (string * A) :=
  match d with
  | [] => [(key, v)]
  | (k, v0) :: rest =>
      if String.eqb k key then (k, v) :: rest else (k, v0) :: dict_set key v rest
  end.

(** [data.get(key, default)]: only a [dict] has [.get]. *)
Definition dict_get (data : json) (key : string) (default : json) : result json :=
  match data with
  | JObj fields =>
      Ok (match lookup key fields with Some v => v | None => default end)
  | _ => Raise AttributeError
  end.

(** ** Text

    A Python [str] is a sequence of characters (code points).  A [string]
    holds its UTF-8 encoding, one [ascii] per byte: a character is a
    leading byte followed by its continuation bytes, the bytes
    [10xxxxxx].  (A well-formed text does not start with a continuation
    byte.) *)

Definition continuation (b : ascii) : bool :=
  match b with
  | Ascii _ _ _ _ _ _ b6 b7 => b7 && negb b6
  end.

(** [len(s)]: the number of characters. *)
Fixpoint str_len (s : string) : nat :=
  match s with
  | EmptyString => O
  | String b rest => if continuation b then str_len rest else S (str_len rest)
  end.

(** [s[:n]]: the first [n] characters. *)
Fixpoint str_prefix (n : nat) (s : string) : string :=
  match s with
  | EmptyString => EmptyString
  | String b rest =>
      if continuation b then String b (str_prefix n rest)
      else match n with
           | O => EmptyString
           | S n' => String b (str_prefix n' rest)
           end
  end.

(** The characters of [s], in order. *)
Fixpoint chars (s : string) : list string :=
  match s with
  | EmptyString => []
  | String b rest =>
      match chars rest with
      | ch :: more =>
          if match rest with
             | String c _ => continuation c
             | EmptyString => false
             end
          then String b ch :: more
          else String b EmptyString :: ch :: more
      | [] => [String b EmptyString]
      end
  end.

(** Iterating a value, as [list.extend] and [len] do: a list yields its
    items, a string its characters, a dict its keys; the rest is not
    iterable. *)
Definition py_iter (v : json) : result (list json) :=
  match v with
  | JArr items => Ok items
  | JStr s => Ok (map JStr (chars s))
  | JObj fields => Ok (map (fun kv => JStr (fst kv)) fields)
  | JNull | JBool _ | JNum _ => Raise TypeError
  end.

(** ** HTTP *)

Definition Params := list (string * json).

Record Request : Type := mkRequest {
  req_url : string;
  req_params : option Params;
  req_timeout : Z
}.

(** What the remote side does with one GET: the transport fails, or a
    response comes back with a status code and a body.  The body is given
    by what [response.json()] makes of it: the value parsed, or the
    exception raised, which is [JSONDecodeError] for a text that is not
    JSON, and can be another one for a text that is: [json.loads] raises
    [ValueError] on an integer of more than 4300 digits and
    [RecursionError] on arrays nested too deep, and [response.json()]
    lets these through as they are. *)
Inductive Outcome : Type :=
| Fails (detail : string)
| Responds (status : Z) (body : result json).

Record Response : Type := mkResponse {
  status_code : Z;
  resp_body : result json
}.

(** The n-th request of a run (counting from 0) and its content decide the
    outcome. *)
Definition Server := nat -> Request -> Outcome.

(** [response.raise_for_status()]: 4xx and 5xx raise [HTTPError]. *)
Definition raise_for_status (r : Response) : result unit :=
  if ((400 <=? status_code r) && (status_code r <? 600))%Z
  then Raise (HTTPError (status_code r))
  else Ok tt.

(** [response.json()] *)
Definition response_json (r : Response) : result json := resp_body r.

Definition BASE_URL : string := "https://api.elections.kalshi.com/trade-api/v2".

(** A mock server that plays a fixed script and then refuses connections. *)
Definition mock_server (script : list Outcome) : Server :=
  fun n _ => nth n script (Fails "connection refused").

Definition ok_page (data : json) : Outcome := Responds 200 (Ok data).

(** * kalshi_complete.py *)

Module Complete.

(** What [print] wrote, one entry per call.  [ApiErrorLine e] is
    [print(f"❌ API Error: {e}")] and [ExamplesErrorLine e] is the first
    line printed by [main]'s handler. *)
Inductive Printed : Type :=
| Line (s : string)
| ApiErrorLine (e : exn)
| ExamplesErrorLine (e : exn).

Record World : Type := mkWorld {
  server : Server;
  sent : list Request;        (* requests dispatched so far, oldest first *)
  stdout : list Printed       (* lines printed so far, oldest first *)
}.

Definition print (p : Printed) (w : World) : World :=
  mkWorld (server w) (sent w) (stdout w ++ [p]).

(** The outcome the remote side has in store for the next request. *)
Definition next_outcome (w : World) (r : Request) : Outcome :=
  server w (List.length (sent w)) r.

(** The world after one more request has been dispatched. *)
Definition dispatched (r : Request) (w : World) : World :=
  mkWorld (server w) (sent w ++ [r]) (stdout w).

(** [self.session.get(url, params=params, timeout=timeout)] *)
Definition session_get (url : string) (params : option Params) (timeout : Z)
  (w : World) : result Response * World :=
  let r := mkRequest url params timeout in
  match next_outcome w r with
  | Fails detail => (Raise (TransportError detail), dispatched r w)
  | Responds status body => (Ok (mkResponse status body), dispatched r w)
  end.

(** [KalshiClient.get] *)
Definition get (endpoint : string) (params : option Params) (w : World)
  : result json * World :=
  let (r, w1) := session_get (BASE_URL ++ endpoint) params 30 w in
  let tried :=
    do response <- r;
    do _ <- raise_for_status response;
    response_json response in
  match tried with
  | Ok data => (Ok data, w1)
  | Raise e =>
      if is_RequestException e
      then (Ok JNull, print (ApiErrorLine e) w1)
      else (Raise e, w1)
  end.

(** An optional string argument whose default is [None], tested with
    [if ticker:] or [if series_ticker:]. *)
Definition given (ticker : option string) : option string :=
  match ticker with
  | Some t => if String.eqb t "" then None else Some t
  | None => None
  end.

(** [if cursor: params['cursor'] = cursor] *)
Definition next_params (cursor : json) (params : Params) : Params :=
  if truthy cursor then dict_set "cursor" cursor params else params.

(** The [while True] loop of [get_markets]; the loop variables are
    [params], [all_markets] and [cursor]. *)
Fixpoint markets_loop (fuel : nat) (limit : Z) (params : Params)
  (all_markets : list json) (cursor : json) (w : World)
  : option (result (list json) * World) :=
  match fuel with
  | O => None
  | S fuel' =>
      let params := next_params cursor params in
      match get "/markets" (Some params) w with
      | (Raise e, w1) => Some (Raise e, w1)
      | (Ok data, w1) =>
          if negb (truthy data) then Some (Ok all_markets, w1)
          else
            let step :=
              do markets <- dict_get data "markets" (JArr []);
              do extra <- py_iter markets;
              do cursor' <- dict_get data "cursor" JNull;
              Ok (all_markets ++ extra, cursor',
                  negb (truthy cursor') || (Z.of_nat (List.length extra) <? limit)%Z) in
            match step with
            | Raise e => Some (Raise e, w1)
            | Ok (all_markets', cursor', stop) =>
                if stop then Some (Ok all_markets', w1)
                else markets_loop fuel' limit params all_markets' cursor' w1
            end
      end
  end.

(** [KalshiClient.get_markets(limit, status, series_ticker)] *)
Definition markets_params (limit : Z) (status : string)
  (series_ticker : option string) : Params :=
  let params := [("limit", JNum limit); ("status", JStr status)] in
  match given series_ticker with
  | Some t => dict_set "series_ticker" (JStr t) params
  | None => params
  end.

Definition get_markets (fuel : nat) (limit : Z) (status : string)
  (series_ticker : option string) (w : World)
  : option (result (list json) * World) :=
  markets_loop fuel limit (markets_params limit status series_ticker) [] JNull w.

(** [KalshiClient.get_market(ticker)] *)
Definition get_market (ticker : string) (w : World) : result json * World :=
  match get ("/markets/" ++ ticker) None w with
  | (Raise e, w1) => (Raise e, w1)
  | (Ok data, w1) =>
      ((if truthy data then dict_get data "market" JNull else Ok JNull), w1)
  end.

(** [KalshiClient.get_orderbook(ticker, depth)] *)
Definition get_orderbook (ticker : string) (depth : Z) (w : World)
  : result json * World :=
  let params := [("depth", JNum depth)] in
  match get ("/markets/" ++ ticker ++ "/orderbook") (Some params) w with
  | (Raise e, w1) => (Raise e, w1)
  | (Ok data, w1) =>
      ((if truthy data then dict_get data "orderbook" JNull else Ok JNull), w1)
  end.

(** [KalshiClient.get_trades(ticker, limit)] *)
Definition get_trades (ticker : option string) (limit : Z) (w : World)
  : result json * World :=
  let params := [("limit", JNum limit)] in
  let params := match given ticker with
                | Some t => dict_set "ticker" (JStr t) params
                | None => params
                end in
  match get "/markets/trades" (Some params) w with
  | (Raise e, w1) => (Raise e, w1)
  | (Ok data, w1) =>
      ((if truthy data then dict_get data "trades" (JArr []) else Ok (JArr [])), w1)
  end.

(** [KalshiClient.get_series(ticker)] *)
Definition get_series (ticker : option string) (w : World)
  : result json * World :=
  match given ticker with
  | Some t =>
      match get ("/series/" ++ t) None w with
      | (Raise e, w1) => (Raise e, w1)
      | (Ok data, w1) =>
          ((if truthy data then dict_get data "series" JNull else Ok JNull), w1)
      end
  | None =>
      match get "/series" None w with
      | (Raise e, w1) => (Raise e, w1)
      | (Ok data, w1) =>
          ((if truthy data then dict_get data "series" (JArr []) else Ok (JArr [])), w1)
      end
  end.

(** ** Vocabulary for the statements about pagination *)

(** The remote side answers the coming requests with [script], in order,
    whatever they ask. *)
Definition serves (w : World) (script : list Outcome) : Prop :=
  forall i o r,
    nth_error script i = Some o -> server w (List.length (sent w) + i) r = o.

(** A request that goes wrong, and the exception it raises inside [get]. *)
Inductive failure : Outcome -> exn -> Prop :=
| transport_failure detail :
    failure (Fails detail) (TransportError detail)
| http_failure status body :
    (400 <= status < 600)%Z ->
    failure (Responds status body) (HTTPError status)
| undecodable_body status :
    ~ (400 <= status < 600)%Z ->
    failure (Responds status (Raise JSONDecodeError)) JSONDecodeError.

(** A page of the markets endpoint: an object whose ["markets"] entry,
    when it has one, is a list. *)
Definition is_page (data : json) : bool :=
  match data with
  | JObj fields =>
      match lookup "markets" fields with
      | None | Some (JArr _) => true
      | Some _ => false
      end
  | _ => false
  end.

Definition page_items (data : json) : list json :=
  match data with
  | JObj fields =>
      match lookup "markets" fields with
      | Some (JArr items) => items
      | _ => []
      end
  | _ => []
  end.

Definition page_cursor (data : json) : json :=
  match data with
  | JObj fields =>
      match lookup "cursor" fields with
      | Some c => c
      | None => JNull
      end
  | _ => JNull
  end.

(** The page carries no cursor, or fewer items than the requested limit. *)
Definition last_page (limit : Z) (data : json) : bool :=
  negb (truthy (page_cursor data))
  || (Z.of_nat (List.length (page_items data)) <? limit)%Z.

(** The pages of a sequence up to and including the first [last_page]. *)
Fixpoint fetched (limit : Z) (pages : list json) : list json :=
  match pages with
  | [] => []
  | p :: rest => if last_page limit p then [p] else p :: fetched limit rest
  end.

Definition markets_request (params : Params) : Request :=
  mkRequest (BASE_URL ++ "/markets") (Some params) 30.

(** The requests that fetch [pages], the first one after [cursor]. *)
Fixpoint page_requests (limit : Z) (params : Params) (cursor : json)
  (pages : list json) : list Request :=
  match pages with
  | [] => []
  | p :: rest =>
      let params' := next_params cursor params in
      markets_request params'
        :: (if last_page limit p then []
            else page_requests limit params' (page_cursor p) rest)
  end.

(** The ["cursor"] query parameter of a request, if it has one. *)
Definition cursor_param (r : Request) : option json :=
  match req_params r with
  | Some params => lookup "cursor" params
  | None => None
  end.

(** ** The entry point *)

Fixpoint string_repeat (s : string) (n : nat) : string :=
  match n with
  | O => ""
  | S n' => s ++ string_repeat s n'
  end.

Definition print_lines (ls : list string) (w : World) : World :=
  fold_left (fun w l => print (Line l) w) ls w.

(** [display_welcome()]; [API_KEY] is what [os.getenv] returned. *)
Definition display_welcome (API_KEY : option string) (w : World) : World :=
  print_lines
    [ "🎯 Kalshi API Complete Implementation";
      string_repeat "=" 50;
      ("API Key: " ++ match given API_KEY with
                      | Some _ => "✅ Loaded"
                      | None => "❌ Missing"
                      end)%string;
      ("Base URL: " ++ BASE_URL)%string;
      string_repeat "=" 50 ] w.

Section Main.

(** The four demos that [main] runs in turn.  Each one creates a client,
    fetches and prints or plots; here a demo is any function of the world
    that returns, raises, or keeps running ([None]). *)
Definition Demo := World -> option (result unit * World).

Variables run_quick_start run_market_analysis run_series_explorer
  run_visualization : Demo.

Fixpoint run_all (demos : list Demo) (w : World) : option (result unit * World) :=
  match demos with
  | [] => Some (Ok tt, w)
  | d :: rest =>
      match d w with
      | None => None
      | Some (Raise e, w1) => Some (Raise e, w1)
      | Some (Ok _, w1) => run_all rest w1
      end
  end.

(** [main()].  [None] when a demo does not return. *)
Definition main (API_KEY : option string) (w : World) : option World :=
  let w := display_welcome API_KEY w in
  match given API_KEY with
  | None =>
      Some (print_lines
              [ "
⚠️  Please add your KALSHI_API_KEY to the .env file";
                "Example: KALSHI_API_KEY=your_api_key_here" ] w)
  | Some _ =>
      match run_all [run_quick_start; run_market_analysis;
                     run_series_explorer; run_visualization] w with
      | None => None
      | Some (Ok _, w1) =>
          Some (print_lines
                  [ "
🎉 All examples completed successfully!";
                    "
Next steps:";
                    "1. Check 'market_probabilities.png' for the visualization";
                    "2. Modify the code to explore different markets";
                    "3. Add your own analysis functions";
                    "4. Check the complete documentation for advanced features" ] w1)
      | Some (Raise e, w1) =>
          Some (print_lines
                  [ "Make sure your API key is valid and you have internet connection" ]
                  (print (ExamplesErrorLine e) w1))
      end
  end.

End Main.

(** ** Vocabulary for the statements about ill-formed answers *)

(** The value is not a [dict]. *)
Definition not_object (data : json) : Prop :=
  forall fields, data <> JObj fields.

(** A body on which the loop of [get_markets] raises, and what it raises:
    a true value that has no [.get], or an object whose ["markets"] entry
    cannot be iterated by [extend]. *)
Inductive malformed_page : json -> exn -> Prop :=
| page_not_object data :
    truthy data = true -> not_object data ->
    malformed_page data AttributeError
| markets_not_iterable fields markets :
    lookup "markets" fields = Some markets ->
    py_iter markets = Raise TypeError ->
    malformed_page (JObj fields) TypeError.

(** The query parameters of [get_trades]. *)
Definition trades_params (ticker : option string) (limit : Z) : Params :=
  ("limit", JNum limit)
    :: match given ticker with
       | Some t => [("ticker", JStr t)]
       | None => []
       end.

End Complete.

(** * kalshi_simple_dashboard.py *)

Module Dashboard.

Local Open Scope Q_scope.

(** [x < y] on rationals, as a boolean. *)
Definition Qlt_bool (x y : Q) : bool := negb (Qle_bool y x).

(** What Streamlit showed: [st.warning(msg)] and
    [st.error(f"API Error: {e}")]. *)
Inductive UiMessage : Type :=
| Warning (msg : string)
| Error (e : exn).

(** The world of the dashboard client.  Times are in seconds, as exact
    rationals.  [last_request] is the client's own field
    ([self.last_request]); the rest is the outside. *)
Record World : Type := mkWorld {
  now : Q;                       (* what time.time() returns *)
  server : Server;
  latency : nat -> Q;            (* how long the n-th HTTP exchange takes *)
  oversleep : nat -> Q;          (* how much longer than asked the n-th sleep lasts *)
  sent : list (Q * Request);     (* calls of session.get: time and request, oldest first *)
  slept : list Q;                (* durations passed to time.sleep, oldest first *)
  ui : list UiMessage;           (* Streamlit messages, oldest first *)
  last_request : Q
}.

(** A fresh client in a given outside world: [__init__] sets
    [last_request = 0]. *)
Definition init (t : Q) (srv : Server) (lat over : nat -> Q) : World :=
  mkWorld t srv lat over [] [] [] 0.

(** [time.sleep(d)]: at least [d] seconds pass. *)
Definition sleep (d : Q) (w : World) : World :=
  mkWorld (now w + d + oversleep w (List.length (slept w)))
          (server w) (latency w) (oversleep w)
          (sent w) (slept w ++ [d]) (ui w) (last_request w).

Definition st_warning (msg : string) (w : World) : World :=
  mkWorld (now w) (server w) (latency w) (oversleep w)
          (sent w) (slept w) (ui w ++ [Warning msg]) (last_request w).

Definition st_error (e : exn) (w : World) : World :=
  mkWorld (now w) (server w) (latency w) (oversleep w)
          (sent w) (slept w) (ui w ++ [Error e]) (last_request w).

Definition set_last_request (t : Q) (w : World) : World :=
  mkWorld (now w) (server w) (latency w) (oversleep w)
          (sent w) (slept w) (ui w) t.

(** The caller does something else for [d] seconds. *)
Definition elapse (d : Q) (w : World) : World :=
  mkWorld (now w + d) (server w) (latency w) (oversleep w)
          (sent w) (slept w) (ui w) (last_request w).

(** The outcome the remote side has in store for the next request. *)
Definition next_outcome (w : World) (r : Request) : Outcome :=
  server w (List.length (sent w)) r.

(** The world after one more exchange: the request is dispatched now and
    the exchange takes its latency. *)
Definition exchanged (r : Request) (w : World) : World :=
  mkWorld (now w + latency w (List.length (sent w)))
          (server w) (latency w) (oversleep w)
          (sent w ++ [(now w, r)]) (slept w) (ui w) (last_request w).

(** [self.session.get(url, params=params, timeout=timeout)] *)
Definition session_get (url : string) (params : option Params) (timeout : Z)
  (w : World) : result Response * World :=
  let r := mkRequest url params timeout in
  match next_outcome w r with
  | Fails detail => (Raise (TransportError detail), exchanged r w)
  | Responds status body => (Ok (mkResponse status body), exchanged r w)
  end.

(** A call that returned [a] in world [w]. *)
Inductive run (A : Type) : Type :=
| Returned (a : A) (w : World).

Arguments Returned {A} a w.

(** The rate limiting at the head of [safe_request]. *)
Definition pace (w : World) : World :=
  let current_time := now w in
  if Qlt_bool (current_time - last_request w) (1#2)
  then sleep ((1#2) - (current_time - last_request w)) w
  else w.

(** [SimpleKalshiClient.safe_request(endpoint, params)].  Whatever is raised
    inside the [try] is shown with [st.error] and turned into [None].

    The retry is a call of [safe_request] from within [safe_request]: each
    retry is one activation deeper on the interpreter's stack, and the
    stack is bounded.  [room] is the number of activations of
    [safe_request], counted from this one, in which the call of
    [session.get] still fits on the stack.  In an activation beyond them
    the call of [session.get], the deepest call of the body, is made and
    raises [RecursionError]; this happens inside the [try], so it is shown
    and turned into [None] like any other exception, and every activation
    above returns that [None]. *)
Fixpoint safe_request (room : nat) (endpoint : string) (params : option Params)
  (w : World) : run json :=
  let w1 := pace w in
  let (r, w2) := session_get (BASE_URL ++ endpoint) params 30 w1 in
  match room with
  | O => Returned JNull (st_error RecursionError w2)
  | S room' =>
      match r with
      | Raise e => Returned JNull (st_error e w2)
      | Ok response =>
          if (status_code response =? 429)%Z then
            let w3 := st_warning "Rate limited, waiting 3 seconds..." w2 in
            let w4 := sleep 3 w3 in
            safe_request room' endpoint params w4
          else
            match raise_for_status response with
            | Raise e => Returned JNull (st_error e w2)
            | Ok _ =>
                let w3 := set_last_request (now w2) w2 in
                match response_json response with
                | Raise e => Returned JNull (st_error e w3)
                | Ok data => Returned data w3
                end
            end
      end
  end.

(** [data.get(key, default) if data else default'] after a request. *)
Definition extract (key : string) (default : json) (r : run json)
  : run (result json) :=
  match r with
  | Returned data w =>
      Returned (if truthy data then dict_get data key default else Ok default) w
  end.

(** [SimpleKalshiClient.get_markets(limit)] *)
Definition get_markets (room : nat) (limit : Z) (w : World) : run (result json) :=
  let params := [("limit", JNum (Z.min limit 100)); ("status", JStr "open")] in
  extract "markets" (JArr []) (safe_request room "/markets" (Some params) w).

(** [SimpleKalshiClient.get_orderbook(ticker)] *)
Definition get_orderbook (room : nat) (ticker : string) (w : World)
  : run (result json) :=
  extract "orderbook" JNull
    (safe_request room ("/markets/" ++ ticker ++ "/orderbook") None w).

(** [SimpleKalshiClient.get_trades(limit)] *)
Definition get_trades (room : nat) (limit : Z) (w : World) : run (result json) :=
  let params := [("limit", JNum (Z.min limit 50))] in
  extract "trades" (JArr []) (safe_request room "/markets/trades" (Some params) w).

(** ** Vocabulary for the statements about the dashboard client *)

Definition request_of (endpoint : string) (params : option Params) : Request :=
  mkRequest (BASE_URL ++ endpoint) params 30.

(** The world in which the retry starts after a 429 answer: the exchange
    took place, the warning is shown and three seconds were slept. *)
Definition after_429 (endpoint : string) (params : option Params) (w : World)
  : World :=
  sleep 3 (st_warning "Rate limited, waiting 3 seconds..."
             (exchanged (request_of endpoint params) (pace w))).

(** The world a call ended in. *)
Definition final {A : Type} (r : run A) : World :=
  match r with
  | Returned _ w => w
  end.

(** What was dispatched since [w]. *)
Definition new_sent (w w' : World) : list (Q * Request) :=
  skipn (List.length (sent w)) (sent w').

(** The requests dispatched since [w] beyond the first one. *)
Definition retries (w w' : World) : nat :=
  (List.length (new_sent w w') - 1)%nat.

(** The remote side answers the coming requests [r] with [script], in
    order. *)
Definition serves (w : World) (r : Request) (script : list Outcome) : Prop :=
  forall i o,
    nth_error script i = Some o ->
    server w (List.length (sent w) + i)%nat r = o.

(** The remote side answers every request with status 429. *)
Definition always_rate_limited (w : World) : Prop :=
  forall n r, exists body, server w n r = Responds 429 body.

(** Time does not run backwards: exchanges take time and sleeps do not end
    early. *)
Definition time_flows (w : World) : Prop :=
  (forall n, 0 <= latency w n) /\ (forall n, 0 <= oversleep w n).

(** A request that goes wrong inside [safe_request], and the exception it
    raises there.  Status 429 is handled before [raise_for_status] and
    raises nothing. *)
Inductive failure : Outcome -> exn -> Prop :=
| transport_failure detail :
    failure (Fails detail) (TransportError detail)
| http_failure status body :
    (400 <= status < 600)%Z -> status <> 429%Z ->
    failure (Responds status body) (HTTPError status).

(** Each time is at least [gap] after the one before. *)
Fixpoint spaced (gap : Q) (times : list Q) : Prop :=
  match times with
  | t1 :: rest =>
      match rest with
      | t2 :: _ => t1 + gap <= t2 /\ spaced gap rest
      | [] => True
      end
  | [] => True
  end.

End Dashboard.

(** * Python operations used by the presentation code

    Subscripting, slicing, [len], [+] and [>=] on the values that
    [response.json()] produces.  [KeyError] and [ValueError] are recorded
    as [OtherError] with the name of their class; the length and the
    slices of a string count its characters, not the bytes of its
    encoding. *)

Module Python.

Definition KeyError : exn := OtherError "KeyError".
Definition ValueError : exn := OtherError "ValueError".

(** Slicing a [dict] raises: [TypeError] up to Python 3.11 (a slice cannot
    be hashed), [KeyError] since 3.12. *)
Definition SliceOfDict : exn := OtherError "TypeError or KeyError".

(** [v[key]] with a string key. *)
Definition getitem (v : json) (key : string) : result json :=
  match v with
  | JObj fields =>
      match lookup key fields with
      | Some x => Ok x
      | None => Raise KeyError
      end
  | _ => Raise TypeError
  end.

(** [len(v)] *)
Definition len (v : json) : result nat :=
  match v with
  | JArr items => Ok (List.length items)
  | JStr s => Ok (str_len s)
  | JObj fields => Ok (List.length fields)
  | JNull | JBool _ | JNum _ => Raise TypeError
  end.

(** [v[:n]] *)
Definition prefix (n : nat) (v : json) : result json :=
  match v with
  | JArr items => Ok (JArr (firstn n items))
  | JStr s => Ok (JStr (str_prefix n s))
  | JObj _ => Raise SliceOfDict
  | JNull | JBool _ | JNum _ => Raise TypeError
  end.

(** [v + s] with a string [s]. *)
Definition add_str (v : json) (s : string) : result json :=
  match v with
  | JStr t => Ok (JStr (t ++ s))
  | _ => Raise TypeError
  end.

(** [v >= n] with an integer [n]; [True] and [False] count as 1 and 0. *)
Definition ge (v : json) (n : Z) : result bool :=
  match v with
  | JNum x => Ok (n <=? x)%Z
  | JBool b => Ok (n <=? (if b then 1 else 0))%Z
  | _ => Raise TypeError
  end.

(** Lists and dicts cannot be keys of a [dict]. *)
Definition hashable (v : json) : bool :=
  match v with
  | JArr _ | JObj _ => false
  | _ => true
  end.

(** Equality of two keys of a [dict]: [True] is [1] and [False] is [0]. *)
Definition key_eqb (a b : json) : bool :=
  match a, b with
  | JNull, JNull => true
  | JStr s, JStr t => String.eqb s t
  | JNum x, JNum y => (x =? y)%Z
  | JBool x, JBool y => Bool.eqb x y
  | JBool x, JNum y | JNum y, JBool x => ((if x then 1 else 0) =? y)%Z
  | _, _ => false
  end.

End Python.

(** * kalshi_complete.py: the demos *)

Module Demos.

Import Complete.

(** [categories[cat].append(title)], after [categories[cat] = []] when
    [cat] is a new key.  The dict keeps its keys in the order they came
    in. *)
Fixpoint group_add (cat title : json) (categories : list (json * list json))
  : list (json * list json) :=
  match categories with
  | [] => [(cat, [title])]
  | (c, titles) :: rest =>
      if Python.key_eqb c cat then (c, titles ++ [title]) :: rest
      else (c, titles) :: group_add cat title rest
  end.

(** The first loop of [run_series_explorer]. *)
Fixpoint group_series (items : list json) (categories : list (json * list json))
  : result (list (json * list json)) :=
  match items with
  | [] => Ok categories
  | s :: rest =>
      do cat <- dict_get s "category" (JStr "Unknown");
      if Python.hashable cat then
        do title <- Python.getitem s "title";
        group_series rest (group_add cat title categories)
      else Raise TypeError
  end.

(** The label of a bar in [run_visualization]:
    [m['title'][:40] + '...' if len(m['title']) > 40 else m['title']]. *)
Definition bar_title (m : json) : result json :=
  do title <- Python.getitem m "title";
  do n <- Python.len title;
  if (40 <? n)%nat then
    do cut <- Python.prefix 40 title;
    Python.add_str cut "..."
  else Ok title.

(** ['green' if p >= 50 else 'red'] *)
Definition bar_color (p : json) : result string :=
  do high <- Python.ge p 50;
  Ok (if high then "green" else "red").

(** [mapM] on results: a comprehension whose element expression can
    raise. *)
Fixpoint comprehension {A B : Type} (f : A -> result B) (l : list A)
  : result (list B) :=
  match l with
  | [] => Ok []
  | x :: rest =>
      do y <- f x;
      do ys <- comprehension f rest;
      Ok (y :: ys)
  end.

(** Vocabulary for the statements about the grouping: the titles of all
    the groups, in order; the keys are pairwise different; the series [s]
    has its title in the group of its category. *)
Definition titles_of (categories : list (json * list json)) : list json :=
  List.concat (map snd categories).

Definition distinct_keys (categories : list (json * list json)) : Prop :=
  ForallOrdPairs (fun a b => Python.key_eqb a b = false) (map fst categories).

Definition filed (s : json) (categories : list (json * list json)) : Prop :=
  exists cat title c titles,
    dict_get s "category" (JStr "Unknown") = Ok cat
    /\ Python.getitem s "title" = Ok title
    /\ In (c, titles) categories
    /\ Python.key_eqb c cat = true
    /\ In title titles.

(** A series the loop can file, and a series on which it raises: a value
    that is not an object, a category that cannot be a key, or no title. *)
Definition series_ok (s : json) : Prop :=
  exists cat title,
    dict_get s "category" (JStr "Unknown") = Ok cat
    /\ Python.hashable cat = true
    /\ Python.getitem s "title" = Ok title.

Inductive bad_series : json -> exn -> Prop :=
| series_not_object s :
    Complete.not_object s -> bad_series s AttributeError
| series_category_unhashable s cat :
    dict_get s "category" (JStr "Unknown") = Ok cat ->
    Python.hashable cat = false ->
    bad_series s TypeError
| series_without_title fields cat :
    dict_get (JObj fields) "category" (JStr "Unknown") = Ok cat ->
    Python.hashable cat = true ->
    lookup "title" fields = None ->
    bad_series (JObj fields) Python.KeyError.

Section Presentation.

(** Python's [str()] on a JSON value and [format(v, ',')]; and matplotlib:
    [plt.figure(...)], then the rest of the plotting of
    [run_visualization], from [plt.barh] to [plt.savefig], which gets the
    titles, the prices and the colours. *)
Variable str_of : json -> string.
Variable format_grouped : json -> result string.
Variable open_figure : result unit.
Variable render : list json -> list json -> list string -> result unit.

Definition str_nat (n : nat) : string := str_of (JNum (Z.of_nat n)).

(** The body of the loop of [run_quick_start] on market number [i]. *)
Definition show_market (i : nat) (market : json) (w : World)
  : result unit * World :=
  match Python.getitem market "title" with
  | Raise e => (Raise e, w)
  | Ok title =>
      let w1 := print (Line ("
" ++ str_nat i ++ ". " ++ str_of title)) w in
      match Python.getitem market "ticker" with
      | Raise e => (Raise e, w1)
      | Ok ticker =>
          let w2 := print (Line ("   Ticker: " ++ str_of ticker)) w1 in
          match (do yes <- Python.getitem market "yes_price";
                 do no <- Python.getitem market "no_price";
                 Ok (yes, no)) with
          | Raise e => (Raise e, w2)
          | Ok (yes, no) =>
              let w3 := print (Line ("   YES: " ++ str_of yes ++ "¢ | NO: "
                                       ++ str_of no ++ "¢")) w2 in
              match (do volume <- Python.getitem market "volume";
                     format_grouped volume) with
              | Raise e => (Raise e, w3)
              | Ok volume =>
                  (Ok tt, print (Line ("   Volume: " ++ volume)) w3)
              end
          end
      end
  end.

(** A market of which [show_market] can print the four lines. *)
Definition market_ok (market : json) : Prop :=
  exists title ticker yes no volume text,
    Python.getitem market "title" = Ok title
    /\ Python.getitem market "ticker" = Ok ticker
    /\ Python.getitem market "yes_price" = Ok yes
    /\ Python.getitem market "no_price" = Ok no
    /\ Python.getitem market "volume" = Ok volume
    /\ format_grouped volume = Ok text.

(** [for i, market in enumerate(markets, 1): ...] *)
Fixpoint show_markets (i : nat) (markets : list json) (w : World)
  : result unit * World :=
  match markets with
  | [] => (Ok tt, w)
  | market :: rest =>
      match show_market i market w with
      | (Raise e, w1) => (Raise e, w1)
      | (Ok _, w1) => show_markets (S i) rest w1
      end
  end.

(** [run_quick_start()]; the fuel is for the pagination. *)
Definition run_quick_start (fuel : nat) : Demo := fun w =>
  let w := print (Line "
🚀 QUICK START - Fetching Markets...") w in
  match get_markets fuel 5 "open" None w with
  | None => None
  | Some (Raise e, w1) => Some (Raise e, w1)
  | Some (Ok markets, w1) =>
      match markets with
      | [] => Some (Ok tt, print (Line "❌ No markets found") w1)
      | _ :: _ =>
          Some (show_markets 1 markets
                  (print (Line ("✅ Found " ++ str_nat (List.length markets)
                                  ++ " markets:")) w1))
      end
  end.

(** The two loops that print the categories. *)
Definition show_category (entry : json * list json) (w : World) : World :=
  fold_left (fun w title => print (Line ("  - " ++ str_of title)) w)
    (snd entry)
    (print (Line ("
📁 " ++ str_of (fst entry) ++ ":")) w).

Definition show_categories (categories : list (json * list json)) (w : World)
  : World :=
  fold_left (fun w entry => show_category entry w) categories w.

(** [run_series_explorer()] *)
Definition run_series_explorer : Demo := fun w =>
  let w := print (Line "
🗂️  SERIES EXPLORER...") w in
  match get_series None w with
  | (Raise e, w1) => Some (Raise e, w1)
  | (Ok series, w1) =>
      if truthy series then
        match Python.len series with
        | Raise e => Some (Raise e, w1)
        | Ok n =>
            let w2 := print (Line ("✅ Found " ++ str_nat n ++ " series:")) w1 in
            match (do first <- Python.prefix 10 series;
                   do items <- py_iter first;
                   group_series items []) with
            | Raise e => Some (Raise e, w2)
            | Ok categories => Some (Ok tt, show_categories categories w2)
            end
        end
      else Some (Ok tt, print (Line "❌ No series found") w1)
  end.

(** [run_visualization()]; the fuel is for the pagination. *)
Definition run_visualization (fuel : nat) : Demo := fun w =>
  let w := print (Line "
📈 CREATING VISUALIZATION...") w in
  match get_markets fuel 15 "open" None w with
  | None => None
  | Some (Raise e, w1) => Some (Raise e, w1)
  | Some (Ok markets, w1) =>
      if (List.length markets <? 3)%nat then
        Some (Ok tt, print (Line "❌ Not enough markets for visualization") w1)
      else
        match (do titles <- comprehension bar_title markets;
               do yes_prices <-
                 comprehension (fun m => Python.getitem m "yes_price") markets;
               do _ <- open_figure;
               do colors <- comprehension bar_color yes_prices;
               render titles yes_prices colors) with
        | Raise e => Some (Raise e, w1)
        | Ok _ =>
            Some (Ok tt,
                  print (Line "✅ Visualization saved as 'market_probabilities.png'")
                    w1)
        end
  end.

End Presentation.

End Demos.

(** * kalshi_simple_dashboard.py: the charts *)

Module Charts.

(** The label of a bar: [d['title'][:30] + '...']. *)
Definition chart_label (d : json) : result json :=
  do title <- Python.getitem d "title";
  do cut <- Python.prefix 30 title;
  Python.add_str cut "...".

(** The two columns of the data frame, for the first ten items: the labels
    and [d.get(key, 0)]. *)
Definition chart_columns (key : string) (data : json)
  : result (list json * list json) :=
  do first <- Python.prefix 10 data;
  do items <- py_iter first;
  do labels <- Demos.comprehension chart_label items;
  do values <- Demos.comprehension (fun d => dict_get d key (JNum 0)) items;
  Ok (labels, values).

Section Drawing.

(** pandas and Streamlit: [bar_chart name labels values] is
    [pd.DataFrame({'Market': labels, name: values})], then
    [.set_index('Market')[name]] and [st.bar_chart] on that column.  What
    the data frame makes of the values (a [None] among numbers becomes
    [NaN]) and what is drawn is theirs to decide, and they can raise. *)
Variable bar_chart : string -> list json -> list json -> result unit.

(** [create_simple_chart(data, chart_type)] *)
Definition create_simple_chart (data : json) (chart_type : string)
  : result unit :=
  if negb (truthy data) then Ok tt
  else if String.eqb chart_type "bar" then
    do columns <- chart_columns "yes_price" data;
    bar_chart "Probability" (fst columns) (snd columns)
  else if String.eqb chart_type "volume" then
    do columns <- chart_columns "volume" data;
    bar_chart "Volume" (fst columns) (snd columns)
  else Ok tt.

End Drawing.

(** An item with a string as title. *)
Definition titled (d : json) : Prop :=
  exists fields title, d = JObj fields /\ lookup "title" fields = Some (JStr title).

(** The label of the bar of [d]: the first 30 characters of its title and
    three dots. *)
Definition labelled (d label : json) : Prop :=
  exists title,
    Python.getitem d "title" = Ok (JStr title)
    /\ label = JStr (str_prefix 30 title ++ "...").

(** The value of the bar of [d]: its entry under [key], or 0. *)
Definition valued (key : string) (d value : json) : Prop :=
  exists fields,
    d = JObj fields
    /\ value = match lookup key fields with Some v => v | None => JNum 0 end.

(** An item on which the label raises, and what it raises: a value that
    cannot be subscripted with a string, or an object without title. *)
Inductive bad_item : json -> exn -> Prop :=
| item_not_object d :
    Complete.not_object d -> bad_item d TypeError
| item_without_title fields :
    lookup "title" fields = None -> bad_item (JObj fields) Python.KeyError.

End Charts.

(** * Properties of kalshi_complete.py *)

Module CompleteProps.

Import Complete.

Lemma raise_for_status_ok status body :
  ~ (400 <= status < 600)%Z -> raise_for_status (mkResponse status body) = Ok tt.
Proof.
  intros H. unfold raise_for_status. cbn [status_code].
  destruct (400 <=? status)%Z eqn:E1; destruct (status <? 600)%Z eqn:E2;
    try reflexivity.
  exfalso. apply H. split; [apply Z.leb_le | apply Z.ltb_lt]; assumption.
Qed.

Lemma raise_for_status_error status body :
  (400 <= status < 600)%Z ->
  raise_for_status (mkResponse status body) = Raise (HTTPError status).
Proof.
  intros [H1 H2]. unfold raise_for_status. cbn [status_code].
  apply Z.leb_le in H1. apply Z.ltb_lt in H2. rewrite H1, H2. reflexivity.
Qed.

(** [get] returns a value, or raises what [response.json()] raised when
    that is not a [RequestException]. *)
Lemma get_cases endpoint params w :
  (exists data w', get endpoint params w = (Ok data, w'))
  \/ (exists e w',
        get endpoint params w = (Raise e, w')
        /\ is_RequestException e = false).
Proof.
  unfold get, session_get.
  destruct (next_outcome w _) as [detail | status body]; cbn [bind].
  - cbn. eauto.
  - unfold raise_for_status. cbn [status_code].
    destruct ((400 <=? status)%Z && (status <? 600)%Z); cbn; eauto.
    unfold response_json. cbn [resp_body].
    destruct body as [data | e]; cbn [bind]; eauto.
    destruct (is_RequestException e) eqn:E; eauto.
Qed.

Lemma get_ok endpoint params w status data :
  next_outcome w (mkRequest (BASE_URL ++ endpoint) params 30)
    = Responds status (Ok data) ->
  ~ (400 <= status < 600)%Z ->
  get endpoint params w
    = (Ok data, dispatched (mkRequest (BASE_URL ++ endpoint) params 30) w).
Proof.
  intros Hnext Hst. unfold get, session_get.
  rewrite Hnext. cbn [bind]. rewrite (raise_for_status_ok _ _ Hst).
  reflexivity.
Qed.

Lemma get_failed endpoint params w e :
  failure (next_outcome w (mkRequest (BASE_URL ++ endpoint) params 30)) e ->
  get endpoint params w
    = (Ok JNull,
       print (ApiErrorLine e)
         (dispatched (mkRequest (BASE_URL ++ endpoint) params 30) w)).
Proof.
  intros Hf. unfold get, session_get.
  destruct Hf as [detail | status body Hst | status Hst]; cbn [bind].
  - reflexivity.
  - rewrite (raise_for_status_error _ _ Hst). reflexivity.
  - rewrite (raise_for_status_ok _ _ Hst). reflexivity.
Qed.

Lemma serves_head w o script r :
  serves w (o :: script) -> next_outcome w r = o.
Proof.
  intros H. unfold next_outcome.
  rewrite <- (Nat.add_0_r (List.length (sent w))). apply H. reflexivity.
Qed.

Lemma serves_tail w o script r :
  serves w (o :: script) -> serves (dispatched r w) script.
Proof.
  intros H i o' r' Hi. unfold dispatched. cbn [server sent].
  rewrite length_app. cbn [List.length].
  replace (List.length (sent w) + 1 + i)%nat with (List.length (sent w) + S i)%nat by lia.
  apply H. exact Hi.
Qed.

Lemma page_requests_length limit params cursor pages :
  List.length (page_requests limit params cursor pages)
    = List.length (fetched limit pages).
Proof.
  revert params cursor. induction pages as [| p rest IH]; intros; cbn.
  - reflexivity.
  - destruct (last_page limit p); cbn; [reflexivity | now rewrite IH].
Qed.

(** One turn of the loop on a page. *)
Lemma markets_loop_page fuel limit params acc cursor w p :
  is_page p = true ->
  next_outcome w (markets_request (next_params cursor params)) = ok_page p ->
  markets_loop (S fuel) limit params acc cursor w
    = if last_page limit p
      then Some (Ok (acc ++ page_items p),
                 dispatched (markets_request (next_params cursor params)) w)
      else markets_loop fuel limit (next_params cursor params)
             (acc ++ page_items p) (page_cursor p)
             (dispatched (markets_request (next_params cursor params)) w).
Proof.
  intros Hp Hnext. cbn [markets_loop].
  unfold markets_request in *.
  rewrite (get_ok "/markets" _ w 200 p Hnext) by lia.
  destruct p as [| | | | | fields]; try discriminate Hp.
  destruct fields as [| f fields].
  - cbn. rewrite app_nil_r. reflexivity.
  - cbn [truthy negb]. unfold last_page, page_items, page_cursor.
    cbn [is_page] in Hp. cbn [dict_get bind].
    destruct (lookup "markets" (f :: fields)) as [[| | | | items |] |];
      try discriminate Hp; cbn [py_iter bind].
    + destruct (lookup "cursor" (f :: fields)) as [c |];
        destruct (_ || _); reflexivity.
    + cbn [List.length Z.of_nat]. rewrite app_nil_r.
      destruct (lookup "cursor" (f :: fields)) as [c |];
        destruct (_ || _); reflexivity.
Qed.

(** The loop over a sequence of pages that has a last page in it. *)
Lemma markets_loop_pages pages :
  forall fuel limit params acc cursor w,
    Forall (fun p => is_page p = true) pages ->
    Exists (fun p => last_page limit p = true) pages ->
    serves w (map ok_page pages) ->
    (List.length (fetched limit pages) <= fuel)%nat ->
    markets_loop fuel limit params acc cursor w
      = Some (Ok (acc ++ List.concat (map page_items (fetched limit pages))),
              mkWorld (server w)
                (sent w ++ page_requests limit params cursor pages)
                (stdout w)).
Proof.
  induction pages as [| p rest IH]; intros fuel limit params acc cursor w Hwf Hex Hsrv Hfuel.
  - inversion Hex.
  - inversion Hwf as [| ? ? Hp Hrest]; subst.
    cbn [map] in Hsrv.
    destruct fuel as [| fuel].
    { exfalso. cbn in Hfuel. destruct (last_page limit p); cbn in Hfuel; lia. }
    rewrite (markets_loop_page fuel limit params acc cursor w p Hp
               (serves_head _ _ _ _ Hsrv)).
    cbn [fetched page_requests] in *.
    destruct (last_page limit p) eqn:Hlast.
    + cbn [map List.concat]. rewrite app_nil_r. reflexivity.
    + assert (Hex' : Exists (fun p => last_page limit p = true) rest).
      { inversion Hex as [? ? H | ? ? H]; subst; [congruence | exact H]. }
      cbn [List.length] in Hfuel.
      rewrite (IH fuel limit _ _ _ _ Hrest Hex'
                 (serves_tail _ _ _ _ Hsrv) ltac:(lia)).
      unfold dispatched. cbn [server sent stdout map List.concat].
      rewrite <- !app_assoc. reflexivity.
Qed.

(** What [fetched] is: the pages before the first last page, and that one. *)
Lemma fetched_split limit pages :
  Exists (fun p => last_page limit p = true) pages ->
  exists before stop after,
    pages = before ++ stop :: after
    /\ Forall (fun p => last_page limit p = false) before
    /\ last_page limit stop = true
    /\ fetched limit pages = before ++ [stop].
Proof.
  induction pages as [| p rest IH]; intros Hex.
  - inversion Hex.
  - destruct (last_page limit p) eqn:Hlast.
    + exists [], p, rest. cbn. rewrite Hlast. repeat split; auto.
    + assert (Hex' : Exists (fun p => last_page limit p = true) rest).
      { inversion Hex as [? ? H | ? ? H]; subst; [congruence | exact H]. }
      destruct (IH Hex') as (before & stop & after & Hpages & Hbefore & Hstop & Hf).
      exists (p :: before), stop, after. cbn. rewrite Hlast, Hf, Hpages.
      repeat split; auto.
Qed.

Lemma lookup_dict_set {A : Type} key (v : A) d :
  lookup key (dict_set key v d) = Some v.
Proof.
  induction d as [| [k v0] rest IH]; cbn.
  - now rewrite String.eqb_refl.
  - destruct (String.eqb k key) eqn:E; cbn; rewrite E; auto.
Qed.

Lemma last_page_false_cursor limit p :
  last_page limit p = false -> truthy (page_cursor p) = true.
Proof.
  unfold last_page. intros H. apply orb_false_elim in H as [H _].
  now apply negb_false_iff in H.
Qed.

(** Every request after the first carries the cursor of the page before. *)
Lemma page_requests_cursors limit before stop after :
  Forall (fun p => last_page limit p = false) before ->
  last_page limit stop = true ->
  forall params cursor,
    map cursor_param (page_requests limit params cursor (before ++ stop :: after))
      = cursor_param (markets_request (next_params cursor params))
          :: map (fun p => Some (page_cursor p)) before.
Proof.
  intros Hbefore Hstop. induction Hbefore as [| p rest Hp Hrest IH]; intros params cursor.
  - cbn [app page_requests]. rewrite Hstop. reflexivity.
  - cbn [app page_requests]. rewrite Hp. cbn [map]. rewrite IH. f_equal. f_equal.
    unfold cursor_param, markets_request, next_params. cbn [req_params].
    rewrite (last_page_false_cursor _ _ Hp). apply lookup_dict_set.
Qed.

Lemma first_request_no_cursor limit status series_ticker :
  cursor_param (markets_request
                  (next_params JNull (markets_params limit status series_ticker)))
    = None.
Proof.
  unfold markets_params. destruct (given series_ticker); reflexivity.
Qed.

(** A sequence whose pages before the final one all continue splits at its
    final page only. *)
Lemma split_at_last_page limit front final before stop after :
  front ++ [final] = before ++ stop :: after ->
  Forall (fun p => last_page limit p = false) before ->
  last_page limit stop = true ->
  Forall (fun p => last_page limit p = false) front ->
  before = front /\ stop = final /\ after = [].
Proof.
  intros Hpages Hbefore Hstop Hfront. revert before Hpages Hbefore.
  induction Hfront as [| p front Hp Hfront IH]; intros before Hpages Hbefore.
  - destruct before as [| b before]; cbn in Hpages.
    + inversion Hpages. auto.
    + inversion Hpages. destruct before; discriminate.
  - destruct before as [| b before]; cbn in Hpages.
    + inversion Hpages; subst. congruence.
    + inversion Hpages; subst. inversion Hbefore; subst.
      destruct (IH before) as (-> & -> & ->); auto.
Qed.

Lemma mock_serves script out :
  serves (mkWorld (mock_server script) [] out) script.
Proof.
  intros i o r Hi. cbn. unfold mock_server. now apply nth_error_nth.
Qed.

(** C1. Let the markets endpoint hold a sequence of pages, each answered
    with status 200, the last of which carries no cursor (null, absent or
    empty).  Then [get_markets] returns: it fetched the pages up to and
    including the first one that carries no cursor or has fewer items than
    [limit] and no page after it, it returns the items of the fetched pages
    concatenated in order, each request after the first carried the cursor
    of the page before, and nothing was printed.  When no page before the
    last one is short, these are all the pages. *)
Theorem get_markets_concatenates_pages :
  forall limit status series_ticker front final w fuel,
    Forall (fun p => is_page p = true) (front ++ [final]) ->
    truthy (page_cursor final) = false ->
    serves w (map ok_page (front ++ [final])) ->
    (List.length front < fuel)%nat ->
    exists before stop after requests,
      front ++ [final] = before ++ stop :: after
      /\ Forall (fun p => last_page limit p = false) before
      /\ last_page limit stop = true
      /\ get_markets fuel limit status series_ticker w
         = Some (Ok (List.concat (map page_items (before ++ [stop]))),
                 mkWorld (server w) (sent w ++ requests) (stdout w))
      /\ List.length requests = S (List.length before)
      /\ map cursor_param requests
         = None :: map (fun p => Some (page_cursor p)) before
      /\ (Forall (fun p => last_page limit p = false) front ->
          before = front /\ stop = final /\ after = []).
Proof.
  intros limit status series_ticker front final w fuel Hwf Hfinal Hsrv Hfuel.
  assert (Hex : Exists (fun p => last_page limit p = true) (front ++ [final])).
  { apply Exists_app. right. constructor. unfold last_page. now rewrite Hfinal. }
  destruct (fetched_split limit _ Hex)
    as (before & stop & after & Hpages & Hbefore & Hstop & Hfetched).
  exists before, stop, after,
    (page_requests limit (markets_params limit status series_ticker) JNull
       (front ++ [final])).
  assert (Hlen : List.length (fetched limit (front ++ [final]))
                 = S (List.length before)).
  { rewrite Hfetched, length_app. cbn. lia. }
  repeat split; auto.
  - unfold get_markets.
    rewrite (markets_loop_pages (front ++ [final]) fuel limit _ [] JNull w Hwf Hex Hsrv).
    + rewrite Hfetched. reflexivity.
    + rewrite Hlen. assert (Hl := f_equal (@List.length json) Hpages).
      rewrite !length_app in Hl. cbn in Hl. lia.
  - now rewrite page_requests_length.
  - rewrite Hpages, (page_requests_cursors _ _ _ _ Hbefore Hstop).
    now rewrite first_request_no_cursor.
  - eapply split_at_last_page; eauto.
  - eapply split_at_last_page; eauto.
  - eapply split_at_last_page; eauto.
Qed.

(** Two pages of two and one markets, fetched with [limit = 2]. *)
Lemma get_markets_concatenates_pages_witness :
  let page1 := JObj [("markets", JArr [JStr "ABC"; JStr "DEF"]); ("cursor", JStr "c1")] in
  let page2 := JObj [("markets", JArr [JStr "GHI"]); ("cursor", JNull)] in
  let w := mkWorld (mock_server [ok_page page1; ok_page page2]) [] [] in
  exists before stop after requests,
    [page1; page2] = before ++ stop :: after
    /\ Forall (fun p => last_page 2 p = false) before
    /\ last_page 2 stop = true
    /\ get_markets 2 2 "open" None w
       = Some (Ok (List.concat (map page_items (before ++ [stop]))),
               mkWorld (server w) (sent w ++ requests) (stdout w))
    /\ List.length requests = S (List.length before)
    /\ map cursor_param requests
       = None :: map (fun p => Some (page_cursor p)) before
    /\ (Forall (fun p => last_page 2 p = false) [page1] ->
        before = [page1] /\ stop = page2 /\ after = []).
Proof.
  intros page1 page2 w.
  apply (get_markets_concatenates_pages 2 "open" None [page1] page2 w 2).
  - repeat constructor.
  - reflexivity.
  - apply mock_serves.
  - cbn. lia.
Defined.

(** The example of the specification: one page with one market and a null
    cursor, asked with [limit = 5]. *)
Example get_markets_one_market :
  let market := JObj [("ticker", JStr "ABC"); ("title", JStr "Will X happen?");
                      ("yes_price", JNum 63); ("no_price", JNum 37);
                      ("volume", JNum 1000); ("status", JStr "open")] in
  let page := JObj [("markets", JArr [market]); ("cursor", JNull)] in
  let w := mkWorld (mock_server [ok_page page]) [] [] in
  get_markets 1 5 "open" None w
  = Some (Ok [market],
          dispatched
            (markets_request [("limit", JNum 5); ("status", JStr "open")]) w).
Proof. reflexivity. Qed.

(** A short page stops the loop even when it carries a cursor. *)
Example get_markets_short_page_with_cursor :
  let page1 := JObj [("markets", JArr [JStr "ABC"]); ("cursor", JStr "c1")] in
  let page2 := JObj [("markets", JArr [JStr "DEF"]); ("cursor", JNull)] in
  let w := mkWorld (mock_server [ok_page page1; ok_page page2]) [] [] in
  get_markets 2 5 "open" None w
  = Some (Ok [JStr "ABC"],
          dispatched
            (markets_request [("limit", JNum 5); ("status", JStr "open")]) w).
Proof. reflexivity. Qed.

(** A server that always has a full page and a cursor keeps the loop
    going. *)
Example get_markets_endless :
  let page := JObj [("markets", JArr [JStr "ABC"]); ("cursor", JStr "again")] in
  get_markets 25 1 "open" None (mkWorld (fun _ _ => ok_page page) [] []) = None.
Proof. reflexivity. Qed.

(** ** Pagination cut short by a failing request *)

Lemma markets_loop_interrupted pages :
  forall fuel limit params acc cursor w o e,
    Forall (fun p => is_page p = true) pages ->
    Forall (fun p => last_page limit p = false) pages ->
    serves w (map ok_page pages ++ [o]) ->
    failure o e ->
    (List.length pages < fuel)%nat ->
    exists requests,
      markets_loop fuel limit params acc cursor w
        = Some (Ok (acc ++ List.concat (map page_items pages)),
                mkWorld (server w) (sent w ++ requests)
                  (stdout w ++ [ApiErrorLine e]))
      /\ List.length requests = S (List.length pages).
Proof.
  induction pages as [| p rest IH];
    intros fuel limit params acc cursor w o e Hwf Hcont Hsrv Hfail Hfuel.
  - destruct fuel as [| fuel]; [cbn in Hfuel; lia |].
    cbn [map app] in Hsrv.
    exists [markets_request (next_params cursor params)].
    split; [| reflexivity].
    cbn [markets_loop]. unfold markets_request.
    rewrite (get_failed "/markets" _ w e).
    + cbn. rewrite app_nil_r. reflexivity.
    + now rewrite (serves_head _ _ _ _ Hsrv).
  - destruct fuel as [| fuel]; [cbn in Hfuel; lia |].
    inversion Hwf as [| ? ? Hp Hwf']; subst.
    inversion Hcont as [| ? ? Hc Hcont']; subst.
    cbn [map app] in Hsrv.
    rewrite (markets_loop_page fuel limit params acc cursor w p Hp
               (serves_head _ _ _ _ Hsrv)).
    rewrite Hc.
    destruct (IH fuel limit (next_params cursor params) (acc ++ page_items p)
                (page_cursor p)
                (dispatched (markets_request (next_params cursor params)) w)
                o e Hwf' Hcont' (serves_tail _ _ _ _ Hsrv) Hfail)
      as (requests & Hrun & Hlen).
    { cbn in Hfuel. lia. }
    exists (markets_request (next_params cursor params) :: requests).
    split.
    + rewrite Hrun. unfold dispatched. cbn [server sent stdout map List.concat].
      rewrite <- !app_assoc. reflexivity.
    + cbn. now rewrite Hlen.
Qed.

(** C8. When [k] pages came back, each with a cursor and a full page, and
    the next fetch fails (transport error, HTTP error status or a body that
    is not JSON, so that [get] returns [None]), [get_markets] returns
    normally the list of the items of those [k] pages (the empty list when
    [k = 0]); the failure was printed once and is not raised. *)
Theorem get_markets_keeps_partial_results :
  forall limit status series_ticker pages o e w fuel,
    Forall (fun p => is_page p = true) pages ->
    Forall (fun p => last_page limit p = false) pages ->
    serves w (map ok_page pages ++ [o]) ->
    failure o e ->
    (List.length pages < fuel)%nat ->
    exists requests,
      get_markets fuel limit status series_ticker w
        = Some (Ok (List.concat (map page_items pages)),
                mkWorld (server w) (sent w ++ requests)
                  (stdout w ++ [ApiErrorLine e]))
      /\ List.length requests = S (List.length pages).
Proof.
  intros limit status series_ticker pages o e w fuel Hwf Hcont Hsrv Hfail Hfuel.
  unfold get_markets.
  exact (markets_loop_interrupted pages fuel limit _ [] JNull w o e
           Hwf Hcont Hsrv Hfail Hfuel).
Qed.

(** One full page of two markets, then the connection times out. *)
Lemma get_markets_keeps_partial_results_witness :
  let page1 := JObj [("markets", JArr [JStr "ABC"; JStr "DEF"]); ("cursor", JStr "c1")] in
  let w := mkWorld (mock_server [ok_page page1; Fails "timed out"]) [] [] in
  exists requests,
    get_markets 5 2 "open" None w
      = Some (Ok [JStr "ABC"; JStr "DEF"],
              mkWorld (server w) (sent w ++ requests)
                (stdout w ++ [ApiErrorLine (TransportError "timed out")]))
    /\ List.length requests = 2%nat.
Proof.
  intros page1 w.
  apply (get_markets_keeps_partial_results 2 "open" None [page1]
           (Fails "timed out") (TransportError "timed out") w 5).
  - repeat constructor.
  - repeat constructor.
  - apply mock_serves.
  - constructor.
  - cbn. lia.
Defined.

(** ** The orderbook *)

Lemma lookup_some_truthy key fields (v : json) :
  lookup key fields = Some v -> truthy (JObj fields) = true.
Proof. destruct fields; [discriminate | reflexivity]. Qed.

(** C6. [get_orderbook(ticker, depth)] dispatches one request to
    [/markets/{ticker}/orderbook] whose only query parameter is [depth],
    with the caller's value, and returns the ["orderbook"] entry of the
    response as it is, whatever it holds and whatever [depth] was: nothing
    is cut off and nothing is added. *)
Theorem get_orderbook_returns_server_orderbook :
  forall ticker depth w status fields orderbook,
    next_outcome w
      (mkRequest (BASE_URL ++ "/markets/" ++ ticker ++ "/orderbook")
         (Some [("depth", JNum depth)]) 30)
      = Responds status (Ok (JObj fields)) ->
    ~ (400 <= status < 600)%Z ->
    lookup "orderbook" fields = Some orderbook ->
    get_orderbook ticker depth w
      = (Ok orderbook,
         dispatched
           (mkRequest (BASE_URL ++ "/markets/" ++ ticker ++ "/orderbook")
              (Some [("depth", JNum depth)]) 30) w).
Proof.
  intros ticker depth w status fields orderbook Hnext Hst Hob.
  unfold get_orderbook.
  rewrite (get_ok _ _ w status (JObj fields) Hnext Hst).
  rewrite (lookup_some_truthy _ _ _ Hob). cbn [dict_get]. now rewrite Hob.
Qed.

(** Asked for 3 levels, the remote side answers with 5: all 5 come back. *)
Lemma get_orderbook_returns_server_orderbook_witness :
  let level price count := JObj [("price", JNum price); ("count", JNum count)] in
  let book := JObj [("yes_bid", JNum 63); ("no_bid", JNum 37);
                    ("bids", JArr [level 63 10; level 62 4; level 61 7;
                                   level 60 1; level 59 12])]%Z in
  let w := mkWorld (mock_server [ok_page (JObj [("orderbook", book)])]) [] [] in
  get_orderbook "ABC" 3 w
    = (Ok book,
       dispatched
         (mkRequest (BASE_URL ++ "/markets/" ++ "ABC" ++ "/orderbook")
            (Some [("depth", JNum 3)]) 30) w).
Proof.
  intros level book w.
  apply (get_orderbook_returns_server_orderbook "ABC" 3 w 200
           [("orderbook", book)] book).
  - reflexivity.
  - lia.
  - reflexivity.
Defined.

(** ** The entry point *)

(** C7. Without [KALSHI_API_KEY] in the environment, [main] returns after
    printing the welcome banner and the two lines that ask for the key.  It
    dispatches no request and runs none of the four demos: the outcome is
    the same whatever the demos are, even ones that would raise or never
    return. *)
Theorem main_without_api_key_stops :
  forall run_quick_start run_market_analysis run_series_explorer
         run_visualization w,
    main run_quick_start run_market_analysis run_series_explorer
         run_visualization None w
    = Some (mkWorld (server w) (sent w)
              (stdout w ++
               [ Line "🎯 Kalshi API Complete Implementation";
                 Line (string_repeat "=" 50);
                 Line "API Key: ❌ Missing";
                 Line ("Base URL: " ++ BASE_URL);
                 Line (string_repeat "=" 50);
                 Line "
⚠️  Please add your KALSHI_API_KEY to the .env file";
                 Line "Example: KALSHI_API_KEY=your_api_key_here" ])).
Proof.
  intros. unfold main, display_welcome, print_lines, print.
  cbn [given fold_left server sent stdout]. rewrite <- !app_assoc. reflexivity.
Qed.

(** ** Errors of the transport are absorbed *)

Lemma dict_get_raises data key default e :
  dict_get data key default = Raise e -> e = AttributeError.
Proof. destruct data; cbn; congruence. Qed.

Lemma py_iter_raises v e : py_iter v = Raise e -> e = TypeError.
Proof. destruct v; cbn; congruence. Qed.

Lemma select_no_request_error (data : json) key default default' :
  ~ propagates_request_error
      (if truthy data then dict_get data key default else Ok default').
Proof.
  intros (e & He & Hreq). destruct (truthy data); [| discriminate].
  apply dict_get_raises in He. subst. discriminate.
Qed.

Lemma get_no_request_error endpoint params w :
  ~ propagates_request_error (fst (get endpoint params w)).
Proof.
  destruct (get_cases endpoint params w)
    as [(data & w' & ->) | (e & w' & -> & He)].
  - intros (e & He & _). discriminate.
  - intros (e' & He' & Hreq). cbn [fst] in He'. congruence.
Qed.

Lemma markets_loop_no_request_error fuel :
  forall limit params acc cursor w r w',
    markets_loop fuel limit params acc cursor w = Some (r, w') ->
    ~ propagates_request_error r.
Proof.
  induction fuel as [| fuel IH]; intros limit params acc cursor w r w' Hrun;
    cbn [markets_loop] in Hrun; [discriminate |].
  destruct (get_cases "/markets" (Some (next_params cursor params)) w)
    as [(data & w1 & Hget) | (e0 & w1 & Hget & He0)];
    rewrite Hget in Hrun.
  2:{ inversion Hrun; subst. intros (e & He & Hreq). congruence. }
  destruct (negb (truthy data)).
  { inversion Hrun; subst. intros (e & He & _). discriminate. }
  destruct (dict_get data "markets" (JArr [])) as [markets | e1] eqn:E1;
    cbn [bind] in Hrun.
  2:{ inversion Hrun; subst. apply dict_get_raises in E1. subst.
      intros (e & He & Hreq). inversion He; subst. discriminate. }
  destruct (py_iter markets) as [extra | e2] eqn:E2; cbn [bind] in Hrun.
  2:{ inversion Hrun; subst. apply py_iter_raises in E2. subst.
      intros (e & He & Hreq). inversion He; subst. discriminate. }
  destruct (dict_get data "cursor" JNull) as [cursor' | e3] eqn:E3;
    cbn [bind] in Hrun.
  2:{ inversion Hrun; subst. apply dict_get_raises in E3. subst.
      intros (e & He & Hreq). inversion He; subst. discriminate. }
  destruct (negb (truthy cursor') || _).
  - inversion Hrun; subst. intros (e & He & _). discriminate.
  - eapply IH; eauto.
Qed.

(** The shape shared by the single-request operations. *)
Lemma client_call_no_request_error endpoint params w key default default' :
  ~ propagates_request_error
      (fst (match get endpoint params w with
            | (Raise e, w1) => (Raise e, w1)
            | (Ok data, w1) =>
                ((if truthy data then dict_get data key default else Ok default'),
                 w1)
            end)).
Proof.
  destruct (get_cases endpoint params w)
    as [(data & w' & ->) | (e & w' & -> & He)]; cbn [fst].
  - apply select_no_request_error.
  - intros (e' & He' & Hreq). congruence.
Qed.

Lemma get_markets_first_fetch_failed limit status series_ticker w e fuel :
  failure (next_outcome w
             (markets_request (markets_params limit status series_ticker))) e ->
  exists w',
    get_markets (S fuel) limit status series_ticker w = Some (Ok [], w')
    /\ stdout w' = stdout w ++ [ApiErrorLine e].
Proof.
  intros Hf. unfold get_markets. cbn [markets_loop].
  unfold markets_request, next_params in *. cbn [truthy] in *.
  rewrite (get_failed "/markets" _ w e Hf). cbn [truthy negb].
  eexists. split; reflexivity.
Qed.

Lemma get_market_failed ticker w e :
  failure (next_outcome w (mkRequest (BASE_URL ++ "/markets/" ++ ticker) None 30)) e ->
  get_market ticker w
    = (Ok JNull,
       print (ApiErrorLine e)
         (dispatched (mkRequest (BASE_URL ++ "/markets/" ++ ticker) None 30) w)).
Proof.
  intros Hf. unfold get_market. now rewrite (get_failed _ _ w e Hf).
Qed.

Lemma get_orderbook_failed ticker depth w e :
  failure (next_outcome w
             (mkRequest (BASE_URL ++ "/markets/" ++ ticker ++ "/orderbook")
                (Some [("depth", JNum depth)]) 30)) e ->
  get_orderbook ticker depth w
    = (Ok JNull,
       print (ApiErrorLine e)
         (dispatched
            (mkRequest (BASE_URL ++ "/markets/" ++ ticker ++ "/orderbook")
               (Some [("depth", JNum depth)]) 30) w)).
Proof.
  intros Hf. unfold get_orderbook. now rewrite (get_failed _ _ w e Hf).
Qed.

Lemma get_series_failed w e :
  failure (next_outcome w (mkRequest (BASE_URL ++ "/series") None 30)) e ->
  get_series None w
    = (Ok (JArr []),
       print (ApiErrorLine e)
         (dispatched (mkRequest (BASE_URL ++ "/series") None 30) w)).
Proof.
  intros Hf. unfold get_series. cbn [given].
  now rewrite (get_failed _ _ w e Hf).
Qed.

End CompleteProps.

(** * Properties of kalshi_simple_dashboard.py *)

Module DashboardProps.

Import Dashboard.
Local Open Scope Q_scope.

Lemma Qlt_bool_iff x y : Qlt_bool x y = true <-> x < y.
Proof.
  unfold Qlt_bool. rewrite negb_true_iff. split.
  - intros H. apply Qnot_le_lt. intros Hle.
    apply Qle_bool_iff in Hle. congruence.
  - intros H. destruct (Qle_bool y x) eqn:E; [| reflexivity].
    apply Qle_bool_iff in E. apply Qlt_not_le in H. contradiction.
Qed.

(** ** One attempt *)

(** [safe_request] unfolded once, by what the remote side answers. *)
Lemma safe_request_step room endpoint params w :
  safe_request (S room) endpoint params w
  = let r := request_of endpoint params in
    let w2 := exchanged r (pace w) in
    match next_outcome (pace w) r with
    | Fails detail => Returned JNull (st_error (TransportError detail) w2)
    | Responds status body =>
        if (status =? 429)%Z
        then safe_request room endpoint params (after_429 endpoint params w)
        else if ((400 <=? status) && (status <? 600))%Z
        then Returned JNull (st_error (HTTPError status) w2)
        else match body with
             | Ok data => Returned data (set_last_request (now w2) w2)
             | Raise e =>
                 Returned JNull (st_error e (set_last_request (now w2) w2))
             end
    end.
Proof.
  cbn [safe_request]. unfold session_get, after_429, request_of.
  destruct (next_outcome (pace w) _) as [detail | status body]; cbn zeta.
  - reflexivity.
  - cbn [status_code]. destruct (status =? 429)%Z; [reflexivity |].
    unfold raise_for_status, response_json. cbn [status_code resp_body].
    destruct ((400 <=? status)%Z && (status <? 600)%Z); [reflexivity |].
    destruct body; reflexivity.
Qed.

(** With no room left on the stack, the call of [session.get] raises
    [RecursionError], whatever the remote side has in store. *)
Lemma safe_request_exhausted endpoint params w :
  safe_request O endpoint params w
  = Returned JNull
      (st_error RecursionError
         (exchanged (request_of endpoint params) (pace w))).
Proof.
  cbn [safe_request]. unfold session_get, request_of.
  destruct (next_outcome (pace w) _); reflexivity.
Qed.

Lemma error_status_true status :
  (400 <= status < 600)%Z -> ((400 <=? status) && (status <? 600))%Z = true.
Proof.
  intros [H1 H2]. apply Z.leb_le in H1. apply Z.ltb_lt in H2.
  now rewrite H1, H2.
Qed.

Lemma error_status_false status :
  ~ (400 <= status < 600)%Z -> ((400 <=? status) && (status <? 600))%Z = false.
Proof.
  intros H. destruct (400 <=? status)%Z eqn:E1; destruct (status <? 600)%Z eqn:E2;
    try reflexivity.
  exfalso. apply H. split; [apply Z.leb_le | apply Z.ltb_lt]; assumption.
Qed.

Lemma safe_request_429 room endpoint params w body :
  next_outcome (pace w) (request_of endpoint params) = Responds 429 body ->
  safe_request (S room) endpoint params w
  = safe_request room endpoint params (after_429 endpoint params w).
Proof. intros H. rewrite safe_request_step. cbn zeta. now rewrite H. Qed.

Lemma safe_request_success room endpoint params w status data :
  next_outcome (pace w) (request_of endpoint params)
    = Responds status (Ok data) ->
  status <> 429%Z -> ~ (400 <= status < 600)%Z ->
  safe_request (S room) endpoint params w
  = Returned data
      (set_last_request
         (now (exchanged (request_of endpoint params) (pace w)))
         (exchanged (request_of endpoint params) (pace w))).
Proof.
  intros H H429 Hst. rewrite safe_request_step. cbn zeta. rewrite H.
  apply Z.eqb_neq in H429. rewrite H429, (error_status_false _ Hst).
  reflexivity.
Qed.

Lemma safe_request_failed room endpoint params w e :
  failure (next_outcome (pace w) (request_of endpoint params)) e ->
  safe_request (S room) endpoint params w
  = Returned JNull
      (st_error e (exchanged (request_of endpoint params) (pace w))).
Proof.
  intros Hf. rewrite safe_request_step. cbn zeta.
  destruct Hf as [detail | status body Hst H429].
  - reflexivity.
  - apply Z.eqb_neq in H429. rewrite H429, (error_status_true _ Hst).
    reflexivity.
Qed.

(** The cases of a call, as an induction principle. *)
Lemma safe_request_cases endpoint params
  (P : nat -> World -> run json -> Prop) :
  (forall w,
      P O w
        (Returned JNull
           (st_error RecursionError
              (exchanged (request_of endpoint params) (pace w))))) ->
  (forall room w e,
      failure (next_outcome (pace w) (request_of endpoint params)) e ->
      P (S room) w
        (Returned JNull
           (st_error e (exchanged (request_of endpoint params) (pace w))))) ->
  (forall room w status body,
      next_outcome (pace w) (request_of endpoint params) = Responds status body ->
      status <> 429%Z -> ~ (400 <= status < 600)%Z ->
      let w2 := exchanged (request_of endpoint params) (pace w) in
      P (S room) w
        (match body with
         | Ok data => Returned data (set_last_request (now w2) w2)
         | Raise e =>
             Returned JNull (st_error e (set_last_request (now w2) w2))
         end)) ->
  (forall room w body res,
      next_outcome (pace w) (request_of endpoint params) = Responds 429 body ->
      P room (after_429 endpoint params w) res -> P (S room) w res) ->
  forall room w, P room w (safe_request room endpoint params w).
Proof.
  intros Hrun Hfail Hresp Hretry.
  induction room as [| room IH]; intros w;
    [rewrite safe_request_exhausted; apply Hrun |].
  rewrite safe_request_step. cbn zeta.
  destruct (next_outcome (pace w) (request_of endpoint params))
    as [detail | status body] eqn:Hnext.
  - apply Hfail. rewrite Hnext. constructor.
  - destruct (Z.eqb_spec status 429) as [-> | H429].
    + eapply Hretry; [exact Hnext | apply IH].
    + destruct ((400 <=? status)%Z && (status <? 600)%Z) eqn:Hst.
      * apply Hfail. rewrite Hnext. constructor; [| exact H429].
        apply andb_true_iff in Hst as [H1 H2].
        split; [now apply Z.leb_le | now apply Z.ltb_lt].
      * apply (Hresp room w status body Hnext H429).
        intros [H1 H2]. apply Z.leb_le in H1. apply Z.ltb_lt in H2.
        rewrite H1, H2 in Hst. discriminate.
Qed.

(** ** Pacing *)

Lemma pace_sleeps w :
  now w - last_request w < 1#2 ->
  pace w = sleep ((1#2) - (now w - last_request w)) w.
Proof. intros H. unfold pace. apply Qlt_bool_iff in H. now rewrite H. Qed.

Lemma pace_idle w :
  ~ now w - last_request w < 1#2 -> pace w = w.
Proof.
  intros H. unfold pace.
  destruct (Qlt_bool (now w - last_request w) (1#2)) eqn:E; [| reflexivity].
  apply Qlt_bool_iff in E. contradiction.
Qed.

Lemma pace_cases w :
  pace w = w \/ pace w = sleep ((1#2) - (now w - last_request w)) w.
Proof. unfold pace. destruct (Qlt_bool _ _); auto. Qed.

(** Pacing touches the clock and the record of sleeps only. *)
Lemma pace_frame w :
  server (pace w) = server w /\ latency (pace w) = latency w
  /\ oversleep (pace w) = oversleep w /\ sent (pace w) = sent w
  /\ ui (pace w) = ui w /\ last_request (pace w) = last_request w.
Proof. destruct (pace_cases w) as [-> | ->]; cbn; repeat split. Qed.

(** After pacing, at least half a second has passed since the recorded
    time of the last request. *)
Lemma pace_waits w :
  (forall n, 0 <= oversleep w n) ->
  last_request w + (1#2) <= now (pace w).
Proof.
  intros Hover. unfold pace.
  destruct (Qlt_bool (now w - last_request w) (1#2)) eqn:E.
  - cbn [sleep now]. specialize (Hover (List.length (slept w))). lra.
  - assert (H : ~ now w - last_request w < 1#2).
    { intros H. apply Qlt_bool_iff in H. congruence. }
    lra.
Qed.

Lemma after_429_frame endpoint params w :
  server (after_429 endpoint params w) = server w
  /\ latency (after_429 endpoint params w) = latency w
  /\ oversleep (after_429 endpoint params w) = oversleep w
  /\ last_request (after_429 endpoint params w) = last_request w
  /\ sent (after_429 endpoint params w)
     = sent w ++ [(now (pace w), request_of endpoint params)]
  /\ ui (after_429 endpoint params w)
     = ui w ++ [Warning "Rate limited, waiting 3 seconds..."]
  /\ slept (after_429 endpoint params w) = slept (pace w) ++ [3].
Proof.
  destruct (pace_frame w) as (Hs & Hl & Ho & Hsent & Hui & Hlast).
  unfold after_429, sleep, st_warning, exchanged.
  cbn [server latency oversleep last_request sent ui slept now].
  rewrite Hs, Hl, Ho, Hsent, Hui, Hlast. repeat split.
Qed.

Lemma time_flows_after_429 endpoint params w :
  time_flows w -> time_flows (after_429 endpoint params w).
Proof.
  destruct (after_429_frame endpoint params w) as (_ & Hl & Ho & _).
  unfold time_flows. now rewrite Hl, Ho.
Qed.

(** The retry after a 429 answer does not have to pace: more than three
    seconds went by. *)
Lemma pace_after_429 endpoint params w :
  time_flows w ->
  pace (after_429 endpoint params w) = after_429 endpoint params w.
Proof.
  intros [Hlat Hover]. apply pace_idle.
  destruct (after_429_frame endpoint params w) as (_ & _ & _ & -> & _).
  assert (H := pace_waits w Hover).
  destruct (pace_frame w) as (_ & Hl & Ho & _).
  unfold after_429, sleep, st_warning, exchanged.
  cbn [now latency oversleep sent slept]. rewrite Hl, Ho.
  specialize (Hlat (List.length (sent (pace w)))).
  specialize (Hover (List.length (slept (pace w)))). lra.
Qed.

Lemma serves_next_outcome w r o script :
  serves w r (o :: script) -> next_outcome (pace w) r = o.
Proof.
  intros H. unfold next_outcome.
  destruct (pace_frame w) as (-> & _ & _ & -> & _).
  rewrite <- (Nat.add_0_r (List.length (sent w))). apply H. reflexivity.
Qed.

Lemma serves_after_429 w endpoint params o script :
  serves w (request_of endpoint params) (o :: script) ->
  serves (after_429 endpoint params w) (request_of endpoint params) script.
Proof.
  intros H i o' Hi.
  destruct (after_429_frame endpoint params w) as (-> & _ & _ & _ & -> & _).
  rewrite length_app. cbn [List.length].
  replace (List.length (sent w) + 1 + i)%nat
    with (List.length (sent w) + S i)%nat by lia.
  apply H. exact Hi.
Qed.

Lemma mock_serves_request script t lat over r :
  serves (init t (mock_server script) lat over) r script.
Proof.
  intros i o Hi. cbn. unfold mock_server. now apply nth_error_nth.
Qed.

(** ** Retries *)

(** As long as the remote side answers 429, the call goes on. *)
Lemma safe_request_through_429s endpoint params bodies :
  forall room w script,
    serves w (request_of endpoint params)
      (map (Responds 429) bodies ++ script) ->
    safe_request (List.length bodies + room) endpoint params w
    = safe_request room endpoint params
        (fold_left (fun w _ => after_429 endpoint params w) bodies w).
Proof.
  induction bodies as [| body bodies IH]; intros room w script Hsrv.
  - reflexivity.
  - cbn [List.length Nat.add map app fold_left] in *.
    rewrite (safe_request_429 _ _ _ _ body (serves_next_outcome _ _ _ _ Hsrv)).
    apply (IH room _ script). eapply serves_after_429; eauto.
Qed.

(** The world after [k] answers 429 in a row: what was dispatched and
    shown. *)
Lemma after_429s_log endpoint params (bodies : list (result json)) :
  forall w,
    let w' := fold_left (fun w _ => after_429 endpoint params w) bodies w in
    server w' = server w
    /\ last_request w' = last_request w
    /\ (exists times,
          sent w' = sent w ++ map (fun t => (t, request_of endpoint params)) times
          /\ List.length times = List.length bodies)
    /\ ui w' = ui w ++ repeat (Warning "Rate limited, waiting 3 seconds...")
                         (List.length bodies).
Proof.
  induction bodies as [| body bodies IH]; intros w; cbn zeta.
  - cbn [fold_left List.length repeat]. rewrite app_nil_r.
    split; [reflexivity |]. split; [reflexivity |].
    split; [exists []; cbn; now rewrite app_nil_r | reflexivity].
  - cbn [fold_left List.length repeat].
    destruct (IH (after_429 endpoint params w))
      as (Hsrv & Hlast & (times & Hsent & Hlen) & Hui).
    destruct (after_429_frame endpoint params w)
      as (Fs & _ & _ & Flast & Fsent & Fui & _).
    split; [now rewrite Hsrv |].
    split; [now rewrite Hlast |].
    split.
    + exists (now (pace w) :: times). split.
      * rewrite Hsent, Fsent, <- app_assoc. reflexivity.
      * cbn. now rewrite Hlen.
    + rewrite Hui, Fui, <- app_assoc. reflexivity.
Qed.

(** The same world, when time does not run backwards: only the first
    attempt may have to pace, and every 429 costs a sleep of 3 seconds. *)
Lemma after_429s_slept endpoint params (bodies : list (result json)) :
  forall w,
    time_flows w ->
    bodies <> [] ->
    let w' := fold_left (fun w _ => after_429 endpoint params w) bodies w in
    time_flows w'
    /\ pace w' = w'
    /\ slept w' = slept (pace w) ++ repeat 3 (List.length bodies).
Proof.
  induction bodies as [| body bodies IH]; intros w Hflow Hne; [contradiction |].
  cbn zeta. cbn [fold_left List.length repeat].
  destruct (after_429_frame endpoint params w) as (_ & _ & _ & _ & _ & _ & Fslept).
  assert (Hflow' := time_flows_after_429 endpoint params w Hflow).
  destruct bodies as [| body' bodies].
  - cbn [fold_left List.length repeat].
    split; [exact Hflow' |]. split; [now apply pace_after_429 | exact Fslept].
  - destruct (IH (after_429 endpoint params w) Hflow') as (Hf & Hpace & Hslept);
      [discriminate |].
    split; [exact Hf |]. split; [exact Hpace |].
    rewrite Hslept, (pace_after_429 _ _ _ Hflow), Fslept, <- app_assoc.
    reflexivity.
Qed.

Lemma serves_after_429s endpoint params bodies :
  forall w script,
    serves w (request_of endpoint params)
      (map (Responds 429) bodies ++ script) ->
    serves (fold_left (fun w _ => after_429 endpoint params w) bodies w)
      (request_of endpoint params) script.
Proof.
  induction bodies as [| body bodies IH]; intros w script Hsrv.
  - exact Hsrv.
  - cbn [fold_left]. apply IH. eapply serves_after_429. exact Hsrv.
Qed.

Lemma skipn_length_app {A : Type} (l1 l2 : list A) :
  skipn (List.length l1) (l1 ++ l2) = l2.
Proof. induction l1 as [| x xs IH]; [reflexivity | exact IH]. Qed.

Lemma new_sent_app w w' l : sent w' = sent w ++ l -> new_sent w w' = l.
Proof. intros H. unfold new_sent. rewrite H. apply skipn_length_app. Qed.

(** When the remote side answers 429 as many times as the stack has room
    for, the attempt after them does not get through [session.get]: the
    [RecursionError] is shown and the call returns [None]. *)
Lemma safe_request_exhausted_after_429s endpoint params bodies w script :
  serves w (request_of endpoint params) (map (Responds 429) bodies ++ script) ->
  exists w' times,
    safe_request (List.length bodies) endpoint params w = Returned JNull w'
    /\ sent w' = sent w ++ map (fun t => (t, request_of endpoint params)) times
    /\ List.length times = S (List.length bodies)
    /\ ui w' = ui w ++ repeat (Warning "Rate limited, waiting 3 seconds...")
                         (List.length bodies)
                    ++ [Error RecursionError]
    /\ last_request w' = last_request w.
Proof.
  intros Hsrv.
  set (r := request_of endpoint params) in *.
  set (wk := fold_left (fun w _ => after_429 endpoint params w) bodies w).
  destruct (after_429s_log endpoint params bodies w)
    as (_ & Hlast & (times & Hsent & Hlen) & Hui).
  fold wk in Hsent, Hui, Hlast. fold r in Hsent.
  destruct (pace_frame wk) as (_ & _ & _ & Psent & Pui & Plast).
  assert (Hrun : safe_request (List.length bodies) endpoint params w
                 = safe_request O endpoint params wk).
  { unfold wk.
    rewrite <- (safe_request_through_429s endpoint params bodies O w script Hsrv).
    now rewrite Nat.add_0_r. }
  rewrite Hrun, safe_request_exhausted. fold r.
  eexists. exists (times ++ [now (pace wk)]).
  split; [reflexivity |].
  cbn [st_error exchanged sent ui last_request].
  split; [rewrite Psent, Hsent, map_app, <- app_assoc; reflexivity |].
  split; [rewrite length_app; cbn; lia |].
  split; [rewrite Pui, Hui, <- app_assoc; reflexivity |].
  now rewrite Plast, Hlast.
Qed.

Lemma serves_prefix w r script rest :
  serves w r (script ++ rest) -> serves w r script.
Proof.
  intros H i o Hi. apply H. rewrite nth_error_app1; [exact Hi |].
  apply nth_error_Some. congruence.
Qed.

(** C2, as the code has it.  Every 429 answer is followed by the warning,
    a sleep of exactly 3 seconds and one more attempt of the same request,
    and that attempt is treated like the first: when the remote side
    answers 429 [k] times in a row and then with a JSON body under a status
    that is not an error, and the stack has room for the [k + 1] attempts
    ([k < room]), the call returns that body after [k] retries ([k + 1]
    dispatches of the same request, [k] warnings, [k] sleeps of 3 seconds
    after the pacing of the first attempt).  With [k = 1]: a single 429
    followed by a 200 gives exactly one retry and the body of the 200.
    When the stack has not that much room ([room <= k]), the call retries
    [room] times, shows the [RecursionError] of the last retry and returns
    [None]. *)
Theorem safe_request_retries_after_each_429 :
  forall endpoint params bodies status data w room,
    time_flows w ->
    serves w (request_of endpoint params)
      (map (Responds 429) bodies ++ [Responds status (Ok data)]) ->
    status <> 429%Z ->
    ~ (400 <= status < 600)%Z ->
    ((List.length bodies < room)%nat ->
     exists w' times,
       safe_request room endpoint params w = Returned data w'
       /\ sent w' = sent w ++ map (fun t => (t, request_of endpoint params)) times
       /\ List.length times = S (List.length bodies)
       /\ retries w w' = List.length bodies
       /\ ui w' = ui w ++ repeat (Warning "Rate limited, waiting 3 seconds...")
                            (List.length bodies)
       /\ slept w' = slept (pace w) ++ repeat 3 (List.length bodies))
    /\ ((room <= List.length bodies)%nat ->
        exists w',
          safe_request room endpoint params w = Returned JNull w'
          /\ retries w w' = room
          /\ ui w' = ui w ++ repeat (Warning "Rate limited, waiting 3 seconds...")
                               room
                          ++ [Error RecursionError]).
Proof.
  intros endpoint params bodies status data w room Hflow Hsrv H429 Hst.
  split.
  - intros Hroom.
    set (r := request_of endpoint params) in *.
    set (wk := fold_left (fun w _ => after_429 endpoint params w) bodies w).
    destruct (after_429s_log endpoint params bodies w)
      as (_ & _ & (times & Hsent & Hlen) & Hui).
    fold wk in Hsent, Hui. fold r in Hsent.
    destruct (pace_frame wk) as (_ & _ & _ & Psent & Pui & _).
    assert (Hnext : next_outcome (pace wk) r = Responds status (Ok data)).
    { eapply serves_next_outcome. apply serves_after_429s. exact Hsrv. }
    replace room with (List.length bodies + S (room - S (List.length bodies)))%nat
      by lia.
    rewrite (safe_request_through_429s endpoint params bodies _ w _ Hsrv).
    fold wk. rewrite (safe_request_success _ _ _ _ status data Hnext H429 Hst).
    fold r.
    assert (Hsent' : sent (set_last_request (now (exchanged r (pace wk)))
                             (exchanged r (pace wk)))
                     = sent w ++ map (fun t => (t, r)) (times ++ [now (pace wk)])).
    { cbn [set_last_request exchanged sent].
      rewrite Psent, Hsent, map_app, <- app_assoc. reflexivity. }
    eexists. exists (times ++ [now (pace wk)]).
    split; [reflexivity |].
    split; [exact Hsent' |].
    split; [rewrite length_app; cbn; lia |].
    split.
    { unfold retries. rewrite (new_sent_app _ _ _ Hsent').
      rewrite length_map, length_app. cbn. lia. }
    split.
    { cbn [set_last_request exchanged ui]. now rewrite Pui. }
    cbn [set_last_request exchanged slept].
    destruct bodies as [| body bodies].
    + cbn [List.length repeat]. now rewrite app_nil_r.
    + destruct (after_429s_slept endpoint params (body :: bodies) w Hflow)
        as (_ & Hpace & Hslept); [discriminate |].
      fold wk in Hpace, Hslept. now rewrite Hpace.
  - intros Hroom.
    assert (Hlen : List.length (firstn room bodies) = room)
      by (rewrite length_firstn; lia).
    rewrite <- (firstn_skipn room bodies), map_app, <- app_assoc in Hsrv.
    destruct (safe_request_exhausted_after_429s _ _ _ _ _ Hsrv)
      as (w' & times & Hrun & Hsent & Htimes & Hui & _).
    rewrite Hlen in Hrun, Htimes, Hui.
    exists w'. split; [exact Hrun |]. split; [| exact Hui].
    unfold retries. rewrite (new_sent_app _ _ _ Hsent), length_map. lia.
Qed.

Lemma time_flows_init t srv over :
  (forall n, 0 <= over n) -> time_flows (init t srv (fun _ => 1#20) over).
Proof. intros H. split; [intros n; cbn; lra | exact H]. Qed.

(** A single 429 followed by a 200: one retry and the body of the 200 when
    the stack has room for two attempts, and [None] at once when it has
    room for none. *)
Lemma safe_request_retries_after_each_429_witness :
  let w := init 1000
             (mock_server [Responds 429 (Raise JSONDecodeError);
                           Responds 200 (Ok (JObj [("markets", JArr [])]))])
             (fun _ => 1#20) (fun _ => 0) in
  (exists w' times,
      safe_request 2 "/markets" None w
        = Returned (JObj [("markets", JArr [])]) w'
      /\ sent w' = sent w ++ map (fun t => (t, request_of "/markets" None)) times
      /\ List.length times = 2%nat
      /\ retries w w' = 1%nat
      /\ ui w' = ui w ++ [Warning "Rate limited, waiting 3 seconds..."]
      /\ slept w' = slept (pace w) ++ [3])
  /\ (exists w',
        safe_request 0 "/markets" None w = Returned JNull w'
        /\ retries w w' = 0%nat
        /\ ui w' = ui w ++ [Error RecursionError]).
Proof.
  intros w.
  assert (Hflow : time_flows w) by (apply time_flows_init; intros n; lra).
  assert (Hsrv : serves w (request_of "/markets" None)
                   (map (Responds 429) [Raise JSONDecodeError]
                      ++ [Responds 200 (Ok (JObj [("markets", JArr [])]))]))
    by apply mock_serves_request.
  split.
  - apply (safe_request_retries_after_each_429 "/markets" None
             [Raise JSONDecodeError] 200 (JObj [("markets", JArr [])]) w 2
             Hflow Hsrv); cbn; lia.
  - apply (safe_request_retries_after_each_429 "/markets" None
             [Raise JSONDecodeError] 200 (JObj [("markets", JArr [])]) w 0
             Hflow Hsrv); cbn; lia.
Defined.

(** C2, as stated, fails: two 429 answers in a row make two retries of one
    original request. *)
Lemma safe_request_retries_twice :
  let w := init 1000
             (mock_server [Responds 429 (Raise JSONDecodeError);
                           Responds 429 (Raise JSONDecodeError);
                           Responds 200 (Ok (JObj [("markets", JArr [])]))])
             (fun _ => 1#20) (fun _ => 0) in
  exists w',
    safe_request 3 "/markets" None w
      = Returned (JObj [("markets", JArr [])]) w'
    /\ retries w w' = 2%nat
    /\ map snd (sent w')
       = [request_of "/markets" None; request_of "/markets" None;
          request_of "/markets" None]
    /\ slept w' = [3; 3].
Proof.
  intros w. eexists. split; [vm_compute; reflexivity |].
  repeat split.
Qed.

(** ** A remote side that always answers 429 *)

(** C4, as the code has it.  When every request is answered with status
    429, [safe_request] retries as long as the stack lets it, and then
    returns.  Every retry is one activation deeper: with [room]
    activations in which [session.get] still fits, the call gets [room]
    answers 429, shows [room] warnings and retries [room] times; in the
    last retry [session.get] raises [RecursionError] inside the [try], the
    error is shown and [None] is returned.  [last_request] is left as it
    was.  The code sets no bound of its own: the number of retries is what
    the stack allows, whatever that is. *)
Theorem safe_request_gives_up_when_the_stack_is_full :
  forall endpoint params room w,
    always_rate_limited w ->
    exists w',
      safe_request room endpoint params w = Returned JNull w'
      /\ retries w w' = room
      /\ List.length (sent w') = (List.length (sent w) + S room)%nat
      /\ ui w' = ui w ++ repeat (Warning "Rate limited, waiting 3 seconds...")
                           room
                      ++ [Error RecursionError]
      /\ last_request w' = last_request w.
Proof.
  intros endpoint params room w Hlim.
  assert (Hmain : exists w',
             safe_request room endpoint params w = Returned JNull w'
             /\ List.length (sent w') = (List.length (sent w) + S room)%nat
             /\ ui w' = ui w ++ repeat (Warning "Rate limited, waiting 3 seconds...")
                                  room
                             ++ [Error RecursionError]
             /\ last_request w' = last_request w).
  { revert w Hlim. induction room as [| room IH]; intros w Hlim.
    - rewrite safe_request_exhausted. eexists. split; [reflexivity |].
      destruct (pace_frame w) as (_ & _ & _ & Psent & Pui & Plast).
      cbn [st_error exchanged sent ui last_request repeat app].
      rewrite Psent, Pui, Plast, length_app. cbn [List.length].
      split; [lia |]. split; reflexivity.
    - destruct (pace_frame w) as (Ps & _ & _ & Psent & _).
      destruct (Hlim (List.length (sent w)) (request_of endpoint params))
        as [body Hbody].
      assert (Hnext : next_outcome (pace w) (request_of endpoint params)
                      = Responds 429 body).
      { unfold next_outcome. now rewrite Ps, Psent. }
      rewrite (safe_request_429 _ _ _ _ body Hnext).
      destruct (after_429_frame endpoint params w)
        as (Fs & _ & _ & Flast & Fsent & Fui & _).
      destruct (IH (after_429 endpoint params w))
        as (w' & Hrun & Hlen & Hui & Hlast).
      { intros n r. rewrite Fs. apply Hlim. }
      exists w'. split; [exact Hrun |].
      split; [rewrite Hlen, Fsent, length_app; cbn [List.length]; lia |].
      split; [| now rewrite Hlast, Flast].
      rewrite Hui, Fui, <- !app_assoc. reflexivity. }
  destruct Hmain as (w' & Hrun & Hlen & Hui & Hlast).
  exists w'. split; [exact Hrun |]. split; [| auto].
  unfold retries, new_sent. rewrite length_skipn. lia.
Qed.

Lemma safe_request_gives_up_when_the_stack_is_full_witness :
  let w := init 1000 (fun _ _ => Responds 429 (Raise JSONDecodeError))
             (fun _ => 1#20) (fun _ => 0) in
  exists w',
    safe_request 50 "/markets" None w = Returned JNull w'
    /\ retries w w' = 50%nat
    /\ List.length (sent w') = (List.length (sent w) + 51)%nat
    /\ ui w' = ui w ++ repeat (Warning "Rate limited, waiting 3 seconds...") 50
                    ++ [Error RecursionError]
    /\ last_request w' = last_request w.
Proof.
  intros w.
  apply (safe_request_gives_up_when_the_stack_is_full "/markets" None 50 w).
  intros n r. eexists. reflexivity.
Defined.

(** C4, as stated, fails: a call that is answered 429 at every attempt
    returns.  Here the stack has room for three attempts: the third retry
    raises [RecursionError], the call shows it and returns [None]. *)
Lemma safe_request_returns_under_429 :
  let w := init 1000 (fun _ _ => Responds 429 (Raise JSONDecodeError))
             (fun _ => 1#20) (fun _ => 0) in
  exists w',
    safe_request 3 "/markets" None w = Returned JNull w'
    /\ retries w w' = 3%nat
    /\ ui w' = [Warning "Rate limited, waiting 3 seconds...";
                Warning "Rate limited, waiting 3 seconds...";
                Warning "Rate limited, waiting 3 seconds...";
                Error RecursionError]
    /\ slept w' = [3; 3; 3].
Proof.
  intros w. eexists. split; [vm_compute; reflexivity |].
  repeat split.
Qed.

(** ** What a call leaves behind *)

Lemma slept_pace w : exists d, slept (pace w) = slept w ++ d.
Proof.
  destruct (pace_cases w) as [-> | ->].
  - exists []. now rewrite app_nil_r.
  - eexists. reflexivity.
Qed.

(** The requests a call dispatches are all the same request, the first one
    right after pacing, each at least half a second after the recorded time
    of the last request; the remote side is left as it was and the record
    of sleeps only grows. *)
Lemma safe_request_trace endpoint params :
  forall room w,
    let w' := final (safe_request room endpoint params w) in
    server w' = server w /\ latency w' = latency w
    /\ oversleep w' = oversleep w
    /\ (exists times,
          sent w' = sent w ++ map (fun t => (t, request_of endpoint params)) times
          /\ (room <> O -> exists more, times = now (pace w) :: more)
          /\ ((forall n, 0 <= oversleep w n) ->
              Forall (fun t => last_request w + (1#2) <= t) times))
    /\ (exists rest,
          slept w' = slept w ++ rest
          /\ (room <> O -> exists more, slept w' = slept (pace w) ++ more)).
Proof.
  apply (safe_request_cases endpoint params
           (fun room w res =>
              server (final res) = server w /\ latency (final res) = latency w
              /\ oversleep (final res) = oversleep w
              /\ (exists times,
                    sent (final res)
                    = sent w ++ map (fun t => (t, request_of endpoint params)) times
                    /\ (room <> O -> exists more, times = now (pace w) :: more)
                    /\ ((forall n, 0 <= oversleep w n) ->
                        Forall (fun t => last_request w + (1#2) <= t) times))
              /\ (exists rest,
                    slept (final res) = slept w ++ rest
                    /\ (room <> O ->
                        exists more, slept (final res) = slept (pace w) ++ more)))).
  - intros w. cbn [final st_error exchanged server latency oversleep sent slept].
    destruct (pace_frame w) as (-> & -> & -> & -> & _).
    repeat (split; [reflexivity |]). split.
    + exists [now (pace w)]. split; [reflexivity |]. split.
      * intros _. now exists [].
      * intros Hover. constructor; [now apply pace_waits | constructor].
    + destruct (slept_pace w) as [d Hd]. exists d. split; [exact Hd |].
      intros _. exists []. now rewrite app_nil_r.
  - intros room w e _. cbn [final st_error exchanged server latency oversleep sent slept].
    destruct (pace_frame w) as (-> & -> & -> & -> & _).
    repeat (split; [reflexivity |]). split.
    + exists [now (pace w)]. split; [reflexivity |]. split.
      * intros _. now exists [].
      * intros Hover. constructor; [now apply pace_waits | constructor].
    + destruct (slept_pace w) as [d Hd]. exists d. split; [exact Hd |].
      intros _. exists []. now rewrite app_nil_r.
  - intros room w status body _ _ _ w2. subst w2.
    destruct body as [data |];
      cbn [final st_error set_last_request exchanged
           server latency oversleep sent slept];
      destruct (pace_frame w) as (-> & -> & -> & -> & _);
      (repeat (split; [reflexivity |])); (split;
      [ exists [now (pace w)]; split; [reflexivity |]; split;
        [ intros _; now exists []
        | intros Hover; constructor; [now apply pace_waits | constructor] ]
      | destruct (slept_pace w) as [d Hd]; exists d; split; [exact Hd |];
        intros _; exists []; now rewrite app_nil_r ]).
  - intros room w body res _
      (Hs & Hl & Ho & (times & Hsent & _ & Hpaced) & (rest & Hslept & _)).
    destruct (after_429_frame endpoint params w)
      as (Fs & Fl & Fo & Flast & Fsent & _ & Fslept).
    split; [now rewrite Hs |]. split; [now rewrite Hl |].
    split; [now rewrite Ho |]. split.
    + exists (now (pace w) :: times). split.
      * rewrite Hsent, Fsent, <- app_assoc. reflexivity.
      * split; [intros _; now exists times |].
        intros Hover. constructor; [now apply pace_waits |].
        rewrite <- Flast. apply Hpaced. now rewrite Fo.
    + destruct (slept_pace w) as [d Hd].
      exists (d ++ 3 :: rest). split.
      * rewrite Hslept, Fslept, Hd, <- !app_assoc. reflexivity.
      * intros _. exists (3 :: rest).
        rewrite Hslept, Fslept, <- app_assoc. reflexivity.
Qed.

(** C3, as stated, fails: the first request times out, the second call
    comes a tenth of a second after the first one returned and is
    dispatched at once, 0.15 s after the first dispatch, without any sleep. *)
Lemma second_request_not_delayed_after_failure :
  let w := init 1000
             (mock_server [Fails "timed out";
                           Responds 200 (Ok (JObj [("markets", JArr [])]))])
             (fun _ => 1#20) (fun _ => 0) in
  exists w1 w2 t1 t2,
    safe_request 1 "/markets" None w = Returned JNull w1
    /\ safe_request 1 "/markets" None (elapse (1#10) w1)
       = Returned (JObj [("markets", JArr [])]) w2
    /\ map fst (sent w2) = [t1; t2]
    /\ t2 - t1 < 1#2
    /\ slept w2 = [].
Proof.
  intros w. do 4 eexists.
  split; [vm_compute; reflexivity |].
  split; [vm_compute; reflexivity |].
  split; [reflexivity |].
  split; [vm_compute; reflexivity | reflexivity].
Qed.

(** C3, as the code has it.  The pacing is measured from the recorded
    [last_request], the time at which the last response with a good status
    came back (0 at first).  Every request a call dispatches leaves at least
    half a second after that time; a call that starts earlier first sleeps
    exactly the remainder; and when a call got such a response, whatever the
    next call is and however soon it comes, its requests leave at least half
    a second after that response.  (After a request that failed nothing is
    promised: the recorded time is still the older one.) *)
Theorem requests_are_paced_from_last_request :
  forall endpoint params room w,
    (forall n, 0 <= oversleep w n) ->
    (exists times,
        sent (final (safe_request room endpoint params w))
        = sent w ++ map (fun t => (t, request_of endpoint params)) times
        /\ Forall (fun t => last_request w + (1#2) <= t) times)
    /\ (now w - last_request w < 1#2 ->
        exists more,
          slept (final (safe_request (S room) endpoint params w))
          = slept w ++ ((1#2) - (now w - last_request w)) :: more)
    /\ (forall status data gap endpoint2 params2 room2,
          next_outcome (pace w) (request_of endpoint params)
            = Responds status (Ok data) ->
          status <> 429%Z -> ~ (400 <= status < 600)%Z ->
          0 <= gap ->
          exists w1 times,
            safe_request (S room) endpoint params w = Returned data w1
            /\ sent (final (safe_request room2 endpoint2 params2 (elapse gap w1)))
               = sent w1 ++ map (fun t => (t, request_of endpoint2 params2)) times
            /\ Forall (fun t => now w1 + (1#2) <= t) times).
Proof.
  intros endpoint params room w Hover. split; [| split].
  - destruct (safe_request_trace endpoint params room w)
      as (_ & _ & _ & (times & Hsent & _ & Hpaced) & _).
    exists times. split; [exact Hsent | now apply Hpaced].
  - intros Hearly.
    destruct (safe_request_trace endpoint params (S room) w)
      as (_ & _ & _ & _ & (rest & _ & Hslept)).
    destruct Hslept as [more Hmore]; [discriminate |].
    exists more. rewrite Hmore, (pace_sleeps w Hearly).
    cbn [sleep slept]. rewrite <- app_assoc. reflexivity.
  - intros status data gap endpoint2 params2 room2 Hnext H429 Hst Hgap.
    rewrite (safe_request_success _ _ _ _ status data Hnext H429 Hst).
    eexists.
    destruct (safe_request_trace endpoint2 params2 room2
                (elapse gap
                   (set_last_request
                      (now (exchanged (request_of endpoint params) (pace w)))
                      (exchanged (request_of endpoint params) (pace w)))))
      as (_ & _ & _ & (times & Hsent & _ & Hpaced) & _).
    exists times. split; [reflexivity |]. split; [exact Hsent |].
    apply Hpaced. intros n. cbn [elapse set_last_request exchanged oversleep].
    destruct (pace_frame w) as (_ & _ & -> & _). apply Hover.
Qed.

(** A first call answered with a 200, and a second one 0.1 s later. *)
Lemma requests_are_paced_from_last_request_witness :
  let w := init 1000
             (mock_server [Responds 200 (Ok (JObj [("markets", JArr [])]));
                           Responds 200 (Ok (JObj [("trades", JArr [])]))])
             (fun _ => 1#20) (fun _ => 0) in
  exists w1 times,
    safe_request 1 "/markets" None w
      = Returned (JObj [("markets", JArr [])]) w1
    /\ sent (final (safe_request 1 "/markets/trades" None (elapse (1#10) w1)))
       = sent w1 ++ map (fun t => (t, request_of "/markets/trades" None)) times
    /\ Forall (fun t => now w1 + (1#2) <= t) times.
Proof.
  intros w.
  assert (Hover : forall n, 0 <= oversleep w n) by (intros n; cbn; lra).
  destruct (requests_are_paced_from_last_request "/markets" None 0 w Hover)
    as (_ & _ & Hnext).
  apply (Hnext 200%Z (JObj [("markets", JArr [])]) (1#10)
           "/markets/trades" None 1%nat).
  - reflexivity.
  - lia.
  - lia.
  - lra.
Defined.

(** ** The recorded time of the last request *)

(** After a call, either [last_request] is what it was, and the call
    returned [None] after showing an error; or the last exchange of the
    call was answered with a status that is neither 429 nor an error and
    [last_request] is the time at which that answer came back. *)
Lemma last_request_after_call endpoint params :
  forall room w,
    match safe_request room endpoint params w with
    | Returned a w' =>
        (last_request w' = last_request w
         /\ a = JNull
         /\ exists shown e, ui w' = shown ++ [Error e])
        \/ (exists status body,
              server w (List.length (sent w') - 1)%nat (request_of endpoint params)
                = Responds status body
              /\ status <> 429%Z /\ ~ (400 <= status < 600)%Z
              /\ last_request w' = now w')
    end.
Proof.
  apply (safe_request_cases endpoint params
           (fun _ w res =>
              match res with
              | Returned a w' =>
                  (last_request w' = last_request w
                   /\ a = JNull
                   /\ exists shown e, ui w' = shown ++ [Error e])
                  \/ (exists status body,
                        server w (List.length (sent w') - 1)%nat
                          (request_of endpoint params)
                          = Responds status body
                        /\ status <> 429%Z /\ ~ (400 <= status < 600)%Z
                        /\ last_request w' = now w')
              end)).
  - intros w. left. cbn [st_error exchanged last_request ui].
    destruct (pace_frame w) as (_ & _ & _ & _ & _ & ->).
    split; [reflexivity |]. split; [reflexivity | eauto].
  - intros room w e _. left. cbn [st_error exchanged last_request ui].
    destruct (pace_frame w) as (_ & _ & _ & _ & _ & ->).
    split; [reflexivity |]. split; [reflexivity | eauto].
  - intros room w status body Hnext H429 Hst w2.
    unfold next_outcome in Hnext.
    destruct (pace_frame w) as (Ps & _ & _ & Psent & _).
    rewrite Ps, Psent in Hnext.
    assert (Hlen : (List.length (sent w2) - 1 = List.length (sent w))%nat).
    { subst w2. cbn [exchanged sent]. rewrite Psent, length_app. cbn. lia. }
    destruct body as [data | e]; right; exists status; eexists;
      cbn [st_error set_last_request last_request now sent];
      rewrite Hlen; (split; [exact Hnext |]); auto.
  - intros room w body res _ IH.
    destruct (after_429_frame endpoint params w) as (Fs & _ & _ & Flast & _).
    destruct res as [a w']. rewrite Flast, Fs in IH. exact IH.
Qed.

(** A call starts by pacing, whatever comes next. *)
Lemma safe_request_paces_first endpoint params room w :
  exists more,
    slept (final (safe_request room endpoint params w)) = slept (pace w) ++ more.
Proof.
  destruct room as [| room].
  - rewrite safe_request_exhausted. cbn [final st_error exchanged slept].
    exists []. now rewrite app_nil_r.
  - destruct (safe_request_trace endpoint params (S room) w)
      as (_ & _ & _ & _ & (rest & _ & Hslept)).
    apply Hslept. discriminate.
Qed.

(** C10, as the code has it.  [last_request] is written when an answer
    came back whose status is neither 429 nor an error, and before the body
    of that answer is decoded.  An attempt that ends in a transport error
    or an HTTP error status returns [None] and leaves it unchanged; the 429
    branch hands it unchanged to the retry.  An answer with any other
    status sets it to the time at which the answer came back, also when the
    body then fails to decode and the attempt ends like a failed one, with
    an error shown and [None].  After any call it is either unchanged, the
    call having failed, or the time at which such an answer came back; and
    the pacing of the next call is measured from it: the call sleeps what
    is missing to half a second since [last_request], or not at all. *)
Theorem last_request_written_on_good_status :
  forall endpoint params room w,
    (forall e,
        failure (next_outcome (pace w) (request_of endpoint params)) e ->
        exists w',
          safe_request (S room) endpoint params w = Returned JNull w'
          /\ last_request w' = last_request w)
    /\ (forall body,
          next_outcome (pace w) (request_of endpoint params) = Responds 429 body ->
          safe_request (S room) endpoint params w
          = safe_request room endpoint params (after_429 endpoint params w)
          /\ last_request (after_429 endpoint params w) = last_request w)
    /\ (forall status body,
          next_outcome (pace w) (request_of endpoint params)
            = Responds status body ->
          status <> 429%Z -> ~ (400 <= status < 600)%Z ->
          exists a w',
            safe_request (S room) endpoint params w = Returned a w'
            /\ last_request w' = now w'
            /\ now w' = now (pace w) + latency w (List.length (sent w))
            /\ match body with
               | Ok data => a = data /\ ui w' = ui w
               | Raise e => a = JNull /\ ui w' = ui w ++ [Error e]
               end)
    /\ (match safe_request room endpoint params w with
        | Returned a w' =>
            (last_request w' = last_request w
             /\ a = JNull
             /\ exists shown e, ui w' = shown ++ [Error e])
            \/ (exists status body,
                  server w (List.length (sent w') - 1)%nat
                    (request_of endpoint params)
                    = Responds status body
                  /\ status <> 429%Z /\ ~ (400 <= status < 600)%Z
                  /\ last_request w' = now w')
        end)
    /\ (forall gap endpoint2 params2 room2,
          let w' := final (safe_request room endpoint params w) in
          let since := now w' + gap - last_request w' in
          (since < 1#2 ->
           exists more,
             slept (final (safe_request room2 endpoint2 params2 (elapse gap w')))
             = slept w' ++ ((1#2) - since) :: more)
          /\ (~ since < 1#2 -> pace (elapse gap w') = elapse gap w')).
Proof.
  intros endpoint params room w.
  split; [| split; [| split; [| split]]].
  - intros e Hf. rewrite (safe_request_failed _ _ _ _ e Hf).
    eexists. split; [reflexivity |].
    cbn [st_error exchanged last_request].
    now destruct (pace_frame w) as (_ & _ & _ & _ & _ & ->).
  - intros body Hnext. split.
    + exact (safe_request_429 _ _ _ _ body Hnext).
    + now destruct (after_429_frame endpoint params w) as (_ & _ & _ & -> & _).
  - intros status body Hnext H429 Hst.
    rewrite safe_request_step. cbn zeta. rewrite Hnext.
    apply Z.eqb_neq in H429. rewrite H429, (error_status_false _ Hst).
    destruct (pace_frame w) as (_ & Pl & _ & Psent & Pui & _).
    destruct body as [data | e]; do 2 eexists;
      (split; [reflexivity |]);
      cbn [st_error set_last_request exchanged last_request now ui];
      rewrite Pl, Psent, Pui; repeat split.
  - apply last_request_after_call.
  - intros gap endpoint2 params2 room2 w' since. split.
    + intros Hearly.
      destruct (safe_request_paces_first endpoint2 params2 room2 (elapse gap w'))
        as [more Hmore].
      exists more. rewrite Hmore, pace_sleeps.
      * cbn [sleep slept elapse now last_request]. rewrite <- app_assoc.
        reflexivity.
      * exact Hearly.
    + intros Hlate. apply pace_idle. exact Hlate.
Qed.

(** C10, as stated, fails: an attempt can fail and still advance the
    pacing clock.  The answer has status 200 and a body that is not JSON:
    the call shows the error and returns [None], and [last_request] has
    moved from 0 to the time the answer came back, so that a call made 0.1 s
    later sleeps 0.4 s. *)
Lemma last_request_moves_when_the_body_is_not_json :
  let w := init 1000 (mock_server [Responds 200 (Raise JSONDecodeError)])
             (fun _ => 1#20) (fun _ => 0) in
  exists w1 w2 nap,
    safe_request 1 "/markets" None w = Returned JNull w1
    /\ ui w1 = [Error JSONDecodeError]
    /\ last_request w = 0
    /\ last_request w1 == 1000 + (1#20)
    /\ safe_request 1 "/markets" None (elapse (1#10) w1) = Returned JNull w2
    /\ slept w2 = [nap]
    /\ nap == 4#10.
Proof.
  intros w. do 3 eexists.
  split; [vm_compute; reflexivity |].
  split; [reflexivity |].
  split; [reflexivity |].
  split; [reflexivity |].
  split; [vm_compute; reflexivity |].
  split; reflexivity.
Qed.

(** A timed-out request: [None], one error shown, [last_request] still 0. *)
Example safe_request_timeout :
  let w := init 1000 (mock_server [Fails "timed out"]) (fun _ => 1#20) (fun _ => 0) in
  exists w',
    safe_request 1 "/markets" None w = Returned JNull w'
    /\ ui w' = [Error (TransportError "timed out")]
    /\ last_request w' = 0
    /\ slept w' = [].
Proof. intros w. eexists. split; [vm_compute; reflexivity |]. repeat split. Qed.

(** A call that comes a tenth of a second after a good response sleeps the
    remaining four tenths. *)
Example safe_request_paces_after_success :
  let w := init 1000
             (mock_server [Responds 200 (Ok (JObj [("markets", JArr [])]));
                           Responds 200 (Ok (JObj [("markets", JArr [])]))])
             (fun _ => 0) (fun _ => 0) in
  exists w1 w2 d,
    safe_request 1 "/markets" None w = Returned (JObj [("markets", JArr [])]) w1
    /\ safe_request 1 "/markets" None (elapse (1#10) w1)
       = Returned (JObj [("markets", JArr [])]) w2
    /\ slept w2 = [d] /\ d == 4#10.
Proof.
  intros w. do 3 eexists.
  split; [vm_compute; reflexivity |].
  split; [vm_compute; reflexivity |].
  split; reflexivity.
Qed.

(** ** Page sizes *)

Lemma final_extract key default r : final (extract key default r) = final r.
Proof. destruct r; reflexivity. Qed.

(** C9. The dashboard client clamps the page size before it sends:
    every request of [get_markets(limit)] carries [limit = min(limit, 100)]
    and every request of [get_trades(limit)] carries
    [limit = min(limit, 50)], so the value sent is at most 100 (at most 50)
    and a larger one is replaced by the cap, with no other trace: the call
    goes exactly as if the caller had asked for the clamped value. *)
Theorem page_sizes_are_clamped :
  forall room limit w,
    (exists times,
        sent (final (get_markets (S room) limit w))
        = sent w
          ++ map (fun t =>
                    (t, mkRequest (BASE_URL ++ "/markets")
                          (Some [("limit", JNum (Z.min limit 100));
                                 ("status", JStr "open")]) 30))
                 (now (pace w) :: times))
    /\ (Z.min limit 100 <= 100)%Z
    /\ ((100 < limit)%Z -> Z.min limit 100 = 100%Z)
    /\ (exists times,
          sent (final (get_trades (S room) limit w))
          = sent w
            ++ map (fun t =>
                      (t, mkRequest (BASE_URL ++ "/markets/trades")
                            (Some [("limit", JNum (Z.min limit 50))]) 30))
                   (now (pace w) :: times))
    /\ (Z.min limit 50 <= 50)%Z
    /\ ((50 < limit)%Z -> Z.min limit 50 = 50%Z)
    /\ get_markets room limit w = get_markets room (Z.min limit 100) w
    /\ get_trades room limit w = get_trades room (Z.min limit 50) w.
Proof.
  intros room limit w.
  split; [| split; [lia | split; [lia | split; [| split; [lia | split; [lia |]]]]]].
  3:{ unfold get_markets, get_trades.
      rewrite (Z.min_l (Z.min limit 100) 100), (Z.min_l (Z.min limit 50) 50) by lia.
      split; reflexivity. }
  - unfold get_markets. rewrite final_extract.
    destruct (safe_request_trace "/markets"
                (Some [("limit", JNum (Z.min limit 100)); ("status", JStr "open")])
                (S room) w)
      as (_ & _ & _ & (times & Hsent & Hfirst & _) & _).
    destruct Hfirst as [more ->]; [discriminate |].
    exists more. exact Hsent.
  - unfold get_trades. rewrite final_extract.
    destruct (safe_request_trace "/markets/trades"
                (Some [("limit", JNum (Z.min limit 50))]) (S room) w)
      as (_ & _ & _ & (times & Hsent & Hfirst & _) & _).
    destruct Hfirst as [more ->]; [discriminate |].
    exists more. exact Hsent.
Qed.

(** ** Errors are shown, not raised *)

(** A request that goes wrong, at once or on a retry, is shown once. *)
Lemma safe_request_failed_after_429s endpoint params bodies o e w room :
  serves w (request_of endpoint params) (map (Responds 429) bodies ++ [o]) ->
  failure o e ->
  (List.length bodies < room)%nat ->
  exists w',
    safe_request room endpoint params w = Returned JNull w'
    /\ ui w'
       = ui w ++ repeat (Warning "Rate limited, waiting 3 seconds...")
                   (List.length bodies)
              ++ [Error e]
    /\ List.length (sent w') = (List.length (sent w) + S (List.length bodies))%nat.
Proof.
  intros Hsrv Hf Hfuel.
  set (wk := fold_left (fun w _ => after_429 endpoint params w) bodies w).
  destruct (after_429s_log endpoint params bodies w)
    as (_ & _ & (times & Hsent & Hlen) & Hui).
  fold wk in Hsent, Hui.
  destruct (pace_frame wk) as (_ & _ & _ & Psent & Pui & _).
  assert (Hnext : next_outcome (pace wk) (request_of endpoint params) = o).
  { eapply serves_next_outcome. apply serves_after_429s. exact Hsrv. }
  replace room with (List.length bodies + S (room - S (List.length bodies)))%nat
    by lia.
  rewrite (safe_request_through_429s endpoint params bodies _ w _ Hsrv).
  fold wk. rewrite <- Hnext in Hf.
  rewrite (safe_request_failed _ _ _ _ e Hf).
  eexists. split; [reflexivity |].
  cbn [st_error exchanged ui sent].
  rewrite Pui, Hui, Psent, Hsent, !length_app, length_map, Hlen, <- app_assoc.
  cbn. split; [reflexivity | lia].
Qed.

Lemma extract_no_request_error key default (r : run json) a w :
  extract key default r = Returned a w -> ~ propagates_request_error a.
Proof.
  destruct r as [data w0]; cbn [extract].
  intros H. inversion H; subst. clear H.
  intros (e & He & Hreq). destruct (truthy data); [| discriminate].
  destruct data; cbn in He; inversion He; subst; discriminate.
Qed.

End DashboardProps.

(** * Both clients *)

(** C5. A transport error, or an HTTP error status, met during a request
    is caught where it is raised.  [KalshiClient.get] prints it, once, and
    returns [None]; [SimpleKalshiClient.safe_request] shows it with
    [st.error], once, and returns [None], be it at the first attempt or at
    a retry after answers 429 (which raise nothing and only show a
    warning; the stack has room for that retry).  The operations built on
    them then return
    their empty value, and no operation of either client ever lets a
    [RequestException] through to its caller. *)
Theorem request_errors_are_reported_once_and_absorbed :
  (forall endpoint params w e,
      Complete.failure
        (Complete.next_outcome w (mkRequest (BASE_URL ++ endpoint) params 30)) e ->
      Complete.get endpoint params w
      = (Ok JNull,
         Complete.mkWorld (Complete.server w)
           (Complete.sent w ++ [mkRequest (BASE_URL ++ endpoint) params 30])
           (Complete.stdout w ++ [Complete.ApiErrorLine e])))
  /\ (forall room endpoint params w bodies o e,
        Dashboard.serves w (Dashboard.request_of endpoint params)
          (map (Responds 429) bodies ++ [o]) ->
        Dashboard.failure o e ->
        (List.length bodies < room)%nat ->
        exists w',
          Dashboard.safe_request room endpoint params w
          = Dashboard.Returned JNull w'
          /\ Dashboard.ui w'
             = Dashboard.ui w
               ++ repeat (Dashboard.Warning "Rate limited, waiting 3 seconds...")
                    (List.length bodies)
               ++ [Dashboard.Error e])
  /\ (forall limit status series_ticker w e fuel,
        Complete.failure
          (Complete.next_outcome w
             (Complete.markets_request
                (Complete.markets_params limit status series_ticker))) e ->
        exists w',
          Complete.get_markets (S fuel) limit status series_ticker w
          = Some (Ok [], w')
          /\ Complete.stdout w' = Complete.stdout w ++ [Complete.ApiErrorLine e])
  /\ (forall ticker w e,
        Complete.failure
          (Complete.next_outcome w
             (mkRequest (BASE_URL ++ "/markets/" ++ ticker) None 30)) e ->
        exists w',
          Complete.get_market ticker w = (Ok JNull, w')
          /\ Complete.stdout w' = Complete.stdout w ++ [Complete.ApiErrorLine e])
  /\ (forall ticker depth w e,
        Complete.failure
          (Complete.next_outcome w
             (mkRequest (BASE_URL ++ "/markets/" ++ ticker ++ "/orderbook")
                (Some [("depth", JNum depth)]) 30)) e ->
        exists w',
          Complete.get_orderbook ticker depth w = (Ok JNull, w')
          /\ Complete.stdout w' = Complete.stdout w ++ [Complete.ApiErrorLine e])
  /\ (forall w e,
        Complete.failure
          (Complete.next_outcome w (mkRequest (BASE_URL ++ "/series") None 30)) e ->
        exists w',
          Complete.get_series None w = (Ok (JArr []), w')
          /\ Complete.stdout w' = Complete.stdout w ++ [Complete.ApiErrorLine e])
  /\ (forall endpoint params w,
        ~ propagates_request_error (fst (Complete.get endpoint params w)))
  /\ (forall fuel limit status series_ticker w r w',
        Complete.get_markets fuel limit status series_ticker w = Some (r, w') ->
        ~ propagates_request_error r)
  /\ (forall ticker w,
        ~ propagates_request_error (fst (Complete.get_market ticker w)))
  /\ (forall ticker depth w,
        ~ propagates_request_error (fst (Complete.get_orderbook ticker depth w)))
  /\ (forall ticker limit w,
        ~ propagates_request_error (fst (Complete.get_trades ticker limit w)))
  /\ (forall ticker w,
        ~ propagates_request_error (fst (Complete.get_series ticker w)))
  /\ (forall room limit w a w',
        Dashboard.get_markets room limit w = Dashboard.Returned a w' ->
        ~ propagates_request_error a)
  /\ (forall room ticker w a w',
        Dashboard.get_orderbook room ticker w = Dashboard.Returned a w' ->
        ~ propagates_request_error a)
  /\ (forall room limit w a w',
        Dashboard.get_trades room limit w = Dashboard.Returned a w' ->
        ~ propagates_request_error a).
Proof.
  repeat match goal with |- _ /\ _ => split end.
  - intros endpoint params w e Hf. exact (CompleteProps.get_failed _ _ _ _ Hf).
  - intros room endpoint params w bodies o e Hsrv Hf Hroom.
    destruct (DashboardProps.safe_request_failed_after_429s
                endpoint params bodies o e w room Hsrv Hf Hroom)
      as (w' & Hrun & Hui & _).
    exists w'. split; assumption.
  - intros limit status series_ticker w e fuel Hf.
    destruct (CompleteProps.get_markets_first_fetch_failed
                limit status series_ticker w e fuel Hf) as (w' & H1 & H2).
    eauto.
  - intros ticker w e Hf. rewrite (CompleteProps.get_market_failed _ _ _ Hf).
    eexists. split; reflexivity.
  - intros ticker depth w e Hf.
    rewrite (CompleteProps.get_orderbook_failed _ _ _ _ Hf).
    eexists. split; reflexivity.
  - intros w e Hf. rewrite (CompleteProps.get_series_failed _ _ Hf).
    eexists. split; reflexivity.
  - apply CompleteProps.get_no_request_error.
  - intros fuel limit status series_ticker w r w' Hrun.
    eapply CompleteProps.markets_loop_no_request_error. exact Hrun.
  - intros ticker w. apply CompleteProps.client_call_no_request_error.
  - intros ticker depth w. apply CompleteProps.client_call_no_request_error.
  - intros ticker limit w. apply CompleteProps.client_call_no_request_error.
  - intros ticker w. unfold Complete.get_series.
    destruct (Complete.given ticker);
      apply CompleteProps.client_call_no_request_error.
  - intros room limit w a w'. apply DashboardProps.extract_no_request_error.
  - intros room ticker w a w'. apply DashboardProps.extract_no_request_error.
  - intros fuel limit w a w'. apply DashboardProps.extract_no_request_error.
Qed.

(** * More about kalshi_complete.py *)

Module CompleteMore.

Import Complete.
Import CompleteProps.

(** ** One request *)

(** The shape of every call of [get]. *)
Lemma get_shape endpoint params w :
  exists r errors,
    get endpoint params w
    = (r,
       mkWorld (server w)
         (sent w ++ [mkRequest (BASE_URL ++ endpoint) params 30])
         (stdout w ++ errors))
    /\ ((exists data,
            r = Ok data
            /\ (errors = []
                \/ (data = JNull
                    /\ exists e, errors = [ApiErrorLine e]
                                 /\ is_RequestException e = true)))
        \/ (exists e status,
              r = Raise e
              /\ errors = []
              /\ next_outcome w (mkRequest (BASE_URL ++ endpoint) params 30)
                 = Responds status (Raise e)
              /\ ~ (400 <= status < 600)%Z
              /\ is_RequestException e = false)).
Proof.
  unfold get, session_get, dispatched.
  destruct (next_outcome w _) as [detail | status body]; cbn [bind].
  - exists (Ok JNull), [ApiErrorLine (TransportError detail)].
    split; [reflexivity |]. left. exists JNull. split; [reflexivity |].
    right. split; [reflexivity |]. eexists. split; reflexivity.
  - unfold raise_for_status. cbn [status_code].
    destruct ((400 <=? status)%Z && (status <? 600)%Z) eqn:Hst; cbn [bind].
    + exists (Ok JNull), [ApiErrorLine (HTTPError status)].
      split; [reflexivity |]. left. exists JNull. split; [reflexivity |].
      right. split; [reflexivity |]. eexists. split; reflexivity.
    + unfold response_json. cbn [resp_body]. destruct body as [data | e].
      * exists (Ok data), []. cbn. rewrite app_nil_r. split; [reflexivity |].
        left. exists data. split; [reflexivity | now left].
      * destruct (is_RequestException e) eqn:He.
        -- exists (Ok JNull), [ApiErrorLine e]. split; [reflexivity |].
           left. exists JNull. split; [reflexivity |].
           right. split; [reflexivity |]. exists e. split; [reflexivity | exact He].
        -- exists (Raise e), []. cbn [server sent stdout].
           rewrite app_nil_r. split; [reflexivity |].
           right. exists e, status. repeat split; try assumption.
           intros [H1 H2]. apply Z.leb_le in H1. apply Z.ltb_lt in H2.
           rewrite H1, H2 in Hst. discriminate.
Qed.

(** X1. Whatever the remote side does, [get] dispatches exactly one
    request (base URL and endpoint, the caller's parameters, a timeout of
    30 seconds).  It returns normally, having printed nothing, or one API
    error line and then returning [None], with one exception: when the
    answer has a good status and [response.json()] raises something that is
    not a [RequestException] ([ValueError] on an integer that is too long,
    [RecursionError] on a nesting that is too deep), that exception leaves
    [get], and nothing is printed. *)
Theorem get_dispatches_one_request :
  forall endpoint params w,
  exists r errors,
    get endpoint params w
    = (r,
       mkWorld (server w)
         (sent w ++ [mkRequest (BASE_URL ++ endpoint) params 30])
         (stdout w ++ errors))
    /\ ((exists data,
            r = Ok data
            /\ (errors = []
                \/ (data = JNull
                    /\ exists e, errors = [ApiErrorLine e]
                                 /\ is_RequestException e = true)))
        \/ (exists e status,
              r = Raise e
              /\ errors = []
              /\ next_outcome w (mkRequest (BASE_URL ++ endpoint) params 30)
                 = Responds status (Raise e)
              /\ ~ (400 <= status < 600)%Z
              /\ is_RequestException e = false)).
Proof. intros endpoint params w. apply get_shape. Qed.

(** ** The requests of a pagination *)

Lemma lookup_dict_set_other {A : Type} key k (v : A) d :
  k <> key -> lookup k (dict_set key v d) = lookup k d.
Proof.
  intros Hk. induction d as [| [k0 v0] rest IH]; cbn.
  - destruct (String.eqb_spec key k) as [E | E]; [congruence | reflexivity].
  - destruct (String.eqb_spec k0 key) as [E | E]; cbn.
    + subst k0. destruct (String.eqb_spec key k) as [E' | E']; [congruence |].
      reflexivity.
    + destruct (String.eqb k0 k); [reflexivity | exact IH].
Qed.

Lemma next_params_other cursor params k :
  k <> "cursor" -> lookup k (next_params cursor params) = lookup k params.
Proof.
  intros Hk. unfold next_params. destruct (truthy cursor); [| reflexivity].
  now apply lookup_dict_set_other.
Qed.

(** What any run of the loop that returns leaves behind. *)
Lemma markets_loop_trace fuel :
  forall limit params acc cursor w r w',
    markets_loop fuel limit params acc cursor w = Some (r, w') ->
    server w' = server w
    /\ (exists requests,
          sent w' = sent w ++ requests
          /\ requests <> []
          /\ Forall (fun q =>
                       exists ps,
                         q = markets_request ps
                         /\ forall k, k <> "cursor" -> lookup k ps = lookup k params)
               requests)
    /\ (stdout w' = stdout w
        \/ exists e, stdout w' = stdout w ++ [ApiErrorLine e])
    /\ (forall l, r = Ok l -> exists more, l = acc ++ more).
Proof.
  induction fuel as [| fuel IH]; intros limit params acc cursor w r w' Hrun;
    cbn [markets_loop] in Hrun; [discriminate |].
  destruct (get_shape "/markets" (Some (next_params cursor params)) w)
    as (got & errors & Hget & Hcases).
  rewrite Hget in Hrun.
  assert (Hfirst :
    Forall (fun q =>
              exists ps,
                q = markets_request ps
                /\ forall k, k <> "cursor" -> lookup k ps = lookup k params)
      [mkRequest (BASE_URL ++ "/markets") (Some (next_params cursor params)) 30]).
  { constructor; [| constructor]. exists (next_params cursor params).
    split; [reflexivity |]. intros k Hk. now apply next_params_other. }
  assert (Hout : stdout w ++ errors = stdout w
                 \/ exists e, stdout w ++ errors = stdout w ++ [ApiErrorLine e]).
  { destruct Hcases
      as [(data & _ & [-> | (_ & e & -> & _)]) | (e & status & _ & -> & _)];
      [left; apply app_nil_r | right; now exists e | left; apply app_nil_r]. }
  assert (Hdone :
    forall r0,
      Some (r0, mkWorld (server w)
                  (sent w ++ [mkRequest (BASE_URL ++ "/markets")
                                (Some (next_params cursor params)) 30])
                  (stdout w ++ errors)) = Some (r, w') ->
      (forall l, r0 = Ok l -> exists more, l = acc ++ more) ->
      server w' = server w
      /\ (exists requests,
            sent w' = sent w ++ requests
            /\ requests <> []
            /\ Forall (fun q =>
                         exists ps,
                           q = markets_request ps
                           /\ forall k, k <> "cursor" -> lookup k ps = lookup k params)
                 requests)
      /\ (stdout w' = stdout w
          \/ exists e, stdout w' = stdout w ++ [ApiErrorLine e])
      /\ (forall l, r = Ok l -> exists more, l = acc ++ more)).
  { intros r0 Heq Hacc. inversion Heq; subst. cbn [server sent stdout].
    split; [reflexivity |]. split; [| split; assumption].
    eexists. split; [reflexivity |]. split; [discriminate | exact Hfirst]. }
  destruct Hcases as [(data & -> & Herr) | (e & status & -> & _)].
  2:{ apply (Hdone _ Hrun). intros l Hl. discriminate. }
  destruct (truthy data) eqn:Htruthy; cbn [negb] in Hrun.
  2:{ apply (Hdone _ Hrun). intros l Hl. inversion Hl. exists [].
      now rewrite app_nil_r. }
  assert (Herrors : errors = []).
  { destruct Herr as [-> | (-> & _)]; [reflexivity | discriminate]. }
  subst errors. rewrite app_nil_r in *.
  destruct (dict_get data "markets" (JArr [])) as [markets | e1];
    cbn [bind] in Hrun.
  2:{ apply (Hdone _ Hrun). intros l Hl. discriminate. }
  destruct (py_iter markets) as [extra | e2]; cbn [bind] in Hrun.
  2:{ apply (Hdone _ Hrun). intros l Hl. discriminate. }
  destruct (dict_get data "cursor" JNull) as [cursor' | e3]; cbn [bind] in Hrun.
  2:{ apply (Hdone _ Hrun). intros l Hl. discriminate. }
  destruct (negb (truthy cursor') || _).
  { apply (Hdone _ Hrun). intros l Hl. inversion Hl. now exists extra. }
  destruct (IH _ _ _ _ _ _ _ Hrun)
    as (Hs & (requests & Hsent & _ & Hall) & Hstd & Hacc).
  cbn [server sent stdout] in *.
  split; [exact Hs |]. split; [| split].
  - exists (mkRequest (BASE_URL ++ "/markets")
              (Some (next_params cursor params)) 30 :: requests).
    split; [rewrite Hsent, <- app_assoc; reflexivity |].
    split; [discriminate |].
    constructor; [now inversion Hfirst |].
    eapply Forall_impl; [| exact Hall].
    intros q (ps & -> & Hps). exists ps. split; [reflexivity |].
    intros k Hk. rewrite (Hps k Hk). now apply next_params_other.
  - exact Hstd.
  - intros l Hl. destruct (Hacc l Hl) as [more ->].
    exists (extra ++ more). now rewrite app_assoc.
Qed.

Lemma markets_params_lookup limit status series_ticker :
  lookup "limit" (markets_params limit status series_ticker) = Some (JNum limit)
  /\ lookup "status" (markets_params limit status series_ticker)
     = Some (JStr status)
  /\ lookup "series_ticker" (markets_params limit status series_ticker)
     = option_map JStr (given series_ticker).
Proof.
  unfold markets_params. destruct (given series_ticker); repeat split.
Qed.

(** X2. Every request of a [get_markets] call that returns goes to
    [/markets] with a timeout of 30 seconds and carries the caller's
    [limit] and [status], and the series filter exactly when one was given:
    following a cursor never disturbs them.  At least one request is made,
    and at most one line is printed, an API error line. *)
Theorem get_markets_requests_keep_filters :
  forall fuel limit status series_ticker w r w',
    get_markets fuel limit status series_ticker w = Some (r, w') ->
    exists requests,
      sent w' = sent w ++ requests
      /\ requests <> []
      /\ Forall (fun q =>
                   req_url q = (BASE_URL ++ "/markets")%string
                   /\ req_timeout q = 30%Z
                   /\ exists ps,
                        req_params q = Some ps
                        /\ lookup "limit" ps = Some (JNum limit)
                        /\ lookup "status" ps = Some (JStr status)
                        /\ lookup "series_ticker" ps
                           = option_map JStr (given series_ticker))
           requests
      /\ (stdout w' = stdout w
          \/ exists e, stdout w' = stdout w ++ [ApiErrorLine e]).
Proof.
  intros fuel limit status series_ticker w r w' Hrun.
  destruct (markets_loop_trace _ _ _ _ _ _ _ _ Hrun)
    as (_ & (requests & Hsent & Hne & Hall) & Hstd & _).
  destruct (markets_params_lookup limit status series_ticker) as (Hl & Hs & Ht).
  exists requests. repeat split; try assumption.
  eapply Forall_impl; [| exact Hall].
  intros q (ps & -> & Hps). repeat split. exists ps.
  split; [reflexivity |].
  rewrite !Hps by discriminate. repeat split; assumption.
Qed.

(** Two pages of a filtered listing. *)
Lemma get_markets_requests_keep_filters_witness :
  let page1 := JObj [("markets", JArr [JStr "ABC"; JStr "DEF"]); ("cursor", JStr "c1")] in
  let page2 := JObj [("markets", JArr [JStr "GHI"]); ("cursor", JStr "")] in
  let w := mkWorld (mock_server [ok_page page1; ok_page page2]) [] [] in
  let w' :=
    mkWorld (server w)
      [markets_request [("limit", JNum 2); ("status", JStr "closed");
                        ("series_ticker", JStr "KX")];
       markets_request [("limit", JNum 2); ("status", JStr "closed");
                        ("series_ticker", JStr "KX"); ("cursor", JStr "c1")]]
      [] in
  exists requests,
    sent w' = sent w ++ requests
    /\ requests <> []
    /\ Forall (fun q =>
                 req_url q = (BASE_URL ++ "/markets")%string
                 /\ req_timeout q = 30%Z
                 /\ exists ps,
                      req_params q = Some ps
                      /\ lookup "limit" ps = Some (JNum 2)
                      /\ lookup "status" ps = Some (JStr "closed")
                      /\ lookup "series_ticker" ps
                         = option_map JStr (given (Some "KX")))
         requests
    /\ (stdout w' = stdout w
        \/ exists e, stdout w' = stdout w ++ [ApiErrorLine e]).
Proof.
  intros page1 page2 w w'.
  apply (get_markets_requests_keep_filters 5 2 "closed" (Some "KX") w
           (Ok [JStr "ABC"; JStr "DEF"; JStr "GHI"]) w').
  reflexivity.
Defined.

(** ** Pagination that goes on, and pagination that breaks *)

Lemma world_eta w : mkWorld (server w) (sent w ++ []) (stdout w) = w.
Proof. destruct w. cbn. now rewrite app_nil_r. Qed.

(** The loop runs through pages that have a cursor and are full. *)
Lemma markets_loop_skip pages :
  forall fuel limit params acc cursor w script,
    Forall (fun p => is_page p = true) pages ->
    Forall (fun p => last_page limit p = false) pages ->
    serves w (map ok_page pages ++ script) ->
    exists params' cursor' requests,
      markets_loop (List.length pages + fuel) limit params acc cursor w
      = markets_loop fuel limit params'
          (acc ++ List.concat (map page_items pages)) cursor'
          (mkWorld (server w) (sent w ++ requests) (stdout w))
      /\ List.length requests = List.length pages
      /\ serves (mkWorld (server w) (sent w ++ requests) (stdout w)) script.
Proof.
  induction pages as [| p rest IH];
    intros fuel limit params acc cursor w script Hwf Hcont Hsrv.
  - exists params, cursor, []. cbn [List.length Nat.add map List.concat].
    rewrite app_nil_r, world_eta. repeat split. exact Hsrv.
  - inversion Hwf as [| ? ? Hp Hwf']; subst.
    inversion Hcont as [| ? ? Hc Hcont']; subst.
    cbn [map app] in Hsrv. cbn [List.length Nat.add].
    rewrite (markets_loop_page _ limit params acc cursor w p Hp
               (CompleteProps.serves_head _ _ _ _ Hsrv)).
    rewrite Hc.
    destruct (IH fuel limit (next_params cursor params) (acc ++ page_items p)
                (page_cursor p)
                (dispatched (markets_request (next_params cursor params)) w)
                script Hwf' Hcont' (CompleteProps.serves_tail _ _ _ _ Hsrv))
      as (params' & cursor' & requests & Hrun & Hlen & Hsrv').
    unfold dispatched in Hrun, Hsrv'. cbn [server sent stdout] in Hrun, Hsrv'.
    exists params', cursor',
      (markets_request (next_params cursor params) :: requests).
    cbn [map List.concat]. rewrite app_assoc.
    replace (sent w ++ markets_request (next_params cursor params) :: requests)
      with ((sent w ++ [markets_request (next_params cursor params)]) ++ requests)
      by (rewrite <- app_assoc; reflexivity).
    split; [exact Hrun |]. split; [cbn; now rewrite Hlen | exact Hsrv'].
Qed.

(** X3. [get_markets] has no bound on the number of pages: against a
    remote side that answers every request with a full page and a cursor it
    does not return, whatever the fuel. *)
Theorem get_markets_never_returns_on_endless_pages :
  forall limit status series_ticker p w fuel,
    is_page p = true ->
    last_page limit p = false ->
    (forall n r, server w n r = ok_page p) ->
    get_markets fuel limit status series_ticker w = None.
Proof.
  intros limit status series_ticker p w fuel Hp Hcont Hsrv. unfold get_markets.
  generalize (markets_params limit status series_ticker) as params.
  generalize (@nil json) as acc. generalize JNull as cursor.
  revert w Hsrv.
  induction fuel as [| fuel IH]; intros w Hsrv cursor acc params;
    [reflexivity |].
  rewrite (markets_loop_page fuel limit params acc cursor w p Hp (Hsrv _ _)).
  rewrite Hcont. apply IH. intros n r. apply Hsrv.
Qed.

Lemma get_markets_never_returns_on_endless_pages_witness :
  get_markets 40 1 "open" None
    (mkWorld
       (fun _ _ => ok_page (JObj [("markets", JArr [JStr "ABC"]);
                                  ("cursor", JStr "next")])) [] [])
  = None.
Proof.
  apply (get_markets_never_returns_on_endless_pages 1 "open" None
           (JObj [("markets", JArr [JStr "ABC"]); ("cursor", JStr "next")])).
  - reflexivity.
  - reflexivity.
  - reflexivity.
Defined.

(** One turn of the loop on an answer with a good status. *)
Lemma markets_loop_falsy fuel limit params acc cursor w status data :
  next_outcome w (markets_request (next_params cursor params))
    = Responds status (Ok data) ->
  ~ (400 <= status < 600)%Z ->
  truthy data = false ->
  markets_loop (S fuel) limit params acc cursor w
  = Some (Ok acc, dispatched (markets_request (next_params cursor params)) w).
Proof.
  intros Hnext Hst Hfalse. cbn [markets_loop]. unfold markets_request in *.
  rewrite (get_ok "/markets" _ w status data Hnext Hst), Hfalse. reflexivity.
Qed.

Lemma markets_loop_malformed fuel limit params acc cursor w status data e :
  next_outcome w (markets_request (next_params cursor params))
    = Responds status (Ok data) ->
  ~ (400 <= status < 600)%Z ->
  malformed_page data e ->
  markets_loop (S fuel) limit params acc cursor w
  = Some (Raise e, dispatched (markets_request (next_params cursor params)) w).
Proof.
  intros Hnext Hst Hbad. cbn [markets_loop]. unfold markets_request in *.
  rewrite (get_ok "/markets" _ w status data Hnext Hst).
  destruct Hbad as [data Htruthy Hnot | fields markets Hlook Hiter].
  - rewrite Htruthy. cbn [negb].
    destruct data; try reflexivity. exfalso. now apply (Hnot fields).
  - rewrite (lookup_some_truthy _ _ _ Hlook). cbn [negb dict_get bind].
    rewrite Hlook, Hiter. reflexivity.
Qed.

(** X4. An answer with a good status whose body is ill-formed breaks the
    pagination with an exception that [get] does not catch: a true value
    that is not an object (a non-empty array, say) raises [AttributeError],
    an object whose ["markets"] entry is not iterable ([null], a number, a
    boolean) raises [TypeError].  The markets of the pages fetched before
    are not returned, and nothing is printed. *)
Theorem get_markets_raises_on_malformed_page :
  forall limit status series_ticker pages st bad e w fuel,
    Forall (fun p => is_page p = true) pages ->
    Forall (fun p => last_page limit p = false) pages ->
    serves w (map ok_page pages ++ [Responds st (Ok bad)]) ->
    ~ (400 <= st < 600)%Z ->
    malformed_page bad e ->
    (List.length pages < fuel)%nat ->
    exists requests,
      get_markets fuel limit status series_ticker w
      = Some (Raise e, mkWorld (server w) (sent w ++ requests) (stdout w))
      /\ List.length requests = S (List.length pages).
Proof.
  intros limit status series_ticker pages st bad e w fuel
    Hwf Hcont Hsrv Hst Hbad Hfuel.
  unfold get_markets.
  replace fuel with (List.length pages + S (fuel - S (List.length pages)))%nat
    by lia.
  destruct (markets_loop_skip pages (S (fuel - S (List.length pages))) limit
              (markets_params limit status series_ticker) [] JNull w _
              Hwf Hcont Hsrv)
    as (params' & cursor' & requests & -> & Hlen & Hsrv').
  rewrite (markets_loop_malformed _ _ _ _ _ _ st bad e
             (CompleteProps.serves_head _ _ _ _ Hsrv') Hst Hbad).
  unfold dispatched. cbn [server sent stdout]. rewrite <- app_assoc.
  eexists. split; [reflexivity |]. rewrite length_app, Hlen. cbn. lia.
Qed.

(** A full page, then a page whose markets are [null]. *)
Lemma get_markets_raises_on_malformed_page_witness :
  let page1 := JObj [("markets", JArr [JStr "ABC"; JStr "DEF"]); ("cursor", JStr "c1")] in
  let page2 := JObj [("markets", JNull); ("cursor", JStr "c2")] in
  let w := mkWorld (mock_server [ok_page page1; ok_page page2]) [] [] in
  exists requests,
    get_markets 3 2 "open" None w
    = Some (Raise TypeError, mkWorld (server w) (sent w ++ requests) (stdout w))
    /\ List.length requests = 2%nat.
Proof.
  intros page1 page2 w.
  apply (get_markets_raises_on_malformed_page 2 "open" None [page1] 200 page2
           TypeError w 3).
  - repeat constructor.
  - repeat constructor.
  - apply CompleteProps.mock_serves.
  - lia.
  - apply (markets_not_iterable _ JNull); reflexivity.
  - cbn. lia.
Defined.

(** X6. An answer with a good status and an empty body ([null], [{}],
    [[]], [0], [""], [false]) ends the pagination like a missing cursor
    does, but silently: the markets of the pages fetched before are
    returned and nothing is printed. *)
Theorem get_markets_stops_on_empty_body :
  forall limit status series_ticker pages st body w fuel,
    Forall (fun p => is_page p = true) pages ->
    Forall (fun p => last_page limit p = false) pages ->
    serves w (map ok_page pages ++ [Responds st (Ok body)]) ->
    ~ (400 <= st < 600)%Z ->
    truthy body = false ->
    (List.length pages < fuel)%nat ->
    exists requests,
      get_markets fuel limit status series_ticker w
      = Some (Ok (List.concat (map page_items pages)),
              mkWorld (server w) (sent w ++ requests) (stdout w))
      /\ List.length requests = S (List.length pages).
Proof.
  intros limit status series_ticker pages st body w fuel
    Hwf Hcont Hsrv Hst Hfalse Hfuel.
  unfold get_markets.
  replace fuel with (List.length pages + S (fuel - S (List.length pages)))%nat
    by lia.
  destruct (markets_loop_skip pages (S (fuel - S (List.length pages))) limit
              (markets_params limit status series_ticker) [] JNull w _
              Hwf Hcont Hsrv)
    as (params' & cursor' & requests & -> & Hlen & Hsrv').
  rewrite (markets_loop_falsy _ _ _ _ _ _ st body
             (CompleteProps.serves_head _ _ _ _ Hsrv') Hst Hfalse).
  unfold dispatched. cbn [server sent stdout app]. rewrite <- app_assoc.
  eexists. split; [reflexivity |]. rewrite length_app, Hlen. cbn. lia.
Qed.

Lemma get_markets_stops_on_empty_body_witness :
  let page1 := JObj [("markets", JArr [JStr "ABC"; JStr "DEF"]); ("cursor", JStr "c1")] in
  let w := mkWorld (mock_server [ok_page page1; Responds 200 (Ok JNull)]) [] [] in
  exists requests,
    get_markets 3 2 "open" None w
    = Some (Ok (List.concat (map page_items [page1])),
            mkWorld (server w) (sent w ++ requests) (stdout w))
    /\ List.length requests = 2%nat.
Proof.
  intros page1 w.
  apply (get_markets_stops_on_empty_body 2 "open" None [page1] 200 JNull w 3).
  - repeat constructor.
  - repeat constructor.
  - apply CompleteProps.mock_serves.
  - lia.
  - reflexivity.
  - cbn. lia.
Defined.

Lemma nonpositive_limit_last_page limit p :
  (limit <= 0)%Z -> last_page limit p = negb (truthy (page_cursor p)).
Proof.
  intros Hlimit. unfold last_page.
  replace (Z.of_nat (List.length (page_items p)) <? limit)%Z with false.
  - apply orb_false_r.
  - symmetry. apply Z.ltb_ge. lia.
Qed.

Lemma fetched_all limit front final :
  Forall (fun p => last_page limit p = false) front ->
  last_page limit final = true ->
  fetched limit (front ++ [final]) = front ++ [final].
Proof.
  intros Hfront Hfinal. induction Hfront as [| p front Hp _ IH]; cbn.
  - now rewrite Hfinal.
  - now rewrite Hp, IH.
Qed.

(** X5. With a limit of zero or less no page counts as short: the loop
    follows every cursor, also after pages that hold no markets at all, and
    returns the markets of all the pages up to the one without cursor. *)
Theorem get_markets_nonpositive_limit_follows_every_cursor :
  forall limit status series_ticker front final w fuel,
    (limit <= 0)%Z ->
    Forall (fun p => is_page p = true) (front ++ [final]) ->
    Forall (fun p => truthy (page_cursor p) = true) front ->
    truthy (page_cursor final) = false ->
    serves w (map ok_page (front ++ [final])) ->
    (List.length front < fuel)%nat ->
    exists requests,
      get_markets fuel limit status series_ticker w
      = Some (Ok (List.concat (map page_items (front ++ [final]))),
              mkWorld (server w) (sent w ++ requests) (stdout w))
      /\ List.length requests = S (List.length front).
Proof.
  intros limit status series_ticker front final w fuel
    Hlimit Hwf Hfront Hfinal Hsrv Hfuel.
  assert (Hcont : Forall (fun p => last_page limit p = false) front).
  { eapply Forall_impl; [| exact Hfront]. intros p Hp.
    rewrite (nonpositive_limit_last_page _ _ Hlimit), Hp. reflexivity. }
  assert (Hstop : last_page limit final = true).
  { rewrite (nonpositive_limit_last_page _ _ Hlimit), Hfinal. reflexivity. }
  assert (Hall := fetched_all limit front final Hcont Hstop).
  unfold get_markets.
  rewrite (markets_loop_pages (front ++ [final]) fuel limit _ [] JNull w Hwf).
  - rewrite Hall. eexists. split; [reflexivity |].
    rewrite page_requests_length, Hall, length_app. cbn. lia.
  - apply Exists_app. right. now constructor.
  - exact Hsrv.
  - rewrite Hall, length_app. cbn. lia.
Qed.

(** An empty page with a cursor, then a page without cursor, asked with
    [limit = 0]. *)
Lemma get_markets_nonpositive_limit_follows_every_cursor_witness :
  let page1 := JObj [("markets", JArr []); ("cursor", JStr "c1")] in
  let page2 := JObj [("markets", JArr [JStr "ABC"])] in
  let w := mkWorld (mock_server [ok_page page1; ok_page page2]) [] [] in
  exists requests,
    get_markets 2 0 "open" None w
    = Some (Ok (List.concat (map page_items ([page1] ++ [page2]))),
            mkWorld (server w) (sent w ++ requests) (stdout w))
    /\ List.length requests = 2%nat.
Proof.
  intros page1 page2 w.
  apply (get_markets_nonpositive_limit_follows_every_cursor 0 "open" None
           [page1] page2 w 2).
  - lia.
  - repeat constructor.
  - repeat constructor.
  - reflexivity.
  - apply mock_serves.
  - cbn. lia.
Defined.

(** ** The single-request operations *)

Lemma select_default data key default :
  truthy data = false
  \/ (exists fields, data = JObj fields /\ lookup key fields = None) ->
  (if truthy data then dict_get data key default else Ok default) = Ok default.
Proof.
  intros [Hfalse | (fields & -> & Hnone)].
  - now rewrite Hfalse.
  - destruct (truthy (JObj fields)); [| reflexivity]. cbn. now rewrite Hnone.
Qed.

Lemma select_not_object data key default default' :
  truthy data = true -> not_object data ->
  (if truthy data then dict_get data key default else Ok default')
  = Raise AttributeError.
Proof.
  intros Htruthy Hnot. rewrite Htruthy.
  destruct data; try reflexivity. exfalso. now apply (Hnot fields).
Qed.

Lemma trades_params_eq ticker limit :
  match given ticker with
  | Some t => dict_set "ticker" (JStr t) [("limit", JNum limit)]
  | None => [("limit", JNum limit)]
  end = trades_params ticker limit.
Proof. unfold trades_params. destruct (given ticker); reflexivity. Qed.

Lemma given_nonempty t : t <> "" -> given (Some t) = Some t.
Proof.
  intros Ht. cbn. destruct (String.eqb_spec t ""); [contradiction | reflexivity].
Qed.

(** X7. When the answer has a good status but its body is empty, or is an
    object without the expected key, the operations that list
    ([get_trades], [get_series()]) return the empty list and those that
    fetch one thing ([get_market], [get_orderbook], [get_series(ticker)])
    return [None].  One request is dispatched and nothing is printed, so the
    value is the one a failed request gives. *)
Theorem operations_default_when_key_is_missing :
  forall w st body ticker depth limit filter,
    (forall r, next_outcome w r = Responds st (Ok body)) ->
    ~ (400 <= st < 600)%Z ->
    (truthy body = false
     \/ exists fields,
          body = JObj fields
          /\ lookup "market" fields = None /\ lookup "orderbook" fields = None
          /\ lookup "trades" fields = None /\ lookup "series" fields = None) ->
    get_market ticker w
    = (Ok JNull, dispatched (mkRequest (BASE_URL ++ "/markets/" ++ ticker) None 30) w)
    /\ get_orderbook ticker depth w
       = (Ok JNull,
          dispatched
            (mkRequest (BASE_URL ++ "/markets/" ++ ticker ++ "/orderbook")
               (Some [("depth", JNum depth)]) 30) w)
    /\ get_trades filter limit w
       = (Ok (JArr []),
          dispatched
            (mkRequest (BASE_URL ++ "/markets/trades")
               (Some (trades_params filter limit)) 30) w)
    /\ get_series None w
       = (Ok (JArr []), dispatched (mkRequest (BASE_URL ++ "/series") None 30) w)
    /\ (ticker <> "" ->
        get_series (Some ticker) w
        = (Ok JNull,
           dispatched (mkRequest (BASE_URL ++ "/series/" ++ ticker) None 30) w)).
Proof.
  intros w st body ticker depth limit filter Hsrv Hst Hbody.
  assert (Hkey : forall key,
             In key ["market"; "orderbook"; "trades"; "series"] ->
             truthy body = false
             \/ exists fields, body = JObj fields /\ lookup key fields = None).
  { intros key Hin.
    destruct Hbody as [Hfalse | (fields & -> & Hm & Ho & Ht & Hs)];
      [now left |].
    right. exists fields. split; [reflexivity |].
    cbn in Hin. destruct Hin as [<- | [<- | [<- | [<- | []]]]]; assumption. }
  split; [| split; [| split; [| split]]].
  - unfold get_market. rewrite (get_ok _ _ w st body (Hsrv _) Hst).
    rewrite select_default; [reflexivity | apply Hkey; cbn; auto].
  - unfold get_orderbook. rewrite (get_ok _ _ w st body (Hsrv _) Hst).
    rewrite select_default; [reflexivity | apply Hkey; cbn; auto].
  - unfold get_trades. rewrite trades_params_eq.
    rewrite (get_ok _ _ w st body (Hsrv _) Hst).
    rewrite select_default; [reflexivity | apply Hkey; cbn; auto].
  - unfold get_series. cbn [given].
    rewrite (get_ok _ _ w st body (Hsrv _) Hst).
    rewrite select_default; [reflexivity | apply Hkey; cbn; auto].
  - intros Hticker. unfold get_series. rewrite (given_nonempty _ Hticker).
    rewrite (get_ok _ _ w st body (Hsrv _) Hst).
    rewrite select_default; [reflexivity | apply Hkey; cbn; auto].
Qed.

(** An object that only says ["ok": true]. *)
Lemma operations_default_when_key_is_missing_witness :
  let w := mkWorld (fun _ _ => Responds 200 (Ok (JObj [("ok", JBool true)])))
             [] [] in
  get_market "ABC" w
  = (Ok JNull, dispatched (mkRequest (BASE_URL ++ "/markets/" ++ "ABC") None 30) w)
  /\ get_orderbook "ABC" 5 w
     = (Ok JNull,
        dispatched
          (mkRequest (BASE_URL ++ "/markets/" ++ "ABC" ++ "/orderbook")
             (Some [("depth", JNum 5)]) 30) w)
  /\ get_trades None 10 w
     = (Ok (JArr []),
        dispatched
          (mkRequest (BASE_URL ++ "/markets/trades")
             (Some (trades_params None 10)) 30) w)
  /\ get_series None w
     = (Ok (JArr []), dispatched (mkRequest (BASE_URL ++ "/series") None 30) w)
  /\ ("ABC" <> "" ->
      get_series (Some "ABC") w
      = (Ok JNull,
         dispatched (mkRequest (BASE_URL ++ "/series/" ++ "ABC") None 30) w)).
Proof.
  intros w.
  apply (operations_default_when_key_is_missing w 200
           (JObj [("ok", JBool true)]) "ABC" 5 10 None).
  - reflexivity.
  - lia.
  - right. exists [("ok", JBool true)]. repeat split.
Defined.

(** X9. The operations do not check the kind of JSON they get: when the
    answer has a good status and its body is a true value that is not an
    object (a non-empty array or string, a number, [true]), each of them
    raises [AttributeError] to its caller after one request, and nothing is
    printed: [get] only catches the errors of the transport. *)
Theorem operations_raise_on_non_object_body :
  forall w st body ticker depth limit filter,
    (forall r, next_outcome w r = Responds st (Ok body)) ->
    ~ (400 <= st < 600)%Z ->
    truthy body = true ->
    not_object body ->
    get_market ticker w
    = (Raise AttributeError,
       dispatched (mkRequest (BASE_URL ++ "/markets/" ++ ticker) None 30) w)
    /\ get_orderbook ticker depth w
       = (Raise AttributeError,
          dispatched
            (mkRequest (BASE_URL ++ "/markets/" ++ ticker ++ "/orderbook")
               (Some [("depth", JNum depth)]) 30) w)
    /\ get_trades filter limit w
       = (Raise AttributeError,
          dispatched
            (mkRequest (BASE_URL ++ "/markets/trades")
               (Some (trades_params filter limit)) 30) w)
    /\ get_series None w
       = (Raise AttributeError,
          dispatched (mkRequest (BASE_URL ++ "/series") None 30) w)
    /\ (ticker <> "" ->
        get_series (Some ticker) w
        = (Raise AttributeError,
           dispatched (mkRequest (BASE_URL ++ "/series/" ++ ticker) None 30) w)).
Proof.
  intros w st body ticker depth limit filter Hsrv Hst Htruthy Hnot.
  split; [| split; [| split; [| split]]].
  - unfold get_market. rewrite (get_ok _ _ w st body (Hsrv _) Hst).
    now rewrite select_not_object.
  - unfold get_orderbook. rewrite (get_ok _ _ w st body (Hsrv _) Hst).
    now rewrite select_not_object.
  - unfold get_trades. rewrite trades_params_eq.
    rewrite (get_ok _ _ w st body (Hsrv _) Hst).
    now rewrite select_not_object.
  - unfold get_series. cbn [given].
    rewrite (get_ok _ _ w st body (Hsrv _) Hst).
    now rewrite select_not_object.
  - intros Hticker. unfold get_series. rewrite (given_nonempty _ Hticker).
    rewrite (get_ok _ _ w st body (Hsrv _) Hst).
    now rewrite select_not_object.
Qed.

(** The remote side answers with a JSON array. *)
Lemma operations_raise_on_non_object_body_witness :
  let w := mkWorld (fun _ _ => Responds 200 (Ok (JArr [JStr "ABC"]))) [] [] in
  get_market "ABC" w
  = (Raise AttributeError,
     dispatched (mkRequest (BASE_URL ++ "/markets/" ++ "ABC") None 30) w)
  /\ get_orderbook "ABC" 5 w
     = (Raise AttributeError,
        dispatched
          (mkRequest (BASE_URL ++ "/markets/" ++ "ABC" ++ "/orderbook")
             (Some [("depth", JNum 5)]) 30) w)
  /\ get_trades None 10 w
     = (Raise AttributeError,
        dispatched
          (mkRequest (BASE_URL ++ "/markets/trades")
             (Some (trades_params None 10)) 30) w)
  /\ get_series None w
     = (Raise AttributeError,
        dispatched (mkRequest (BASE_URL ++ "/series") None 30) w)
  /\ ("ABC" <> "" ->
      get_series (Some "ABC") w
      = (Raise AttributeError,
         dispatched (mkRequest (BASE_URL ++ "/series/" ++ "ABC") None 30) w)).
Proof.
  intros w.
  apply (operations_raise_on_non_object_body w 200 (JArr [JStr "ABC"])
           "ABC" 5 10 None).
  - reflexivity.
  - lia.
  - reflexivity.
  - intros fields. discriminate.
Defined.

(** X8. [get_trades] fetches one page only: whatever the answer, also one
    that carries a cursor, exactly one request is dispatched, to
    [/markets/trades], with the caller's [limit] as it is and the ticker
    when one is given.  When the body is an object with a ["trades"] entry,
    that entry is returned as it is. *)
Theorem get_trades_fetches_one_page :
  forall ticker limit w,
  exists r errors,
    get_trades ticker limit w
    = (r, mkWorld (server w)
            (sent w ++ [mkRequest (BASE_URL ++ "/markets/trades")
                          (Some (trades_params ticker limit)) 30])
            (stdout w ++ errors))
    /\ (forall st fields trades,
          next_outcome w
            (mkRequest (BASE_URL ++ "/markets/trades")
               (Some (trades_params ticker limit)) 30)
          = Responds st (Ok (JObj fields)) ->
          ~ (400 <= st < 600)%Z ->
          lookup "trades" fields = Some trades ->
          r = Ok trades /\ errors = []).
Proof.
  intros ticker limit w. unfold get_trades. rewrite trades_params_eq.
  match goal with
  | |- context [get ?e ?p w] =>
      destruct (get_shape e p w) as (r0 & errors & Hget & _)
  end.
  exists (match r0 with
          | Ok data =>
              if truthy data then dict_get data "trades" (JArr [])
              else Ok (JArr [])
          | Raise e => Raise e
          end), errors.
  rewrite Hget. split; [destruct r0; reflexivity |].
  intros st fields trades Hnext Hst Htrades.
  assert (Heq := eq_trans (eq_sym Hget)
                   (get_ok _ _ w st (JObj fields) Hnext Hst)).
  inversion Heq as [[Hdata Herrors]]. subst r0.
  rewrite (lookup_some_truthy _ _ _ Htrades). cbn [dict_get].
  rewrite Htrades. split; [reflexivity |].
  unfold dispatched in Herrors.
  assert (H := f_equal (@List.length Printed) Herrors).
  rewrite length_app in H. destruct errors; [reflexivity | cbn in H; lia].
Qed.

(** ** The entry point with a key *)

Section MainWithKey.

Variables run_quick_start run_market_analysis run_series_explorer
  run_visualization : Demo.

Lemma main_with_key key w :
  key <> "" ->
  main run_quick_start run_market_analysis run_series_explorer
    run_visualization (Some key) w
  = match run_all [run_quick_start; run_market_analysis;
                   run_series_explorer; run_visualization]
            (display_welcome (Some key) w) with
    | None => None
    | Some (Ok _, w1) =>
        Some (print_lines
                [ "
🎉 All examples completed successfully!";
                  "
Next steps:";
                  "1. Check 'market_probabilities.png' for the visualization";
                  "2. Modify the code to explore different markets";
                  "3. Add your own analysis functions";
                  "4. Check the complete documentation for advanced features" ] w1)
    | Some (Raise e, w1) =>
        Some (print_lines
                [ "Make sure your API key is valid and you have internet connection" ]
                (print (ExamplesErrorLine e) w1))
    end.
Proof. intros Hkey. unfold main. now rewrite (given_nonempty _ Hkey). Qed.

End MainWithKey.

(** X10. With a key, [main] runs the four demos in turn, each from the
    world the one before left, and never raises.  The first demo that
    raises ends the run: the demos after it are not run and the handler
    prints the exception and one line of advice.  When none raises, the six
    closing lines are printed. *)
Theorem main_stops_at_first_failing_demo :
  forall run_quick_start run_market_analysis run_series_explorer
         run_visualization key w,
    key <> "" ->
    let main_ := main run_quick_start run_market_analysis run_series_explorer
                   run_visualization (Some key) w in
    let w0 := display_welcome (Some key) w in
    let report e w' :=
      print (Line "Make sure your API key is valid and you have internet connection")
        (print (ExamplesErrorLine e) w') in
    (forall e w1,
        run_quick_start w0 = Some (Raise e, w1) ->
        main_ = Some (report e w1))
    /\ (forall u1 w1 e w2,
          run_quick_start w0 = Some (Ok u1, w1) ->
          run_market_analysis w1 = Some (Raise e, w2) ->
          main_ = Some (report e w2))
    /\ (forall u1 w1 u2 w2 e w3,
          run_quick_start w0 = Some (Ok u1, w1) ->
          run_market_analysis w1 = Some (Ok u2, w2) ->
          run_series_explorer w2 = Some (Raise e, w3) ->
          main_ = Some (report e w3))
    /\ (forall u1 w1 u2 w2 u3 w3 e w4,
          run_quick_start w0 = Some (Ok u1, w1) ->
          run_market_analysis w1 = Some (Ok u2, w2) ->
          run_series_explorer w2 = Some (Ok u3, w3) ->
          run_visualization w3 = Some (Raise e, w4) ->
          main_ = Some (report e w4))
    /\ (forall u1 w1 u2 w2 u3 w3 u4 w4,
          run_quick_start w0 = Some (Ok u1, w1) ->
          run_market_analysis w1 = Some (Ok u2, w2) ->
          run_series_explorer w2 = Some (Ok u3, w3) ->
          run_visualization w3 = Some (Ok u4, w4) ->
          main_
          = Some (print_lines
                    [ "
🎉 All examples completed successfully!";
                      "
Next steps:";
                      "1. Check 'market_probabilities.png' for the visualization";
                      "2. Modify the code to explore different markets";
                      "3. Add your own analysis functions";
                      "4. Check the complete documentation for advanced features" ]
                    w4)).
Proof.
  intros q a s v key w Hkey main_ w0 report. subst main_ w0 report.
  rewrite (main_with_key q a s v key w Hkey). cbn [run_all].
  split; [| split; [| split; [| split]]].
  - intros e w1 ->. reflexivity.
  - intros u1 w1 e w2 -> ->. reflexivity.
  - intros u1 w1 u2 w2 e w3 -> -> ->. reflexivity.
  - intros u1 w1 u2 w2 u3 w3 e w4 -> -> -> ->. reflexivity.
  - intros u1 w1 u2 w2 u3 w3 u4 w4 -> -> -> ->. reflexivity.
Qed.

(** A second demo that raises: the third and the fourth do not matter. *)
Lemma main_stops_at_first_failing_demo_witness :
  main (fun w => Some (Ok tt, print (Line "first") w))
    (fun w => Some (Raise TypeError, w)) (fun _ => None) (fun _ => None)
    (Some "secret") (mkWorld (mock_server []) [] [])
  = Some (print
            (Line "Make sure your API key is valid and you have internet connection")
            (print (ExamplesErrorLine TypeError)
               (print (Line "first")
                  (display_welcome (Some "secret")
                     (mkWorld (mock_server []) [] []))))).
Proof.
  destruct (main_stops_at_first_failing_demo
              (fun w => Some (Ok tt, print (Line "first") w))
              (fun w => Some (Raise TypeError, w)) (fun _ => None) (fun _ => None)
              "secret" (mkWorld (mock_server []) [] []))
    as (_ & Hsecond & _).
  - discriminate.
  - eapply Hsecond; reflexivity.
Defined.

(** X11. The key is only a switch.  Its value is never printed and never
    reaches a demo: any two non-empty keys give the same banner and the same
    run, and an empty key is an absent key. *)
Theorem api_key_is_only_a_switch :
  forall run_quick_start run_market_analysis run_series_explorer
         run_visualization key1 key2 w,
    key1 <> "" -> key2 <> "" ->
    display_welcome (Some key1) w = display_welcome (Some key2) w
    /\ main run_quick_start run_market_analysis run_series_explorer
         run_visualization (Some key1) w
       = main run_quick_start run_market_analysis run_series_explorer
           run_visualization (Some key2) w
    /\ main run_quick_start run_market_analysis run_series_explorer
         run_visualization (Some "") w
       = main run_quick_start run_market_analysis run_series_explorer
           run_visualization None w.
Proof.
  intros q a s v key1 key2 w H1 H2.
  assert (Hw : display_welcome (Some key1) w = display_welcome (Some key2) w).
  { unfold display_welcome.
    now rewrite (given_nonempty _ H1), (given_nonempty _ H2). }
  split; [exact Hw |]. split; [| reflexivity].
  rewrite (main_with_key q a s v key1 w H1), (main_with_key q a s v key2 w H2).
  now rewrite Hw.
Qed.

Lemma api_key_is_only_a_switch_witness :
  let demo : Demo := fun w => Some (Ok tt, print (Line "demo") w) in
  let w := mkWorld (mock_server []) [] [] in
  display_welcome (Some "key-one") w = display_welcome (Some "another key") w
  /\ main demo demo demo demo (Some "key-one") w
     = main demo demo demo demo (Some "another key") w
  /\ main demo demo demo demo (Some "") w = main demo demo demo demo None w.
Proof.
  intros demo w.
  apply (api_key_is_only_a_switch demo demo demo demo "key-one" "another key");
    discriminate.
Defined.

End CompleteMore.

(** * More about kalshi_simple_dashboard.py *)

Module DashboardMore.

Import Dashboard.
Import DashboardProps.
Local Open Scope Q_scope.

(** ** Sleeps and the clock *)

Lemma pace_naps w :
  exists naps,
    slept (pace w) = slept w ++ naps
    /\ Forall (fun d => 0 < d) naps
    /\ (last_request w <= now w -> Forall (fun d => d <= 1#2) naps).
Proof.
  unfold pace.
  destruct (Qlt_bool (now w - last_request w) (1#2)) eqn:E.
  - apply Qlt_bool_iff in E.
    exists [(1#2) - (now w - last_request w)]. cbn [sleep slept].
    split; [reflexivity |]. split.
    + constructor; [lra | constructor].
    + intros Hle. constructor; [lra | constructor].
  - exists []. rewrite app_nil_r. repeat split; constructor.
Qed.

Lemma now_pace w : (forall n, 0 <= oversleep w n) -> now w <= now (pace w).
Proof.
  intros Hover. unfold pace.
  destruct (Qlt_bool (now w - last_request w) (1#2)) eqn:E; [| lra].
  apply Qlt_bool_iff in E. cbn [sleep now].
  specialize (Hover (List.length (slept w))). lra.
Qed.

Lemma now_exchanged r w :
  time_flows w -> now w <= now (exchanged r (pace w)).
Proof.
  intros [Hlat Hover]. assert (H := now_pace w Hover).
  destruct (pace_frame w) as (_ & Hl & _). cbn [exchanged now]. rewrite Hl.
  specialize (Hlat (List.length (sent (pace w)))). lra.
Qed.

Lemma now_after_429 endpoint params w :
  time_flows w ->
  now (exchanged (request_of endpoint params) (pace w)) + 3
  <= now (after_429 endpoint params w).
Proof.
  intros [Hlat Hover]. destruct (pace_frame w) as (_ & _ & Ho & _).
  unfold after_429. cbn [sleep st_warning exchanged now oversleep slept].
  rewrite Ho. specialize (Hover (List.length (slept (pace w)))). lra.
Qed.

(** X12. Every duration the client hands to [time.sleep] is positive, so
    [time.sleep] never gets a negative value; and when time does not run
    backwards and the recorded time of the last request is not in the
    future, none is longer than 3 seconds. *)
Theorem sleeps_are_positive_and_short :
  forall endpoint params room w,
  exists naps,
    slept (final (safe_request room endpoint params w)) = slept w ++ naps
    /\ Forall (fun d => 0 < d) naps
    /\ (time_flows w -> last_request w <= now w ->
        Forall (fun d => d <= 3) naps).
Proof.
  intros endpoint params.
  assert (Hone : forall w,
    exists naps,
      slept (pace w) = slept w ++ naps
      /\ Forall (fun d => 0 < d) naps
      /\ (time_flows w -> last_request w <= now w ->
          Forall (fun d => d <= 3) naps)).
  { intros w. destruct (pace_naps w) as (naps & Hs & Hpos & Hshort).
    exists naps. split; [exact Hs |]. split; [exact Hpos |].
    intros _ Hle. eapply Forall_impl; [| exact (Hshort Hle)].
    cbn. intros d Hd. lra. }
  apply (safe_request_cases endpoint params
           (fun _ w res =>
              exists naps,
                slept (final res) = slept w ++ naps
                /\ Forall (fun d => 0 < d) naps
                /\ (time_flows w -> last_request w <= now w ->
                    Forall (fun d => d <= 3) naps))).
  - intros w. cbn [final st_error exchanged slept]. apply Hone.
  - intros room w e _. cbn [final st_error exchanged slept]. apply Hone.
  - intros room w status body _ _ _ w2. subst w2.
    destruct body; cbn [final st_error set_last_request exchanged slept];
      apply Hone.
  - intros room w body res _ (naps & Hs & Hpos & Hshort).
    destruct (Hone w) as (pnaps & Hp & Hppos & Hpshort).
    destruct (after_429_frame endpoint params w)
      as (_ & _ & _ & Flast & _ & _ & Fslept).
    exists (pnaps ++ 3 :: naps). split; [| split].
    + rewrite Hs, Fslept, Hp, <- !app_assoc. reflexivity.
    + apply Forall_app. split; [exact Hppos |].
      constructor; [lra | exact Hpos].
    + intros Hflow Hle. apply Forall_app. split; [now apply Hpshort |].
      constructor; [lra |]. apply Hshort.
      * now apply time_flows_after_429.
      * rewrite Flast. assert (H1 := now_exchanged (request_of endpoint params) w Hflow).
        assert (H2 := now_after_429 endpoint params w Hflow). lra.
Qed.

(** X13. When time does not run backwards, the clock never goes back
    during a call, and a recorded time of the last request that is not in
    the future stays so. *)
Theorem clock_and_last_request_stay_ordered :
  forall endpoint params room w,
    time_flows w ->
    now w <= now (final (safe_request room endpoint params w))
    /\ (last_request w <= now w ->
        last_request (final (safe_request room endpoint params w))
        <= now (final (safe_request room endpoint params w))).
Proof.
  intros endpoint params.
  apply (safe_request_cases endpoint params
           (fun _ w res =>
              time_flows w ->
              now w <= now (final res)
              /\ (last_request w <= now w ->
                  last_request (final res) <= now (final res)))).
  - intros w Hflow.
    assert (H := now_exchanged (request_of endpoint params) w Hflow).
    cbn [final st_error now last_request] in *.
    change (now (st_error RecursionError
                   (exchanged (request_of endpoint params) (pace w))))
      with (now (exchanged (request_of endpoint params) (pace w))).
    split; [exact H |].
    cbn [st_error exchanged last_request].
    destruct (pace_frame w) as (_ & _ & _ & _ & _ & ->). intros Hle. lra.
  - intros room w e _ Hflow.
    assert (H := now_exchanged (request_of endpoint params) w Hflow).
    cbn [final st_error now last_request] in *.
    change (now (st_error e (exchanged (request_of endpoint params) (pace w))))
      with (now (exchanged (request_of endpoint params) (pace w))).
    split; [exact H |].
    cbn [st_error exchanged last_request].
    destruct (pace_frame w) as (_ & _ & _ & _ & _ & ->). intros Hle. lra.
  - intros room w status body _ _ _ w2 Hflow. subst w2.
    assert (H := now_exchanged (request_of endpoint params) w Hflow).
    destruct body; cbn [final st_error set_last_request now last_request];
      (split; [exact H | intros _; lra]).
  - intros room w body res _ IH Hflow.
    destruct (IH (time_flows_after_429 endpoint params w Hflow)) as [Hnow Hlast].
    destruct (after_429_frame endpoint params w) as (_ & _ & _ & Flast & _).
    assert (H1 := now_exchanged (request_of endpoint params) w Hflow).
    assert (H2 := now_after_429 endpoint params w Hflow).
    split; [lra |]. intros Hle. apply Hlast. rewrite Flast. lra.
Qed.

Lemma clock_and_last_request_stay_ordered_witness :
  let w := init 1000
             (mock_server [Responds 429 (Raise JSONDecodeError);
                           Responds 200 (Ok (JObj [("markets", JArr [])]))])
             (fun _ => 1#20) (fun _ => 0) in
  now w <= now (final (safe_request 2 "/markets" None w))
  /\ (last_request w <= now w ->
      last_request (final (safe_request 2 "/markets" None w))
      <= now (final (safe_request 2 "/markets" None w))).
Proof.
  intros w.
  apply (clock_and_last_request_stay_ordered "/markets" None 2 w).
  apply time_flows_init. intros n. lra.
Defined.

(** ** Messages and retries *)

Lemma repeat_snoc {A : Type} (x : A) n : repeat x n ++ [x] = x :: repeat x n.
Proof. induction n as [| n IH]; cbn; [reflexivity | now rewrite IH]. Qed.

(** X14. What a call shows goes with what it dispatches.  A call has
    dispatched one request and one more per warning shown (the warnings
    are the retries), and has shown at most one error, after the warnings,
    in which case it returned [None]. *)
Theorem warnings_count_retries :
  forall endpoint params room w,
  exists a w' retried errors,
    safe_request room endpoint params w = Returned a w'
    /\ List.length (sent w') = (List.length (sent w) + S retried)%nat
    /\ ui w'
       = ui w ++ repeat (Warning "Rate limited, waiting 3 seconds...") retried
              ++ errors
    /\ (errors = [] \/ (a = JNull /\ exists e, errors = [Error e])).
Proof.
  intros endpoint params.
  apply (safe_request_cases endpoint params
           (fun room w res =>
              exists a w' retried errors,
                res = Returned a w'
                /\ List.length (sent w') = (List.length (sent w) + S retried)%nat
                /\ ui w'
                   = ui w ++ repeat (Warning "Rate limited, waiting 3 seconds...")
                               retried
                          ++ errors
                /\ (errors = [] \/ (a = JNull /\ exists e, errors = [Error e])))).
  - intros w. do 2 eexists. exists O, [Error RecursionError].
    split; [reflexivity |].
    destruct (pace_frame w) as (_ & _ & _ & Psent & Pui & _).
    cbn [st_error exchanged sent ui repeat app].
    rewrite Psent, Pui, length_app. cbn. split; [lia |]. split; [reflexivity |].
    right. split; [reflexivity | now eexists].
  - intros room w e _. do 2 eexists. exists O, [Error e].
    split; [reflexivity |].
    destruct (pace_frame w) as (_ & _ & _ & Psent & Pui & _).
    cbn [st_error exchanged sent ui repeat app].
    rewrite Psent, Pui, length_app. cbn. split; [lia |]. split; [reflexivity |].
    right. split; [reflexivity | now exists e].
  - intros room w status body _ _ _ w2. subst w2.
    destruct (pace_frame w) as (_ & _ & _ & Psent & Pui & _).
    destruct body as [data | e].
    + do 2 eexists. exists O, []. split; [reflexivity |].
      cbn [set_last_request exchanged sent ui repeat app].
      rewrite Psent, Pui, length_app, app_nil_r. cbn.
      split; [lia |]. split; [reflexivity | now left].
    + do 2 eexists. exists O, [Error e]. split; [reflexivity |].
      cbn [st_error set_last_request exchanged sent ui repeat app].
      rewrite Psent, Pui, length_app. cbn. split; [lia |]. split; [reflexivity |].
      right. split; [reflexivity | now eexists].
  - intros room w body res _ (a & w' & retried & errors & -> & Hsent & Hui & Herr).
    destruct (after_429_frame endpoint params w)
      as (_ & _ & _ & _ & Fsent & Fui & _).
    rewrite Fsent, Fui, length_app in *. cbn [List.length] in Hsent.
    exists a, w', (S retried), errors. split; [reflexivity |].
    split; [lia |]. split; [| exact Herr].
    rewrite Hui, <- !app_assoc. reflexivity.
Qed.

(** The dispatch times of a call, when time does not run backwards. *)
Lemma safe_request_times endpoint params :
  forall room w,
    time_flows w ->
    exists times,
      sent (final (safe_request room endpoint params w))
      = sent w ++ map (fun t => (t, request_of endpoint params)) times
      /\ spaced 3 times
      /\ exists more, times = now (pace w) :: more.
Proof.
  apply (safe_request_cases endpoint params
           (fun room w res =>
              time_flows w ->
              exists times,
                sent (final res)
                = sent w ++ map (fun t => (t, request_of endpoint params)) times
                /\ spaced 3 times
                /\ exists more, times = now (pace w) :: more)).
  - intros w _. exists [now (pace w)].
    destruct (pace_frame w) as (_ & _ & _ & Psent & _).
    cbn [final st_error exchanged sent map]. rewrite Psent.
    split; [reflexivity |]. split; [exact I | now exists []].
  - intros room w e _ _. exists [now (pace w)].
    destruct (pace_frame w) as (_ & _ & _ & Psent & _).
    cbn [final st_error exchanged sent map]. rewrite Psent.
    split; [reflexivity |]. split; [exact I | now exists []].
  - intros room w status body _ _ _ w2 _. subst w2. exists [now (pace w)].
    destruct (pace_frame w) as (_ & _ & _ & Psent & _).
    destruct body; cbn [final st_error set_last_request exchanged sent map];
      rewrite Psent;
      (split; [reflexivity |]; split; [exact I | now exists []]).
  - intros room w body res _ IH Hflow.
    destruct (IH (time_flows_after_429 endpoint params w Hflow))
      as (times & Hsent & Hspaced & Hfirst).
    destruct (after_429_frame endpoint params w)
      as (_ & _ & _ & _ & Fsent & _).
    exists (now (pace w) :: times). split; [| split].
    + rewrite Hsent, Fsent, <- app_assoc. reflexivity.
    + destruct times as [| t times]; [exact I |].
      split; [| exact Hspaced].
      destruct Hfirst as [more Hmore]. inversion Hmore; subst.
      rewrite (pace_after_429 _ _ _ Hflow).
      assert (H1 := now_after_429 endpoint params w Hflow).
      assert (Hlat : 0 <= latency (pace w) (List.length (sent (pace w)))).
      { destruct (pace_frame w) as (_ & -> & _). apply Hflow. }
      cbn [exchanged now] in H1. lra.
    + now exists times.
Qed.

(** X15. When time does not run backwards, the requests of one call are
    dispatched at least 3 seconds apart: a retry never leaves sooner than 3
    seconds after the attempt that was answered 429. *)
Theorem retries_are_three_seconds_apart :
  forall endpoint params room w,
    time_flows w ->
    exists times,
      sent (final (safe_request room endpoint params w))
      = sent w ++ map (fun t => (t, request_of endpoint params)) times
      /\ spaced 3 times.
Proof.
  intros endpoint params room w Hflow.
  destruct (safe_request_times endpoint params room w Hflow)
    as (times & Hsent & Hspaced & _).
  exists times. split; assumption.
Qed.

Lemma retries_are_three_seconds_apart_witness :
  let w := init 1000
             (mock_server [Responds 429 (Raise JSONDecodeError); Responds 429 (Raise JSONDecodeError);
                           Responds 200 (Ok (JObj [("markets", JArr [])]))])
             (fun _ => 1#20) (fun _ => 1#100) in
  exists times,
    sent (final (safe_request 3 "/markets" None w))
    = sent w ++ map (fun t => (t, request_of "/markets" None)) times
    /\ spaced 3 times.
Proof.
  intros w.
  apply (retries_are_three_seconds_apart "/markets" None 3 w).
  apply time_flows_init. intros n. lra.
Defined.

(** ** The accessors *)

Lemma extract_success endpoint params room w st body key default :
  next_outcome (pace w) (request_of endpoint params) = Responds st (Ok body) ->
  st <> 429%Z -> ~ (400 <= st < 600)%Z ->
  extract key default (safe_request (S room) endpoint params w)
  = Returned (if truthy body then dict_get body key default else Ok default)
      (set_last_request
         (now (exchanged (request_of endpoint params) (pace w)))
         (exchanged (request_of endpoint params) (pace w))).
Proof.
  intros Hnext H429 Hst.
  now rewrite (safe_request_success _ _ _ _ st body Hnext H429 Hst).
Qed.

Lemma ui_after_success r w :
  ui (set_last_request (now (exchanged r (pace w))) (exchanged r (pace w)))
  = ui w.
Proof.
  cbn [set_last_request exchanged ui].
  now destruct (pace_frame w) as (_ & _ & _ & _ & -> & _).
Qed.

(** X16. The catch-all of [safe_request] does not cover the accessors:
    when the answer has a good status and its body is a true value that is
    not an object (a non-empty array, say), [get_markets], [get_orderbook]
    and [get_trades] raise [AttributeError] to their caller, and no error
    is shown. *)
Theorem accessors_raise_on_non_object_body :
  forall w st body room limit ticker,
    (forall r, next_outcome (pace w) r = Responds st (Ok body)) ->
    st <> 429%Z ->
    ~ (400 <= st < 600)%Z ->
    truthy body = true ->
    Complete.not_object body ->
    (exists w', get_markets (S room) limit w = Returned (Raise AttributeError) w'
                /\ ui w' = ui w)
    /\ (exists w', get_orderbook (S room) ticker w
                   = Returned (Raise AttributeError) w'
                   /\ ui w' = ui w)
    /\ (exists w', get_trades (S room) limit w = Returned (Raise AttributeError) w'
                   /\ ui w' = ui w).
Proof.
  intros w st body room limit ticker Hsrv H429 Hst Htruthy Hnot.
  assert (Hsel : forall key default,
             (if truthy body then dict_get body key default else Ok default)
             = Raise AttributeError).
  { intros key default. rewrite Htruthy.
    destruct body; try reflexivity. exfalso. now apply (Hnot fields). }
  split; [| split].
  - unfold get_markets.
    rewrite (extract_success _ _ _ _ st body _ _ (Hsrv _) H429 Hst), Hsel.
    eexists. split; [reflexivity | apply ui_after_success].
  - unfold get_orderbook.
    rewrite (extract_success _ _ _ _ st body _ _ (Hsrv _) H429 Hst), Hsel.
    eexists. split; [reflexivity | apply ui_after_success].
  - unfold get_trades.
    rewrite (extract_success _ _ _ _ st body _ _ (Hsrv _) H429 Hst), Hsel.
    eexists. split; [reflexivity | apply ui_after_success].
Qed.

Lemma accessors_raise_on_non_object_body_witness :
  let w := init 1000 (fun _ _ => Responds 200 (Ok (JArr [JStr "ABC"])))
             (fun _ => 1#20) (fun _ => 0) in
  (exists w', get_markets 1 20 w = Returned (Raise AttributeError) w'
              /\ ui w' = ui w)
  /\ (exists w', get_orderbook 1 "ABC" w = Returned (Raise AttributeError) w'
                 /\ ui w' = ui w)
  /\ (exists w', get_trades 1 20 w = Returned (Raise AttributeError) w'
                 /\ ui w' = ui w).
Proof.
  intros w.
  apply (accessors_raise_on_non_object_body w 200 (JArr [JStr "ABC"]) 0 20 "ABC").
  - reflexivity.
  - lia.
  - lia.
  - reflexivity.
  - intros fields. discriminate.
Defined.

(** X17. On an answer with a good status whose body is an object, the
    accessors hand back the entry they look for as it is: [get_markets]
    does not cut the list to [limit], however many markets the remote side
    sent.  A missing entry gives the empty list for [get_markets] and
    [get_trades] and [None] for [get_orderbook].  The orderbook is asked
    without any query parameter, and nothing is shown. *)
Theorem accessors_return_entries_whole :
  forall w st fields room limit ticker,
    (forall r, next_outcome (pace w) r = Responds st (Ok (JObj fields))) ->
    st <> 429%Z ->
    ~ (400 <= st < 600)%Z ->
    (exists w',
        get_markets (S room) limit w
        = Returned (Ok (match lookup "markets" fields with
                        | Some markets => markets
                        | None => JArr []
                        end)) w'
        /\ ui w' = ui w)
    /\ (exists w',
          get_orderbook (S room) ticker w
          = Returned (Ok (match lookup "orderbook" fields with
                          | Some orderbook => orderbook
                          | None => JNull
                          end)) w'
          /\ ui w' = ui w
          /\ sent w'
             = sent w ++ [(now (pace w),
                           mkRequest (BASE_URL ++ "/markets/" ++ ticker ++ "/orderbook")
                             None 30)])
    /\ (exists w',
          get_trades (S room) limit w
          = Returned (Ok (match lookup "trades" fields with
                          | Some trades => trades
                          | None => JArr []
                          end)) w'
          /\ ui w' = ui w).
Proof.
  intros w st fields room limit ticker Hsrv H429 Hst.
  assert (Hsel : forall key default,
             (if truthy (JObj fields)
              then dict_get (JObj fields) key default else Ok default)
             = Ok (match lookup key fields with
                   | Some v => v
                   | None => default
                   end)).
  { intros key default. destruct fields; reflexivity. }
  split; [| split].
  - unfold get_markets.
    rewrite (extract_success _ _ _ _ st _ _ _ (Hsrv _) H429 Hst), Hsel.
    eexists. split; [reflexivity | apply ui_after_success].
  - unfold get_orderbook.
    rewrite (extract_success _ _ _ _ st _ _ _ (Hsrv _) H429 Hst), Hsel.
    eexists. split; [reflexivity |]. split; [apply ui_after_success |].
    cbn [set_last_request exchanged sent].
    now destruct (pace_frame w) as (_ & _ & _ & -> & _).
  - unfold get_trades.
    rewrite (extract_success _ _ _ _ st _ _ _ (Hsrv _) H429 Hst), Hsel.
    eexists. split; [reflexivity | apply ui_after_success].
Qed.

(** Asked for 2 markets, the remote side sends 3. *)
Lemma accessors_return_entries_whole_witness :
  let fields := [("markets", JArr [JStr "ABC"; JStr "DEF"; JStr "GHI"])] in
  let w := init 1000 (fun _ _ => Responds 200 (Ok (JObj fields)))
             (fun _ => 1#20) (fun _ => 0) in
  (exists w',
      get_markets 1 2 w
      = Returned (Ok (JArr [JStr "ABC"; JStr "DEF"; JStr "GHI"])) w'
      /\ ui w' = ui w)
  /\ (exists w',
        get_orderbook 1 "ABC" w = Returned (Ok JNull) w'
        /\ ui w' = ui w
        /\ sent w'
           = sent w ++ [(now (pace w),
                         mkRequest (BASE_URL ++ "/markets/" ++ "ABC" ++ "/orderbook")
                           None 30)])
  /\ (exists w',
        get_trades 1 2 w = Returned (Ok (JArr [])) w' /\ ui w' = ui w).
Proof.
  intros fields w.
  apply (accessors_return_entries_whole w 200 fields 0 2 "ABC").
  - reflexivity.
  - lia.
  - lia.
Defined.

(** ** Two calls in a row *)

(** X18. A call that follows a call with a good answer by less than half
    a second starts by sleeping exactly what is missing to half a second,
    counted from the moment that answer came back. *)
Theorem second_call_sleeps_the_remainder :
  forall endpoint params room w st data gap endpoint2 params2 room2,
    next_outcome (pace w) (request_of endpoint params)
      = Responds st (Ok data) ->
    st <> 429%Z ->
    ~ (400 <= st < 600)%Z ->
    gap < 1#2 ->
    exists w1 nap more,
      safe_request (S room) endpoint params w = Returned data w1
      /\ slept (final (safe_request (S room2) endpoint2 params2 (elapse gap w1)))
         = slept w1 ++ nap :: more
      /\ nap == (1#2) - gap.
Proof.
  intros endpoint params room w st data gap endpoint2 params2 room2
    Hnext H429 Hst Hgap.
  rewrite (safe_request_success _ _ _ _ st data Hnext H429 Hst).
  set (w1 := set_last_request
               (now (exchanged (request_of endpoint params) (pace w)))
               (exchanged (request_of endpoint params) (pace w))).
  destruct (safe_request_trace endpoint2 params2 (S room2) (elapse gap w1))
    as (_ & _ & _ & _ & (rest & _ & Hslept)).
  destruct Hslept as [more Hmore]; [discriminate |].
  assert (Hearly : now (elapse gap w1) - last_request (elapse gap w1) < 1#2).
  { subst w1. cbn [elapse set_last_request now last_request]. lra. }
  rewrite (pace_sleeps _ Hearly) in Hmore. cbn [sleep slept] in Hmore.
  rewrite <- app_assoc in Hmore. cbn [app] in Hmore.
  exists w1. eexists. exists more. split; [reflexivity |].
  split; [exact Hmore |].
  subst w1. cbn [elapse set_last_request now last_request]. lra.
Qed.

Lemma second_call_sleeps_the_remainder_witness :
  let w := init 1000
             (mock_server [Responds 200 (Ok (JObj [("markets", JArr [])]));
                           Responds 200 (Ok (JObj [("trades", JArr [])]))])
             (fun _ => 1#20) (fun _ => 0) in
  exists w1 nap more,
    safe_request 1 "/markets" None w = Returned (JObj [("markets", JArr [])]) w1
    /\ slept (final (safe_request 1 "/markets/trades" None (elapse (1#10) w1)))
       = slept w1 ++ nap :: more
    /\ nap == (1#2) - (1#10).
Proof.
  intros w.
  apply (second_call_sleeps_the_remainder "/markets" None 0 w 200
           (JObj [("markets", JArr [])]) (1#10) "/markets/trades" None 0).
  - reflexivity.
  - lia.
  - lia.
  - lra.
Defined.

End DashboardMore.

(** * Properties of the demos and of the charts *)

Module DemosProps.

Import Complete.
Import Demos.

(** ** Grouping the series by category *)

Lemma key_eqb_refl cat : Python.hashable cat = true -> Python.key_eqb cat cat = true.
Proof.
  destruct cat; cbn; intros H; try reflexivity; try discriminate.
  - apply Bool.eqb_reflx.
  - apply Z.eqb_refl.
  - apply String.eqb_refl.
Qed.

(** Adding to the group of a key that is there, or to a new group at the
    end. *)
Lemma group_add_cases cat title categories :
  (exists before c titles after,
      categories = before ++ (c, titles) :: after
      /\ Python.key_eqb c cat = true
      /\ group_add cat title categories
         = before ++ (c, titles ++ [title]) :: after)
  \/ (Forall (fun entry => Python.key_eqb (fst entry) cat = false) categories
      /\ group_add cat title categories = categories ++ [(cat, [title])]).
Proof.
  induction categories as [| [c titles] rest IH]; cbn.
  - right. split; [constructor | reflexivity].
  - destruct (Python.key_eqb c cat) eqn:E.
    + left. exists [], c, titles, rest. repeat split. exact E.
    + destruct IH as [(before & c' & titles' & after & -> & Hc & ->) | (Hall & ->)].
      * left. exists ((c, titles) :: before), c', titles', after. repeat split.
        exact Hc.
      * right. split; [constructor; assumption | reflexivity].
Qed.

Lemma titles_of_app a b : titles_of (a ++ b) = titles_of a ++ titles_of b.
Proof. unfold titles_of. now rewrite map_app, concat_app. Qed.

Lemma titles_of_cons c titles rest :
  titles_of ((c, titles) :: rest) = titles ++ titles_of rest.
Proof. reflexivity. Qed.

Lemma group_add_titles cat title categories :
  Permutation (titles_of categories ++ [title])
    (titles_of (group_add cat title categories)).
Proof.
  destruct (group_add_cases cat title categories)
    as [(before & c & titles & after & -> & _ & ->) | (_ & ->)].
  - rewrite !titles_of_app, !titles_of_cons, <- !app_assoc.
    apply Permutation_app_head. apply Permutation_app_head.
    apply Permutation_app_comm.
  - rewrite titles_of_app, titles_of_cons. cbn. reflexivity.
Qed.

Lemma ForallOrdPairs_snoc {A : Type} (R : A -> A -> Prop) l x :
  ForallOrdPairs R l -> Forall (fun a => R a x) l -> ForallOrdPairs R (l ++ [x]).
Proof.
  intros Hl Hx. induction Hl as [| a l Ha Hl IH]; cbn.
  - constructor; constructor.
  - inversion Hx; subst. constructor.
    + apply Forall_app. split; [exact Ha | now constructor].
    + now apply IH.
Qed.

Lemma group_add_distinct cat title categories :
  distinct_keys categories -> distinct_keys (group_add cat title categories).
Proof.
  unfold distinct_keys. intros Hd.
  destruct (group_add_cases cat title categories)
    as [(before & c & titles & after & -> & _ & ->) | (Hall & ->)].
  - rewrite map_app in *. exact Hd.
  - rewrite map_app. cbn [map fst]. apply ForallOrdPairs_snoc; [exact Hd |].
    apply Forall_map. exact Hall.
Qed.

Lemma group_add_nonempty cat title categories :
  Forall (fun entry => snd entry <> []) categories ->
  Forall (fun entry => snd entry <> []) (group_add cat title categories).
Proof.
  intros Hne.
  destruct (group_add_cases cat title categories)
    as [(before & c & titles & after & -> & _ & ->) | (_ & ->)].
  - apply Forall_app in Hne as [Hb Ha]. inversion Ha; subst.
    apply Forall_app. split; [exact Hb |]. constructor; [| assumption].
    cbn. destruct titles; discriminate.
  - apply Forall_app. split; [exact Hne |]. constructor; [discriminate | constructor].
Qed.

Lemma group_add_keeps s cat title categories :
  filed s categories -> filed s (group_add cat title categories).
Proof.
  intros (cat0 & title0 & c0 & titles0 & Hcat & Htitle & Hin & Hkey & Hmem).
  destruct (group_add_cases cat title categories)
    as [(before & c & titles & after & -> & _ & ->) | (_ & ->)].
  - apply in_app_or in Hin as [Hin | [Heq | Hin]].
    + exists cat0, title0, c0, titles0. repeat split; auto.
      apply in_or_app. now left.
    + inversion Heq; subst. exists cat0, title0, c0, (titles0 ++ [title]).
      repeat split; auto.
      * apply in_or_app. right. now left.
      * apply in_or_app. now left.
    + exists cat0, title0, c0, titles0. repeat split; auto.
      apply in_or_app. right. now right.
  - exists cat0, title0, c0, titles0. repeat split; auto.
    apply in_or_app. now left.
Qed.

Lemma group_add_files s cat title categories :
  dict_get s "category" (JStr "Unknown") = Ok cat ->
  Python.getitem s "title" = Ok title ->
  Python.hashable cat = true ->
  filed s (group_add cat title categories).
Proof.
  intros Hcat Htitle Hhash.
  destruct (group_add_cases cat title categories)
    as [(before & c & titles & after & -> & Hc & ->) | (_ & ->)].
  - exists cat, title, c, (titles ++ [title]). repeat split; auto.
    + apply in_or_app. right. now left.
    + apply in_or_app. right. now left.
  - exists cat, title, cat, [title]. repeat split; auto.
    + apply in_or_app. right. now left.
    + now apply key_eqb_refl.
    + now left.
Qed.

(** The loop, from any dict of categories. *)
Lemma group_series_from items :
  forall categories groups,
    group_series items categories = Ok groups ->
    exists titles,
      comprehension (fun s => Python.getitem s "title") items = Ok titles
      /\ Permutation (titles_of categories ++ titles) (titles_of groups)
      /\ (distinct_keys categories -> distinct_keys groups)
      /\ (Forall (fun entry => snd entry <> []) categories ->
          Forall (fun entry => snd entry <> []) groups)
      /\ (forall s, filed s categories -> filed s groups)
      /\ Forall (fun s => filed s groups) items.
Proof.
  induction items as [| s rest IH]; intros categories groups Hrun;
    cbn [group_series] in Hrun.
  - inversion Hrun; subst. exists []. cbn [comprehension].
    rewrite app_nil_r. repeat split; auto.
  - destruct (dict_get s "category" (JStr "Unknown")) as [cat | e] eqn:Hcat;
      cbn [bind] in Hrun; [| discriminate].
    destruct (Python.hashable cat) eqn:Hhash; [| discriminate].
    destruct (Python.getitem s "title") as [title | e] eqn:Htitle;
      cbn [bind] in Hrun; [| discriminate].
    destruct (IH _ _ Hrun) as (titles & Hcomp & Hperm & Hdist & Hne & Hkeep & Hall).
    exists (title :: titles). cbn [comprehension]. rewrite Htitle, Hcomp.
    cbn [bind]. split; [reflexivity |]. split; [| split; [| split; [| split]]].
    + etransitivity; [| exact Hperm].
      change (title :: titles) with ([title] ++ titles). rewrite app_assoc.
      apply Permutation_app_tail. apply group_add_titles.
    + intros Hd. apply Hdist. now apply group_add_distinct.
    + intros Hn. apply Hne. now apply group_add_nonempty.
    + intros s0 Hs0. apply Hkeep. now apply group_add_keeps.
    + constructor; [| exact Hall].
      apply Hkeep. now apply group_add_files.
Qed.

(** X19. The grouping of [run_series_explorer] loses nothing and mixes
    nothing up.  When the loop goes through, every series has a title, the
    titles of the groups taken together are the titles of the series (each
    as often as it occurs), every series has its title in the group of its
    category (["Unknown"] when it has none), no two groups have the same
    category and no group is empty. *)
Theorem series_grouping_keeps_every_title :
  forall items groups,
    group_series items [] = Ok groups ->
    exists titles,
      comprehension (fun s => Python.getitem s "title") items = Ok titles
      /\ Permutation titles (titles_of groups)
      /\ Forall (fun s => filed s groups) items
      /\ distinct_keys groups
      /\ Forall (fun entry => snd entry <> []) groups.
Proof.
  intros items groups Hrun.
  destruct (group_series_from items [] groups Hrun)
    as (titles & Hcomp & Hperm & Hdist & Hne & _ & Hall).
  exists titles. split; [exact Hcomp |]. split; [exact Hperm |].
  split; [exact Hall |]. split; [apply Hdist | apply Hne]; constructor.
Qed.

(** Three series in two categories, one of them without category. *)
Lemma series_grouping_keeps_every_title_witness :
  let s1 := JObj [("title", JStr "Fed rate"); ("category", JStr "Economics")] in
  let s2 := JObj [("title", JStr "Rain in NYC")] in
  let s3 := JObj [("title", JStr "CPI"); ("category", JStr "Economics")] in
  let groups := [(JStr "Economics", [JStr "Fed rate"; JStr "CPI"]);
                 (JStr "Unknown", [JStr "Rain in NYC"])] in
  exists titles,
    comprehension (fun s => Python.getitem s "title") [s1; s2; s3] = Ok titles
    /\ Permutation titles (titles_of groups)
    /\ Forall (fun s => filed s groups) [s1; s2; s3]
    /\ distinct_keys groups
    /\ Forall (fun entry => snd entry <> []) groups.
Proof.
  intros s1 s2 s3 groups.
  apply (series_grouping_keeps_every_title [s1; s2; s3] groups).
  reflexivity.
Defined.

Lemma group_series_ok items :
  forall categories,
    Forall series_ok items ->
    exists groups, group_series items categories = Ok groups.
Proof.
  induction items as [| s rest IH]; intros categories Hok; cbn [group_series].
  - now exists categories.
  - inversion Hok as [| ? ? (cat & title & Hcat & Hhash & Htitle) Hrest]; subst.
    rewrite Hcat. cbn [bind]. rewrite Hhash, Htitle. cbn [bind].
    now apply IH.
Qed.

Lemma group_series_bad good :
  forall categories bad e rest,
    Forall series_ok good ->
    bad_series bad e ->
    group_series (good ++ bad :: rest) categories = Raise e.
Proof.
  induction good as [| s good IH]; intros categories bad e rest Hok Hbad;
    cbn [app group_series].
  - destruct Hbad as [s Hnot | s cat Hcat Hhash | fields cat Hcat Hhash Htitle].
    + destruct s; try reflexivity. exfalso. now apply (Hnot fields).
    + rewrite Hcat. cbn [bind]. now rewrite Hhash.
    + rewrite Hcat. cbn [bind]. rewrite Hhash. cbn [Python.getitem].
      now rewrite Htitle.
  - inversion Hok as [| ? ? (cat & title & Hcat & Hhash & Htitle) Hrest]; subst.
    rewrite Hcat. cbn [bind]. rewrite Hhash, Htitle. cbn [bind].
    now apply IH.
Qed.

(** X20. The grouping goes through when every series is an object with a
    title and a category that can be a key (a string, a number, a boolean,
    [null], or none at all).  Otherwise the first series that is not so
    decides: a value that is not an object raises [AttributeError], a list
    or an object as category raises [TypeError], a missing title raises
    [KeyError]; the series after it are not looked at. *)
Theorem series_grouping_fails_at_first_bad_series :
  forall good,
    Forall series_ok good ->
    (exists groups, group_series good [] = Ok groups)
    /\ (forall bad e rest,
          bad_series bad e -> group_series (good ++ bad :: rest) [] = Raise e).
Proof.
  intros good Hok. split.
  - now apply group_series_ok.
  - intros bad e rest Hbad. now apply group_series_bad.
Qed.

Lemma series_grouping_fails_at_first_bad_series_witness :
  let s1 := JObj [("title", JStr "Fed rate"); ("category", JStr "Economics")] in
  (exists groups, group_series [s1] [] = Ok groups)
  /\ (forall bad e rest,
        bad_series bad e -> group_series ([s1] ++ bad :: rest) [] = Raise e).
Proof.
  intros s1.
  apply (series_grouping_fails_at_first_bad_series [s1]).
  constructor; [| constructor].
  exists (JStr "Economics"), (JStr "Fed rate"). repeat split.
Defined.

(** ** The demos when there is nothing to show *)

(** X21. When the request fails, the quick start, the series explorer and
    the visualization each print their banner, the API error and their own
    line that nothing was found, and return normally after that one
    request: nothing is raised, nothing is formatted and nothing is
    plotted. *)
Theorem demos_return_when_the_request_fails :
  forall str_of format_grouped open_figure render fuel w e,
    (forall r, failure (next_outcome w r) e) ->
    run_quick_start str_of format_grouped (S fuel) w
    = Some (Ok tt,
            mkWorld (server w)
              (sent w ++ [markets_request [("limit", JNum 5); ("status", JStr "open")]])
              (stdout w ++ [Line "
🚀 QUICK START - Fetching Markets...";
                            ApiErrorLine e;
                            Line "❌ No markets found"]))
    /\ run_series_explorer str_of w
       = Some (Ok tt,
               mkWorld (server w)
                 (sent w ++ [mkRequest (BASE_URL ++ "/series") None 30])
                 (stdout w ++ [Line "
🗂️  SERIES EXPLORER...";
                               ApiErrorLine e;
                               Line "❌ No series found"]))
    /\ run_visualization open_figure render (S fuel) w
       = Some (Ok tt,
               mkWorld (server w)
                 (sent w ++ [markets_request [("limit", JNum 15); ("status", JStr "open")]])
                 (stdout w ++ [Line "
📈 CREATING VISUALIZATION...";
                               ApiErrorLine e;
                               Line "❌ Not enough markets for visualization"])).
Proof.
  intros str_of format_grouped open_figure render fuel w e Hfail.
  split; [| split].
  - unfold run_quick_start, get_markets. cbn [markets_loop].
    unfold next_params, markets_params. cbn [truthy given].
    match goal with
    | |- context [get ?ep ?ps ?w'] =>
        rewrite (CompleteProps.get_failed ep ps w' e (Hfail _))
    end.
    cbn [truthy negb]. unfold print, dispatched, markets_request.
    cbn [server sent stdout]. rewrite <- !app_assoc. reflexivity.
  - unfold run_series_explorer, get_series. cbn [given].
    match goal with
    | |- context [get ?ep ?ps ?w'] =>
        rewrite (CompleteProps.get_failed ep ps w' e (Hfail _))
    end.
    cbn [truthy]. unfold print, dispatched.
    cbn [server sent stdout]. rewrite <- !app_assoc. reflexivity.
  - unfold run_visualization, get_markets. cbn [markets_loop].
    unfold next_params, markets_params. cbn [truthy given].
    match goal with
    | |- context [get ?ep ?ps ?w'] =>
        rewrite (CompleteProps.get_failed ep ps w' e (Hfail _))
    end.
    cbn [truthy negb List.length Nat.ltb Nat.leb].
    unfold print, dispatched, markets_request.
    cbn [server sent stdout]. rewrite <- !app_assoc. reflexivity.
Qed.

Lemma demos_return_when_the_request_fails_witness :
  let w := mkWorld (fun _ _ => Fails "no route to host") [] [] in
  let e := TransportError "no route to host" in
  let str_of := fun _ : json => "?" in
  let format_grouped := fun _ : json => Ok "?" in
  let render := fun (_ _ : list json) (_ : list string) => Ok tt in
  run_quick_start str_of format_grouped 1 w
  = Some (Ok tt,
          mkWorld (server w)
            (sent w ++ [markets_request [("limit", JNum 5); ("status", JStr "open")]])
            (stdout w ++ [Line "
🚀 QUICK START - Fetching Markets...";
                          ApiErrorLine e;
                          Line "❌ No markets found"]))
  /\ run_series_explorer str_of w
     = Some (Ok tt,
             mkWorld (server w)
               (sent w ++ [mkRequest (BASE_URL ++ "/series") None 30])
               (stdout w ++ [Line "
🗂️  SERIES EXPLORER...";
                             ApiErrorLine e;
                             Line "❌ No series found"]))
  /\ run_visualization (Ok tt) render 1 w
     = Some (Ok tt,
             mkWorld (server w)
               (sent w ++ [markets_request [("limit", JNum 15); ("status", JStr "open")]])
               (stdout w ++ [Line "
📈 CREATING VISUALIZATION...";
                             ApiErrorLine e;
                             Line "❌ Not enough markets for visualization"])).
Proof.
  intros w e str_of format_grouped render.
  apply (demos_return_when_the_request_fails str_of format_grouped (Ok tt)
           render 0 w e).
  intros r. constructor.
Defined.

(** ** The lines of the quick start *)

Lemma show_market_ok str_of format_grouped i market w :
  market_ok format_grouped market ->
  exists l1 l2 l3 l4,
    show_market str_of format_grouped i market w
    = (Ok tt, mkWorld (server w) (sent w)
                (stdout w ++ [Line l1; Line l2; Line l3; Line l4])).
Proof.
  intros (title & ticker & yes & no & volume & text
          & Ht & Hk & Hy & Hn & Hv & Hf).
  unfold show_market. rewrite Ht, Hk, Hy, Hn, Hv. cbn [bind]. rewrite Hf.
  do 4 eexists. unfold print. cbn [server sent stdout].
  rewrite <- !app_assoc. reflexivity.
Qed.

Lemma show_markets_ok str_of format_grouped markets :
  forall i w,
    Forall (market_ok format_grouped) markets ->
    exists lines,
      show_markets str_of format_grouped i markets w
      = (Ok tt, mkWorld (server w) (sent w) (stdout w ++ lines))
      /\ List.length lines = (4 * List.length markets)%nat.
Proof.
  induction markets as [| market rest IH]; intros i w Hok; cbn [show_markets].
  - exists []. rewrite app_nil_r. destruct w. split; reflexivity.
  - inversion Hok as [| ? ? Hm Hrest]; subst.
    destruct (show_market_ok str_of format_grouped i market w Hm)
      as (l1 & l2 & l3 & l4 & ->).
    destruct (IH (S i)
                (mkWorld (server w) (sent w)
                   (stdout w ++ [Line l1; Line l2; Line l3; Line l4])) Hrest)
      as (lines & -> & Hlen).
    cbn [server sent stdout].
    exists ([Line l1; Line l2; Line l3; Line l4] ++ lines).
    rewrite <- app_assoc. split; [reflexivity |].
    rewrite length_app, Hlen. cbn [List.length]. lia.
Qed.

(** X22. The quick start prints four lines for each market that has its
    five fields (with a volume that can be grouped by thousands).  At the
    first market on which [market['title']] raises (a market without title,
    or a value that is not an object) it stops with that exception: the
    markets before it have their four lines, nothing is printed for it, and
    the markets after it are not looked at.  No request is made while
    printing. *)
Theorem quick_start_prints_four_lines_per_market :
  forall str_of format_grouped good i w,
    Forall (market_ok format_grouped) good ->
    (exists lines,
        show_markets str_of format_grouped i good w
        = (Ok tt, mkWorld (server w) (sent w) (stdout w ++ lines))
        /\ List.length lines = (4 * List.length good)%nat)
    /\ (forall bad e rest,
          Python.getitem bad "title" = Raise e ->
          exists lines,
            show_markets str_of format_grouped i (good ++ bad :: rest) w
            = (Raise e, mkWorld (server w) (sent w) (stdout w ++ lines))
            /\ List.length lines = (4 * List.length good)%nat).
Proof.
  intros str_of format_grouped good. 
  induction good as [| market good IH]; intros i w Hok.
  - split.
    + exists []. rewrite app_nil_r. destruct w. split; reflexivity.
    + intros bad e rest Hbad. exists []. cbn [app show_markets].
      unfold show_market. rewrite Hbad, app_nil_r. destruct w.
      split; reflexivity.
  - inversion Hok as [| ? ? Hm Hrest]; subst. split.
    + now apply show_markets_ok.
    + intros bad e rest Hbad. cbn [app show_markets].
      destruct (show_market_ok str_of format_grouped i market w Hm)
        as (l1 & l2 & l3 & l4 & ->).
      destruct (IH (S i)
                  (mkWorld (server w) (sent w)
                     (stdout w ++ [Line l1; Line l2; Line l3; Line l4])) Hrest)
        as (_ & Hstop).
      destruct (Hstop bad e rest Hbad) as (lines & -> & Hlen).
      cbn [server sent stdout].
      exists ([Line l1; Line l2; Line l3; Line l4] ++ lines).
      rewrite <- app_assoc. split; [reflexivity |].
      rewrite length_app, Hlen. cbn [List.length]. lia.
Qed.

Lemma quick_start_prints_four_lines_per_market_witness :
  let str_of := fun _ : json => "?" in
  let format_grouped := fun _ : json => Ok "1,000" in
  let market := JObj [("ticker", JStr "ABC"); ("title", JStr "Will X happen?");
                      ("yes_price", JNum 63); ("no_price", JNum 37);
                      ("volume", JNum 1000)] in
  let w := mkWorld (mock_server []) [] [] in
  (exists lines,
      show_markets str_of format_grouped 1 [market] w
      = (Ok tt, mkWorld (server w) (sent w) (stdout w ++ lines))
      /\ List.length lines = (4 * List.length [market])%nat)
  /\ (forall bad e rest,
        Python.getitem bad "title" = Raise e ->
        exists lines,
          show_markets str_of format_grouped 1 ([market] ++ bad :: rest) w
          = (Raise e, mkWorld (server w) (sent w) (stdout w ++ lines))
          /\ List.length lines = (4 * List.length [market])%nat).
Proof.
  intros str_of format_grouped market w.
  apply (quick_start_prints_four_lines_per_market str_of format_grouped
           [market] 1 w).
  constructor; [| constructor].
  exists (JStr "Will X happen?"), (JStr "ABC"), (JNum 63), (JNum 37),
    (JNum 1000), "1,000".
  repeat split.
Defined.

(** ** Labels *)

Lemma str_len_append a b : str_len (a ++ b) = (str_len a + str_len b)%nat.
Proof.
  induction a as [| c a IH]; cbn [append str_len]; [reflexivity |].
  destruct (continuation c); rewrite IH; reflexivity.
Qed.

Lemma str_len_prefix s :
  forall n, str_len (str_prefix n s) = Nat.min n (str_len s).
Proof.
  induction s as [| c s IH]; intros n; cbn [str_prefix str_len].
  - now rewrite Nat.min_0_r.
  - destruct (continuation c) eqn:E.
    + cbn [str_len]. rewrite E. apply IH.
    + destruct n as [| n]; [reflexivity |].
      cbn [str_len]. rewrite E, IH. reflexivity.
Qed.

Lemma str_prefix_all s :
  forall n, (str_len s <= n)%nat -> str_prefix n s = s.
Proof.
  induction s as [| c s IH]; intros n Hlen; cbn [str_prefix]; [reflexivity |].
  cbn [str_len] in Hlen. destruct (continuation c).
  - now rewrite IH.
  - destruct n as [| n]; [lia |]. rewrite IH; [reflexivity | lia].
Qed.

(** Three characters of two, three and four bytes. *)
Example text_is_counted_in_characters :
  str_len "é€😀" = 3%nat
  /\ String.length "é€😀" = 9%nat
  /\ str_prefix 2 "é€😀" = "é€"
  /\ py_iter (JStr "é€😀") = Ok [JStr "é"; JStr "€"; JStr "😀"]
  /\ Python.len (JStr "é€😀") = Ok 3%nat.
Proof. repeat split. Qed.

(** X23. The label of a bar in the saved chart is the title itself when
    it has at most 40 characters, and else its first 40 characters followed
    by three dots, 43 characters in all: never more than 43 characters. *)
Theorem bar_title_has_at_most_43_characters :
  forall m title,
    Python.getitem m "title" = Ok (JStr title) ->
    exists label,
      bar_title m = Ok (JStr label)
      /\ (str_len label <= 43)%nat
      /\ ((str_len title <= 40)%nat -> label = title)
      /\ ((40 < str_len title)%nat ->
          label = (str_prefix 40 title ++ "...")%string
          /\ str_len label = 43%nat).
Proof.
  intros m title Htitle. unfold bar_title. rewrite Htitle.
  cbn [bind Python.len].
  destruct (40 <? str_len title)%nat eqn:E.
  - apply Nat.ltb_lt in E. cbn [Python.prefix bind Python.add_str].
    assert (Hlen : str_len (str_prefix 40 title ++ "...") = 43%nat).
    { rewrite str_len_append, str_len_prefix.
      change (str_len "...") with 3%nat. lia. }
    eexists. split; [reflexivity |]. split; [| split].
    + rewrite Hlen. lia.
    + intros H. lia.
    + intros _. split; [reflexivity | exact Hlen].
  - apply Nat.ltb_ge in E. exists title. split; [reflexivity |].
    split; [lia |]. split; [reflexivity |]. intros H. lia.
Qed.

(** A title of 37 characters, five of them outside ASCII: it takes 43
    bytes and is kept whole. *)
Lemma bar_title_has_at_most_43_characters_witness :
  let title := "Le blé dépassera-t-il 300 € cet été ?" in
  exists label,
    bar_title (JObj [("title", JStr title)]) = Ok (JStr label)
    /\ (str_len label <= 43)%nat
    /\ ((str_len title <= 40)%nat -> label = title)
    /\ ((40 < str_len title)%nat ->
        label = (str_prefix 40 title ++ "...")%string
        /\ str_len label = 43%nat).
Proof.
  intros title.
  apply (bar_title_has_at_most_43_characters (JObj [("title", JStr title)]) title).
  reflexivity.
Defined.

(** Characters, not bytes: a title of 41 characters is cut after the
    40th, which here is the 42nd byte. *)
Example bar_title_cuts_characters :
  bar_title (JObj [("title", JStr "éé345678901234567890123456789012345678901")])
  = Ok (JStr "éé34567890123456789012345678901234567890...")
  /\ str_len "éé345678901234567890123456789012345678901" = 41%nat
  /\ String.length "éé345678901234567890123456789012345678901" = 43%nat.
Proof. repeat split. Qed.

End DemosProps.

Module ChartsProps.

Import Charts.

Lemma comprehension_Forall2 {A B : Type} (f : A -> result B) (R : A -> B -> Prop) l :
  Forall (fun x => exists y, f x = Ok y /\ R x y) l ->
  exists ys, Demos.comprehension f l = Ok ys /\ Forall2 R l ys.
Proof.
  induction 1 as [| x l (y & Hy & HR) _ (ys & Hys & HF)]; cbn.
  - exists []. split; [reflexivity | constructor].
  - rewrite Hy, Hys. cbn. exists (y :: ys). split; [reflexivity |].
    now constructor.
Qed.

Lemma comprehension_raises {A B : Type} (f : A -> result B) good :
  forall bad e rest,
    Forall (fun x => exists y, f x = Ok y) good ->
    f bad = Raise e ->
    Demos.comprehension f (good ++ bad :: rest) = Raise e.
Proof.
  induction good as [| x good IH]; intros bad e rest Hgood Hbad; cbn.
  - now rewrite Hbad.
  - inversion Hgood as [| ? ? (y & Hy) Hrest]; subst. rewrite Hy. cbn.
    now rewrite (IH bad e rest Hrest Hbad).
Qed.

Lemma titled_label d :
  titled d -> exists label, chart_label d = Ok label /\ labelled d label.
Proof.
  intros (fields & title & -> & Htitle). unfold chart_label.
  cbn [Python.getitem]. rewrite Htitle. cbn.
  eexists. split; [reflexivity |]. exists title. cbn. rewrite Htitle.
  split; reflexivity.
Qed.

Lemma titled_value key d :
  titled d -> exists value, dict_get d key (JNum 0) = Ok value /\ valued key d value.
Proof.
  intros (fields & title & -> & _). cbn. eexists. split; [reflexivity |].
  exists fields. split; reflexivity.
Qed.

Lemma chart_columns_titled key items :
  Forall titled (firstn 10 items) ->
  exists labels values,
    chart_columns key (JArr items) = Ok (labels, values)
    /\ Forall2 labelled (firstn 10 items) labels
    /\ Forall2 (valued key) (firstn 10 items) values.
Proof.
  intros Hall. unfold chart_columns. cbn [Python.prefix bind py_iter].
  destruct (comprehension_Forall2 chart_label labelled (firstn 10 items))
    as (labels & -> & Hlabels).
  { eapply Forall_impl; [| exact Hall]. intros d. apply titled_label. }
  destruct (comprehension_Forall2 (fun d => dict_get d key (JNum 0))
              (valued key) (firstn 10 items))
    as (values & -> & Hvalues).
  { eapply Forall_impl; [| exact Hall]. intros d. apply titled_value. }
  cbn [bind]. now exists labels, values.
Qed.

(** X24. On a list whose first ten items are objects with a string as
    title, the bar chart and the volume chart are made from one label and
    one value for each of the first ten items, in order, and from nothing
    of the items after them, which are not even looked at.  The label is
    the first 30 characters of the title followed by three dots (also when
    the title is shorter); the value is the item's [yes_price] (its
    [volume]), and 0 when the item has none.  These two lists go to pandas
    and Streamlit, whatever they make of them. *)
Theorem charts_show_the_first_ten_items :
  forall items,
    items <> [] ->
    Forall titled (firstn 10 items) ->
    exists labels yes_prices volumes,
      Forall2 labelled (firstn 10 items) labels
      /\ Forall2 (valued "yes_price") (firstn 10 items) yes_prices
      /\ Forall2 (valued "volume") (firstn 10 items) volumes
      /\ List.length labels = Nat.min 10 (List.length items)
      /\ (forall bar_chart,
            create_simple_chart bar_chart (JArr items) "bar"
            = bar_chart "Probability" labels yes_prices)
      /\ (forall bar_chart,
            create_simple_chart bar_chart (JArr items) "volume"
            = bar_chart "Volume" labels volumes).
Proof.
  intros items Hne Hall.
  assert (Htruthy : truthy (JArr items) = true).
  { destruct items; [now elim Hne | reflexivity]. }
  destruct (chart_columns_titled "yes_price" items Hall)
    as (labels & yes_prices & Hyes & Hl & Hv).
  destruct (chart_columns_titled "volume" items Hall)
    as (labels' & volumes & Hvol & Hl' & Hv').
  assert (labels' = labels).
  { clear - Hl Hl'. revert labels' Hl'.
    induction Hl as [| d label ds labels (t & Ht & ->) _ IH];
      intros labels' Hl'; inversion Hl' as [| ? label' ? ? (t' & Ht' & ->) Hrest];
      subst; [reflexivity |].
    rewrite Ht in Ht'. inversion Ht'; subst. f_equal. now apply IH. }
  subst labels'.
  exists labels, yes_prices, volumes.
  split; [exact Hl |]. split; [exact Hv |]. split; [exact Hv' |].
  split; [rewrite <- (Forall2_length Hl); apply length_firstn |].
  split; intros bar_chart; unfold create_simple_chart; rewrite Htruthy;
    cbn [negb String.eqb Ascii.eqb Bool.eqb].
  - now rewrite Hyes.
  - now rewrite Hvol.
Qed.

(** Twelve markets: ten bars. *)
Lemma charts_show_the_first_ten_items_witness :
  let market := JObj [("title", JStr "Will X happen?"); ("yes_price", JNum 63)] in
  let items := repeat market 10 ++ [JNull; JStr "not a market"] in
  exists labels yes_prices volumes,
    Forall2 labelled (firstn 10 items) labels
    /\ Forall2 (valued "yes_price") (firstn 10 items) yes_prices
    /\ Forall2 (valued "volume") (firstn 10 items) volumes
    /\ List.length labels = Nat.min 10 (List.length items)
    /\ (forall bar_chart,
          create_simple_chart bar_chart (JArr items) "bar"
          = bar_chart "Probability" labels yes_prices)
    /\ (forall bar_chart,
          create_simple_chart bar_chart (JArr items) "volume"
          = bar_chart "Volume" labels volumes).
Proof.
  intros market items.
  apply (charts_show_the_first_ten_items items).
  - discriminate.
  - cbn. repeat constructor;
      exists [("title", JStr "Will X happen?"); ("yes_price", JNum 63)],
        "Will X happen?"; split; reflexivity.
Defined.

(** What goes to pandas for two markets, one of them without price. *)
Example chart_of_two_markets :
  forall bar_chart,
    create_simple_chart bar_chart
      (JArr [JObj [("title", JStr "Rain?"); ("yes_price", JNum 40)];
             JObj [("title", JStr "Snow?")]])
      "bar"
    = bar_chart "Probability" [JStr "Rain?..."; JStr "Snow?..."]
        [JNum 40; JNum 0].
Proof. reflexivity. Qed.

(** X25. A label of the dashboard charts is the first 30 characters of
    the title followed by three dots: it has at most 33 characters and
    always ends in three dots, also when the title is short. *)
Theorem chart_label_has_at_most_33_characters :
  forall d title,
    Python.getitem d "title" = Ok (JStr title) ->
    exists head,
      chart_label d = Ok (JStr (head ++ "..."))
      /\ head = str_prefix 30 title
      /\ str_len head = Nat.min 30 (str_len title)
      /\ (str_len (head ++ "...") <= 33)%nat
      /\ ((str_len title <= 30)%nat -> head = title).
Proof.
  intros d title Htitle. unfold chart_label. rewrite Htitle.
  cbn [bind Python.prefix Python.add_str].
  exists (str_prefix 30 title). split; [reflexivity |].
  split; [reflexivity |].
  rewrite DemosProps.str_len_append, DemosProps.str_len_prefix.
  change (str_len "...") with 3%nat.
  split; [reflexivity |]. split; [lia |].
  apply DemosProps.str_prefix_all.
Qed.

(** A title of 20 characters that takes 40 bytes: it is kept whole. *)
Lemma chart_label_has_at_most_33_characters_witness :
  let title := "éééééééééééééééééééé" in
  exists head,
    chart_label (JObj [("title", JStr title)]) = Ok (JStr (head ++ "..."))
    /\ head = str_prefix 30 title
    /\ str_len head = Nat.min 30 (str_len title)
    /\ (str_len (head ++ "...") <= 33)%nat
    /\ ((str_len title <= 30)%nat -> head = title).
Proof.
  intros title.
  apply (chart_label_has_at_most_33_characters
           (JObj [("title", JStr title)]) title).
  reflexivity.
Defined.

Lemma bad_item_label bad e : bad_item bad e -> chart_label bad = Raise e.
Proof.
  intros [d Hnot | fields Htitle]; unfold chart_label.
  - destruct d; try reflexivity. exfalso. now apply (Hnot fields).
  - cbn [Python.getitem]. now rewrite Htitle.
Qed.

(** X26. The first of the first ten items on which the label raises
    decides what becomes of the chart.  When the items before it are
    objects with a string as title and it is an object without title,
    [create_simple_chart] raises [KeyError]; when it is not an object,
    [TypeError].  Nothing goes to pandas and Streamlit, and the items after
    it are not looked at. *)
Theorem chart_raises_at_the_first_bad_item :
  forall bar_chart good bad e rest chart_type,
    Forall titled good ->
    (List.length good < 10)%nat ->
    bad_item bad e ->
    chart_type = "bar" \/ chart_type = "volume" ->
    create_simple_chart bar_chart (JArr (good ++ bad :: rest)) chart_type
    = Raise e.
Proof.
  intros bar_chart good bad e rest chart_type Hgood Hlen Hbad Htype.
  assert (Hlabel := bad_item_label bad e Hbad).
  assert (Hfirst : exists tail,
             firstn 10 (good ++ bad :: rest) = good ++ bad :: tail).
  { rewrite firstn_app, (firstn_all2 good) by lia.
    destruct (10 - List.length good)%nat as [| k] eqn:E; [lia |].
    cbn [firstn]. now eexists. }
  destruct Hfirst as [tail Hfirst].
  assert (Hcols : forall key,
             chart_columns key (JArr (good ++ bad :: rest)) = Raise e).
  { intros key. unfold chart_columns. cbn [Python.prefix bind py_iter].
    rewrite Hfirst.
    rewrite (comprehension_raises chart_label good bad e tail);
      [reflexivity | | exact Hlabel].
    eapply Forall_impl; [| exact Hgood]. intros d Hd.
    destruct (titled_label d Hd) as (label & Hl & _). now exists label. }
  unfold create_simple_chart.
  replace (truthy (JArr (good ++ bad :: rest))) with true
    by (destruct good; reflexivity).
  cbn [negb].
  destruct Htype as [-> | ->]; cbn [String.eqb Ascii.eqb Bool.eqb];
    now rewrite Hcols.
Qed.

(** A market without title after a good one, and a [None] before it. *)
Lemma chart_raises_at_the_first_bad_item_witness :
  let bar_chart := fun (_ : string) (_ _ : list json) => Ok tt in
  create_simple_chart bar_chart
    (JArr ([JObj [("title", JStr "Rain?")]]
             ++ JObj [("yes_price", JNum 40)] :: [JNull]))
    "volume"
  = Raise Python.KeyError
  /\ create_simple_chart bar_chart
       (JArr ([] ++ JNull :: [JObj [("yes_price", JNum 40)]]))
       "bar"
     = Raise TypeError.
Proof.
  intros bar_chart. split.
  - apply (chart_raises_at_the_first_bad_item bar_chart
             [JObj [("title", JStr "Rain?")]] (JObj [("yes_price", JNum 40)])
             Python.KeyError [JNull] "volume").
    + constructor; [| constructor].
      exists [("title", JStr "Rain?")], "Rain?". split; reflexivity.
    + cbn. lia.
    + now constructor.
    + now right.
  - apply (chart_raises_at_the_first_bad_item bar_chart
             [] JNull TypeError [JObj [("yes_price", JNum 40)]] "bar").
    + constructor.
    + cbn. lia.
    + constructor. intros fields. discriminate.
    + now left.
Defined.

End ChartsProps.
